(** * QFT-Plus interpreter: decision, delta-check, batch and aggregation engine

    A shallow embedding of [qft_interpreter.py].  Python [float] values are
    IEEE binary64 numbers and are modelled by Rocq's primitive floats; Python
    [str] values are modelled by [string], holding the UTF-8 bytes of the
    text (so the dagger of the positive token is the three bytes E2 80 A0).
    Where a library behaves differently across versions or platforms (the
    table of decimal digits, the year that [strftime] writes, the row SQLite
    returns first among equal timestamps, the value it reads back from a
    REAL column), the embedding follows CPython 3.11 with Unicode 14.0,
    glibc and SQLite 3.40. *)

From Stdlib Require Import ZArith List String Ascii Bool Lia.
From Stdlib Require Import Floats DecimalString.
From Stdlib Require Import Sorted Permutation.
Import ListNotations.

#[local] Set Warnings "-inexact-float".
#[local] Open Scope string_scope.

(** ** Text: the [str] operations the program uses *)

Module PyStr.

(** [needle in hay] on [str]. *)
Fixpoint contains (needle hay : string) : bool :=
  if String.prefix needle hay then true
  else match hay with
       | EmptyString => false
       | String _ rest => contains needle rest
       end.

Definition byte (c : ascii) : N := N_of_ascii c.

(** Whitespace removed by [str.strip()]: the ASCII characters 09-0D, 1C-1F
    and 20, and, in their UTF-8 encoding, U+0085, U+00A0, U+1680,
    U+2000-U+200A, U+2028, U+2029, U+202F, U+205F and U+3000. *)
Definition ascii_space (c : ascii) : bool :=
  let n := byte c in
  ((9 <=? n) && (n <=? 13) || (28 <=? n) && (n <=? 32))%N.

(** Number of leading bytes of [s] that form one whitespace character
    ([0] when [s] does not start with whitespace). *)
Definition general_punctuation_space (n : N) : bool :=
  ((128 <=? n) && (n <=? 138) || (n =? 168) || (n =? 169) || (n =? 175))%N.

Definition ascii_space_width (s : list ascii) : nat :=
  match s with
  | c :: _ => if ascii_space c then 1 else 0
  | [] => 0
  end.

Definition leading_space (s : list ascii) : nat :=
  match map byte s with
  | (194 :: 133 :: _)%N | (194 :: 160 :: _)%N => 2
  | (225 :: 154 :: 128 :: _)%N => 3
  | (226 :: 128 :: n :: _)%N =>
      if general_punctuation_space n then 3 else ascii_space_width s
  | (226 :: 129 :: 159 :: _)%N => 3
  | (227 :: 128 :: 128 :: _)%N => 3
  | _ => ascii_space_width s
  end.

(** The same, read from the end of the text: [r] is the text reversed. *)
Definition trailing_space (r : list ascii) : nat :=
  match map byte r with
  | (133 :: 194 :: _)%N | (160 :: 194 :: _)%N => 2
  | (128 :: 154 :: 225 :: _)%N => 3
  | (n :: 128 :: 226 :: _)%N =>
      if general_punctuation_space n then 3 else ascii_space_width r
  | (159 :: 129 :: 226 :: _)%N => 3
  | (128 :: 128 :: 227 :: _)%N => 3
  | _ => ascii_space_width r
  end.

(** Drop whitespace characters as long as [width] finds one; [fuel] bounds
    the number of characters dropped (the length of the text is enough). *)
Fixpoint drop_while_space (width : list ascii -> nat) (fuel : nat)
    (s : list ascii) : list ascii :=
  match fuel with
  | O => s
  | S fuel' =>
      match width s with
      | O => s
      | w => drop_while_space width fuel' (skipn w s)
      end
  end.

Definition lstrip (s : list ascii) : list ascii :=
  drop_while_space leading_space (List.length s) s.

Definition rstrip (s : list ascii) : list ascii :=
  rev (drop_while_space trailing_space (List.length s) (rev s)).

(** [s.strip()] *)
Definition strip (s : string) : string :=
  string_of_list_ascii (rstrip (lstrip (list_ascii_of_string s))).

(** [s.lower()], on the letters A-Z.  No other character lowers to an
    ASCII letter of the header names the program compares with. *)
Definition lower_char (c : ascii) : ascii :=
  let n := byte c in
  if ((65 <=? n) && (n <=? 90))%N then ascii_of_N (n + 32) else c.

Fixpoint lower (s : string) : string :=
  match s with
  | EmptyString => EmptyString
  | String c rest => String (lower_char c) (lower rest)
  end.

(** Truth value of a [str]: non-empty. *)
Definition truthy (s : string) : bool :=
  match s with EmptyString => false | _ => true end.

(** [str(n)] for a non-negative [int]. *)
Definition of_nonneg (n : Z) : string :=
  NilZero.string_of_uint (N.to_uint (Z.to_N n)).

(** Bytewise order of TEXT values, as SQLite's BINARY collation compares
    them (the order of the code points, for UTF-8). *)
Fixpoint compare (a b : string) : comparison :=
  match a, b with
  | EmptyString, EmptyString => Eq
  | EmptyString, String _ _ => Lt
  | String _ _, EmptyString => Gt
  | String x a', String y b' =>
      match N.compare (byte x) (byte y) with
      | Eq => compare a' b'
      | c => c
      end
  end.

Definition leb (a b : string) : bool :=
  match compare a b with Gt => false | _ => true end.

(** The first character of a text: its code point and the rest of the
    text (the UTF-8 of a [str] is well formed). *)
Definition decode (s : list ascii) : option (N * list ascii) :=
  match s with
  | [] => None
  | a :: rest =>
      let a := byte a in
      if (a <? 128)%N then Some (a, rest)
      else if (a <? 192)%N then None
      else if (a <? 224)%N then
        match rest with
        | b :: rest' => Some (((a - 192) * 64 + (byte b - 128))%N, rest')
        | _ => None
        end
      else if (a <? 240)%N then
        match rest with
        | b :: c :: rest' =>
            Some ((((a - 224) * 64 + (byte b - 128)) * 64 + (byte c - 128))%N, rest')
        | _ => None
        end
      else
        match rest with
        | b :: c :: d :: rest' =>
            Some (((((a - 240) * 64 + (byte b - 128)) * 64 + (byte c - 128)) * 64
                   + (byte d - 128))%N, rest')
        | _ => None
        end
  end.

(** The code points of the digits zero of Unicode 14.0 (the version of
    Python 3.11): each is followed by the digits one to nine of its
    script. *)
Definition DECIMAL_ZEROS : list N :=
  [ 48; 1632; 1776; 1984; 2406; 2534; 2662; 2790; 2918;
    3046; 3174; 3302; 3430; 3558; 3664; 3792; 3872; 4160;
    4240; 6112; 6160; 6470; 6608; 6784; 6800; 6992; 7088;
    7232; 7248; 42528; 43216; 43264; 43472; 43504; 43600; 44016;
    65296; 66720; 68912; 69734; 69872; 69942; 70096; 70384; 70736;
    70864; 71248; 71360; 71472; 71904; 72016; 72784; 73040; 73120;
    92768; 92864; 93008; 120782; 120792; 120802; 120812; 120822; 123200;
    123632; 125264; 130032 ]%N.

(** The value of a decimal digit ([unicodedata.decimal]); [None] for any
    other character. *)
Definition decimal (code_point : N) : option Z :=
  match find (fun zero => (zero <=? code_point) && (code_point <=? zero + 9))%N
          DECIMAL_ZEROS with
  | Some zero => Some (Z.of_N (code_point - zero))
  | None => None
  end.

(** [\d] of [re] on [str], and a digit as [int] and [float] read it: one
    decimal digit of any script, with its value. *)
Definition unicode_digit (s : list ascii) : option (Z * list ascii) :=
  match decode s with
  | Some (code_point, rest) =>
      match decimal code_point with
      | Some d => Some (d, rest)
      | None => None
      end
  | None => None
  end.

End PyStr.

(** ** Numbers: formatting and parsing of binary64 values *)

Module PyFloat.

(** Round the rational [n / d] ([d > 0], [n >= 0]) to the nearest integer,
    ties to even. *)
Definition round_half_even (n d : Z) : Z :=
  let q := (n / d)%Z in
  let r := (n mod d)%Z in
  match (2 * r ?= d)%Z with
  | Lt => q
  | Gt => (q + 1)%Z
  | Eq => if Z.even q then q else (q + 1)%Z
  end.

Definition pad3 (n : Z) : string :=
  let s := PyStr.of_nonneg n in
  match String.length s with
  | 1 => "00" ++ s
  | 2 => "0" ++ s
  | _ => s
  end.

(** [f"{x:.3f}"]: the exact binary value of [x], correctly rounded (ties to
    even) to three decimals. *)
Definition format_3f (x : float) : string :=
  match Prim2SF x with
  | S754_nan => "nan"
  | S754_infinity s => if s then "-inf" else "inf"
  | S754_zero s => (if s then "-" else "") ++ "0.000"
  | S754_finite s m e =>
      let thousandths :=
        match e with
        | Zneg p => round_half_even (Zpos m * 1000) (2 ^ Zpos p)
        | _ => (Zpos m * 1000 * 2 ^ e)%Z
        end in
      (if s then "-" else "")
        ++ PyStr.of_nonneg (thousandths / 1000) ++ "."
        ++ pad3 (thousandths mod 1000)
  end.

(** *** [float(text)] *)

Definition digit_of (c : ascii) : option Z :=
  let n := PyStr.byte c in
  if ((48 <=? n) && (n <=? 57))%N then Some (Z.of_N n - 48)%Z else None.

(** The rest of a [digitpart] ([digit (["_"] digit)*]) after its first
    digit: the value read so far, the number of digits, the unread text. *)
Fixpoint digitpart_rest (acc : Z) (count : Z) (s : list ascii)
    : Z * Z * list ascii :=
  match s with
  | c :: s' =>
      match digit_of c with
      | Some d => digitpart_rest (10 * acc + d) (count + 1) s'
      | None =>
          if Ascii.eqb c "_" then
            match s' with
            | c' :: s'' =>
                match digit_of c' with
                | Some d => digitpart_rest (10 * acc + d) (count + 1) s''
                | None => (acc, count, s)
                end
            | [] => (acc, count, s)
            end
          else (acc, count, s)
      end
  | [] => (acc, count, [])
  end.

(** An optional [digitpart] continuing the value [acc]. *)
Definition digitpart (acc : Z) (s : list ascii) : Z * Z * list ascii :=
  match s with
  | c :: s' =>
      match digit_of c with
      | Some d => digitpart_rest (10 * acc + d) 1 s'
      | None => (acc, 0%Z, s)
      end
  | [] => (acc, 0%Z, [])
  end.

Definition sign (s : list ascii) : bool * list ascii :=
  match s with
  | c :: s' =>
      if Ascii.eqb c "-" then (true, s')
      else if Ascii.eqb c "+" then (false, s')
      else (false, s)
  | [] => (false, [])
  end.

(** [exponent ::= ("e" | "E") [sign] digitpart], or nothing. *)
Definition exponent (s : list ascii) : option Z :=
  match s with
  | [] => Some 0%Z
  | c :: s' =>
      if Ascii.eqb c "e" || Ascii.eqb c "E" then
        let '(neg, s'') := sign s' in
        match digitpart 0 s'' with
        | (_, 0%Z, _) => None
        | (v, _, []) => Some (if neg then (- v)%Z else v)
        | _ => None
        end
      else None
  end.

(** The rational [num / den] ([num >= 0], [den > 0]) with sign [neg],
    correctly rounded to binary64 (ties to even, overflow to infinity):
    the quotient is taken with at least 64 bits and the position of the
    remainder tells the rounding. *)
Definition of_ratio (neg : bool) (num den : Z) : float :=
  SF2Prim
    (if (num =? 0)%Z then S754_zero neg
     else
       let k := Z.max 0 (64 + Z.log2 den - Z.log2 num)%Z in
       let n := (num * 2 ^ k)%Z in
       let r := (n mod den)%Z in
       binary_round_aux prec emax neg (n / den)%Z (- k)%Z
         (if (r =? 0)%Z then loc_Exact else loc_Inexact (2 * r ?= den)%Z)).

(** [mantissa * 10 ^ exp10] with sign [neg], correctly rounded. *)
Definition of_decimal (neg : bool) (mantissa exp10 : Z) : float :=
  if (0 <=? exp10)%Z then of_ratio neg (mantissa * 10 ^ exp10)%Z 1
  else of_ratio neg mantissa (10 ^ (- exp10))%Z.

(** [a / b] on non-negative [int]s, [b > 0]: true division. *)
Definition int_truediv (a b : Z) : float := of_ratio false a b.

Definition special (neg : bool) (s : string) : option float :=
  let l := PyStr.lower s in
  if String.eqb l "inf" || String.eqb l "infinity"
  then Some (if neg then neg_infinity else infinity)
  else if String.eqb l "nan" then Some nan
  else None.

(** What [float] and [int] make of a text before they read it: an ASCII
    character stays, any other whitespace character becomes a blank, any
    other decimal digit the ASCII digit of its value, and any other
    character a question mark, at which the text ends.  [fuel] bounds the
    number of characters (the length of the text is enough). *)
Fixpoint to_ascii (fuel : nat) (s : list ascii) : list ascii :=
  match fuel, s with
  | S fuel', c :: rest =>
      if (PyStr.byte c <? 128)%N then c :: to_ascii fuel' rest
      else
        match PyStr.leading_space s with
        | S w => " "%char :: to_ascii fuel' (skipn (S w) s)
        | O =>
            match PyStr.unicode_digit s with
            | Some (d, rest') => ascii_of_N (48 + Z.to_N d) :: to_ascii fuel' rest'
            | None => [ "?"%char ]
            end
        end
  | _, _ => []
  end.

(** The whitespace [float] skips around the number: 09-0D and 20 (the
    characters 1C-1F, which [str.strip] removes, are not among them). *)
Definition c_space (c : ascii) : bool :=
  let n := PyStr.byte c in
  ((9 <=? n) && (n <=? 13) || (n =? 32))%N.

Fixpoint skip_c_space (s : list ascii) : list ascii :=
  match s with
  | c :: rest => if c_space c then skip_c_space rest else s
  | [] => []
  end.

(** [float(text)]: [None] stands for [ValueError].  The grammar is
    [[sign] (number [exponent] | "inf" | "infinity" | "nan")] with
    [number ::= [digitpart] "." digitpart | digitpart ["."]], between
    optional whitespace; the digits are the decimal digits of any
    script. *)
Definition float_of_string (text : string) : option float :=
  let ascii_text :=
    to_ascii (String.length text) (list_ascii_of_string text) in
  let stripped := rev (skip_c_space (rev (skip_c_space ascii_text))) in
  let '(neg, s) := sign stripped in
  match special neg (string_of_list_ascii s) with
  | Some x => Some x
  | None =>
      let '(int_value, int_digits, s1) := digitpart 0 s in
      let '(value, frac_digits, s2) :=
        match s1 with
        | c :: s1' =>
            if Ascii.eqb c "." then digitpart int_value s1'
            else (int_value, 0%Z, s1)
        | [] => (int_value, 0%Z, [])
        end in
      if (int_digits + frac_digits =? 0)%Z then None
      else match exponent s2 with
           | Some e => Some (of_decimal neg value (e - frac_digits))
           | None => None
           end
  end.

End PyFloat.

(** ** Constants *)

(** The three result tokens; the positive one ends with a dagger. *)
Definition POS : string := "POS†".
Definition NEG : string := "NEG".
Definition IND : string := "IND*".

Definition newline : string := String (ascii_of_N 10) EmptyString.

(** ** Core interpretation logic *)

(** The dictionary [interpret_qft] returns, with the three identifiers
    [run_interpretation] adds to it afterwards. *)
Record ResultDict := {
  result : string;
  tb1_nil : float;
  tb2_nil : float;
  mit_nil : float;
  nil_25 : float;
  reason : string;
  input_nil : float;
  input_tb1 : float;
  input_tb2 : float;
  input_mit : float;
  sample_id : option string;
  operator_id : option string;
  run_id : option string
}.

Definition interpret_qft (nil tb1 tb2 mit : float) : ResultDict :=
  let tb1_minus_nil := (tb1 - nil)%float in
  let tb2_minus_nil := (tb2 - nil)%float in
  let mit_minus_nil := (mit - nil)%float in
  let nil_25_percent := if (0 <=? nil)%float then (0.25 * nil)%float else 0%float in
  let '(qft_result, reason) :=
    if (8.0 <? nil)%float then
      (IND, "High Nil Control (" ++ PyFloat.format_3f nil ++ " > 8.0 IU/mL)")
    else
      let is_tb1_pos :=
        (0.35 <=? tb1_minus_nil)%float && (nil_25_percent <=? tb1_minus_nil)%float in
      let is_tb2_pos :=
        (0.35 <=? tb2_minus_nil)%float && (nil_25_percent <=? tb2_minus_nil)%float in
      if is_tb1_pos then
        (POS, "TB1 Antigen positive (TB1-Nil="
                ++ PyFloat.format_3f tb1_minus_nil ++ " IU/mL)")
      else if is_tb2_pos then
        (POS, "TB2 Antigen positive (TB2-Nil="
                ++ PyFloat.format_3f tb2_minus_nil ++ " IU/mL)")
      else if (0.5 <=? mit_minus_nil)%float then
        (NEG, "TB Antigens negative, Mitogen control valid")
      else
        (IND, "Low Mitogen Control (Mit-Nil="
                ++ PyFloat.format_3f mit_minus_nil ++ " < 0.5 IU/mL difference)") in
  {| result := qft_result; tb1_nil := tb1_minus_nil; tb2_nil := tb2_minus_nil;
     mit_nil := mit_minus_nil; nil_25 := nil_25_percent; reason := reason;
     input_nil := nil; input_tb1 := tb1; input_tb2 := tb2; input_mit := mit;
     sample_id := None; operator_id := None; run_id := None |}.

(** [SELF_TEST_CASES]: description, inputs, expected token. *)
Definition SELF_TEST_CASES : list (string * float * float * float * float * string) :=
  [ ("Clear Positive (TB1)", 0.10, 1.50, 0.20, 5.0, POS);
    ("Clear Positive (TB2)", 0.20, 0.40, 2.00, 6.0, POS);
    ("Clear Negative", 0.10, 0.20, 0.30, 2.0, NEG);
    ("Indeterminate (High Nil)", 9.50, 10.0, 11.0, 15.0, IND);
    ("Indeterminate (Low Mitogen)", 0.20, 0.30, 0.40, 0.60, IND);
    ("Borderline Positive (TB1 near 0.35)", 0.10, 0.45, 0.20, 3.0, POS);
    ("Borderline Negative (TB1 below 0.35)", 0.10, 0.40, 0.20, 3.0, NEG);
    ("Borderline Positive (TB1 meets 25% rule)", 1.00, 1.35, 0.50, 4.0, POS);
    ("Borderline Negative (TB1 fails 25% rule)", 1.60, 1.95, 0.50, 4.0, NEG)
  ]%float.

(** ** Delta check *)

Definition in_strings (x : string) (l : list string) : bool :=
  existsb (String.eqb x) l.

Definition in_pairs (p : string * string) (l : list (string * string)) : bool :=
  existsb (fun q => String.eqb (fst p) (fst q) && String.eqb (snd p) (snd q)) l.

Definition significant_pairs : list (string * string) :=
  [ (NEG, POS); (POS, NEG); (NEG, IND); (POS, IND) ].

Definition check_significant_change (prev_res curr_res : string) : bool :=
  if String.eqb prev_res curr_res then false
  else if in_pairs (prev_res, curr_res) significant_pairs
          || in_pairs (curr_res, prev_res) significant_pairs then true
  else if String.eqb prev_res IND && in_strings curr_res [POS; NEG] then true
  else if String.eqb curr_res IND && in_strings prev_res [POS; NEG] then true
  else false.

(** ** Exceptions and effects *)

Inductive exn :=
  | Sqlite3Error (msg : string)
  | ValueError (msg : string)
  | IndexError
  | KeyError (key : string).

(** [str(e)] *)
Definition exn_text (e : exn) : string :=
  match e with
  | Sqlite3Error msg => msg
  | ValueError msg => msg
  | IndexError => "list index out of range"
  | KeyError key => "'" ++ key ++ "'"
  end.

(** What a call of a Python function does: return a value or raise. *)
Inductive outcome (A : Type) :=
  | Returns (a : A)
  | Raises (e : exn).
Arguments Returns {A} a.
Arguments Raises {A} e.

(** One row of the [interpretations] table (the [id] column is the position
    in the table).  A REAL column holds a number or NULL. *)
Module Db.
Record Row := {
  timestamp : string;
  operator_id : string;
  sample_id : string;
  nil_value : option float;
  tb1_value : option float;
  tb2_value : option float;
  mit_value : option float;
  result : string;
  reason : string;
  run_id : string
}.

(** A [float] bound to a REAL column, as it is read back: SQLite stores
    NULL for a NaN and drops the sign of a zero. *)
Definition real (x : float) : option float :=
  if PrimFloat.is_nan x then None
  else if PrimFloat.is_zero x then Some 0%float
  else Some x.
End Db.

(** The history database: its rows in insertion order, or a database that
    fails, in which case every statement raises [sqlite3.Error] with its
    message. *)
Inductive Database :=
  | Online (rows : list Db.Row)
  | Faulty (msg : string).

Inductive DialogKind := showerror | showwarning | showinfo.

Record Dialog := {
  kind : DialogKind;
  title : string;
  message : string
}.

(** The state the engine reads and writes: the database, the CSV log, the
    message boxes shown, the lines printed on stderr, the re-entrancy flag
    of [QFTApp], and the clock ([clock n] is the text of the n-th reading of
    [datetime.now()], formatted [%Y-%m-%d %H:%M:%S]). *)
Record World := {
  db : Database;
  log_file : list (list string);
  dialogs : list Dialog;
  stderr : list string;
  is_processing : bool;
  clock : nat -> string;
  ticks : nat
}.

Definition set_db (d : Database) (w : World) : World :=
  {| db := d; log_file := log_file w; dialogs := dialogs w; stderr := stderr w;
     is_processing := is_processing w; clock := clock w; ticks := ticks w |}.

Definition append_log (row : list string) (w : World) : World :=
  {| db := db w; log_file := log_file w ++ [row]; dialogs := dialogs w;
     stderr := stderr w; is_processing := is_processing w; clock := clock w;
     ticks := ticks w |}.

Definition messagebox (k : DialogKind) (t m : string) (w : World) : World :=
  {| db := db w; log_file := log_file w;
     dialogs := dialogs w ++ [{| kind := k; title := t; message := m |}];
     stderr := stderr w; is_processing := is_processing w; clock := clock w;
     ticks := ticks w |}.

Definition print_stderr (line : string) (w : World) : World :=
  {| db := db w; log_file := log_file w; dialogs := dialogs w;
     stderr := stderr w ++ [line]; is_processing := is_processing w;
     clock := clock w; ticks := ticks w |}.

Definition set_is_processing (b : bool) (w : World) : World :=
  {| db := db w; log_file := log_file w; dialogs := dialogs w; stderr := stderr w;
     is_processing := b; clock := clock w; ticks := ticks w |}.

(** [datetime.now().strftime('%Y-%m-%d %H:%M:%S')] *)
Definition now (w : World) : string * World :=
  (clock w (ticks w),
   {| db := db w; log_file := log_file w; dialogs := dialogs w; stderr := stderr w;
      is_processing := is_processing w; clock := clock w; ticks := S (ticks w) |}).

(** ** Logging *)

(** One numeric column of a log row: [f"{float(v):.3f}" if v else ""], and
    [str(v)] when [float] raises. *)
Definition log_number (v : string) : string :=
  if PyStr.truthy v then
    match PyFloat.float_of_string v with
    | Some x => PyFloat.format_3f x
    | None => v
    end
  else "".

(** The [details] of an INTERPRET event: the four formatted inputs. *)
Record LogDetails := {
  details_nil : string;
  details_tb1 : string;
  details_tb2 : string;
  details_mit : string
}.

(** [log_event]: only INTERPRET events are written; every other event type
    returns at once.  [details] is [None] when the caller passes a text. *)
Definition log_event (event_type op_id run_id sample_id result reason : string)
    (details : option LogDetails) (w : World) : World :=
  if negb (String.eqb event_type "INTERPRET") then w
  else
    match details with
    | None =>
        print_stderr
          "Failed to write to log file: 'str' object has no attribute 'get'" w
    | Some d =>
        let '(timestamp, w1) := now w in
        append_log
          [ timestamp; op_id; run_id; sample_id;
            log_number (details_nil d); log_number (details_tb1 d);
            log_number (details_tb2 d); log_number (details_mit d);
            result; reason ] w1
    end.

(** ** Database helpers *)

Definition or_NA (v : option string) : string :=
  match v with Some s => s | None => "N/A" end.

Definition save_interpretation_to_db (data : ResultDict) (w : World) : bool * World :=
  match db w with
  | Online rows =>
      let '(ts, w1) := now w in
      (true,
       set_db (Online (rows ++
         [ {| Db.timestamp := ts;
              Db.operator_id := or_NA (operator_id data);
              Db.sample_id := or_NA (sample_id data);
              Db.run_id := or_NA (run_id data);
              Db.nil_value := Db.real (input_nil data);
              Db.tb1_value := Db.real (input_tb1 data);
              Db.tb2_value := Db.real (input_tb2 data);
              Db.mit_value := Db.real (input_mit data);
              Db.result := result data;
              Db.reason := reason data |} ])) w1)
  | Faulty e =>
      let w1 := print_stderr ("DB Save Error: " ++ e) w in
      (false,
       messagebox showerror "Database Error"
         ("Failed to save result to history for " ++ or_NA (sample_id data)
            ++ ":" ++ newline ++ e) w1)
  end.

(** [SELECT result, timestamp ... WHERE sample_id = ? ORDER BY timestamp DESC
    LIMIT 1]: the row of the sample with the greatest timestamp; among equal
    timestamps the first one written (SQLite finds the rows of the sample
    through the index on [sample_id], in the order they were written, and
    its sorter keeps the earlier of two equal rows). *)
Definition latest_of (sample : string) (rows : list Db.Row) : option Db.Row :=
  fold_left
    (fun best r =>
       if String.eqb (Db.sample_id r) sample then
         match best with
         | None => Some r
         | Some b => if PyStr.leb (Db.timestamp r) (Db.timestamp b) then best else Some r
         end
       else best)
    rows None.

Definition select_latest (d : Database) (sample : string)
    : outcome (option (string * string)) :=
  match d with
  | Online rows =>
      Returns (option_map (fun r => (Db.result r, Db.timestamp r)) (latest_of sample rows))
  | Faulty e => Raises (Sqlite3Error e)
  end.

(** [get_previous_result]: a database error is caught; the handler calls
    [log_event("ERROR", ...)] and returns [None]. *)
Definition get_previous_result (sample : string) (w : World)
    : outcome (option (string * string)) * World :=
  match select_latest (db w) sample with
  | Returns r => (Returns r, w)
  | Raises (Sqlite3Error e) =>
      (Returns None,
       log_event "ERROR" "System" "N/A" sample "N/A" "N/A" None w)
  | Raises e => (Raises e, w)
  end.

(** ** Dates: [datetime.strptime(text, '%Y-%m-%d')] and [strftime] *)

Module PyDate.

Record date := { year : Z; month : Z; day : Z }.

Definition is_leap (y : Z) : bool :=
  ((y mod 4 =? 0) && (negb (y mod 100 =? 0) || (y mod 400 =? 0)))%Z.

Definition days_in_month (y m : Z) : Z :=
  if (m =? 2)%Z then (if is_leap y then 29 else 28)%Z
  else if ((m =? 4) || (m =? 6) || (m =? 9) || (m =? 11))%Z then 30%Z
  else 31%Z.

(** The pieces of the regular expressions [strptime] builds.  [Pattern] reads
    a number from the front of the text: [None] when it does not match. *)
Definition Pattern := list ascii -> option (Z * list ascii).

(** [[lo-hi]]: one ASCII digit of that range. *)
Definition ascii_digit (lo hi : Z) : Pattern :=
  fun s =>
    match s with
    | c :: rest =>
        match PyFloat.digit_of c with
        | Some d => if ((lo <=? d) && (d <=? hi))%Z then Some (d, rest) else None
        | None => None
        end
    | [] => None
    end.

(** [\d]: one decimal digit of any script. *)
Definition any_digit : Pattern := PyStr.unicode_digit.

(** Two digits in sequence: the number they write. *)
Definition two_digits (p q : Pattern) : Pattern :=
  fun s =>
    match p s with
    | Some (a, s1) =>
        match q s1 with
        | Some (b, s2) => Some ((10 * a + b)%Z, s2)
        | None => None
        end
    | None => None
    end.

(** [p|q]: the first alternative that matches.  Each directive is followed
    by a character that is no digit or by the end of the format, so a
    later alternative cannot succeed where an earlier one matched. *)
Definition alt (p q : Pattern) : Pattern :=
  fun s => match p s with Some r => Some r | None => q s end.

(** A blank before the pattern. *)
Definition after_blank (p : Pattern) : Pattern :=
  fun s =>
    match s with
    | c :: rest => if Ascii.eqb c " " then p rest else None
    | [] => None
    end.

(** [%Y]: [\d\d\d\d]. *)
Definition directive_Y : Pattern :=
  fun s =>
    match two_digits any_digit any_digit s with
    | Some (hi, s1) =>
        match two_digits any_digit any_digit s1 with
        | Some (lo, s2) => Some ((100 * hi + lo)%Z, s2)
        | None => None
        end
    | None => None
    end.

(** [%m]: [1[0-2]|0[1-9]|[1-9]]. *)
Definition directive_m : Pattern :=
  alt (two_digits (ascii_digit 1 1) (ascii_digit 0 2))
    (alt (two_digits (ascii_digit 0 0) (ascii_digit 1 9))
       (ascii_digit 1 9)).

(** [%d]: [3[0-1]|[1-2]\d|0[1-9]|[1-9]| [1-9]]. *)
Definition directive_d : Pattern :=
  alt (two_digits (ascii_digit 3 3) (ascii_digit 0 1))
    (alt (two_digits (ascii_digit 1 2) any_digit)
       (alt (two_digits (ascii_digit 0 0) (ascii_digit 1 9))
          (alt (ascii_digit 1 9)
             (after_blank (ascii_digit 1 9))))).

Definition literal (c : ascii) (s : list ascii) : option (list ascii) :=
  match s with
  | a :: rest => if Ascii.eqb a c then Some rest else None
  | [] => None
  end.

(** [datetime.strptime(text, '%Y-%m-%d')]; [None] stands for [ValueError]
    (no match, unconverted data, or no such day in the calendar). *)
Definition strptime (text : string) : option date :=
  match directive_Y (list_ascii_of_string text) with
  | None => None
  | Some (y, s1) =>
      match literal "-" s1 with
      | None => None
      | Some s2 =>
          match directive_m s2 with
          | None => None
          | Some (m, s3) =>
              match literal "-" s3 with
              | None => None
              | Some s4 =>
                  match directive_d s4 with
                  | Some (d, []) =>
                      if ((1 <=? y) && (d <=? days_in_month y m))%Z
                      then Some {| year := y; month := m; day := d |}
                      else None
                  | _ => None
                  end
              end
          end
      end
  end.

Fixpoint zero_pad (width : nat) (s : string) : string :=
  match width - String.length s with
  | O => s
  | S _ => match width with
           | O => s
           | S w => "0" ++ zero_pad w s
           end
  end.

(** [d.strftime('%Y-%m-%d' + suffix)], as glibc writes it: the year without
    leading zeros (the C libraries of Windows and macOS write a year below
    1000 with four digits), month and day with two digits. *)
Definition strftime (d : date) (suffix : string) : string :=
  PyStr.of_nonneg (year d) ++ "-"
    ++ zero_pad 2 (PyStr.of_nonneg (month d)) ++ "-"
    ++ zero_pad 2 (PyStr.of_nonneg (day d)) ++ suffix.

End PyDate.

(** ** Report query *)

(** A row of the report query: [timestamp, operator_id, run_id, sample_id,
    result, reason]. *)
Module Report.
Record Row := {
  timestamp : string;
  operator : string;
  run_id : string;
  sample_id : string;
  result : string;
  reason : string
}.
End Report.

Definition report_row (r : Db.Row) : Report.Row :=
  {| Report.timestamp := Db.timestamp r; Report.operator := Db.operator_id r;
     Report.run_id := Db.run_id r; Report.sample_id := Db.sample_id r;
     Report.result := Db.result r; Report.reason := Db.reason r |}.

(** [ORDER BY timestamp ASC], rows of equal timestamp in insertion order. *)
Fixpoint insert_by_timestamp (r : Report.Row) (sorted : list Report.Row)
    : list Report.Row :=
  match sorted with
  | [] => [r]
  | x :: rest =>
      if PyStr.leb (Report.timestamp x) (Report.timestamp r)
      then x :: insert_by_timestamp r rest
      else r :: sorted
  end.

Definition order_by_timestamp (rows : list Report.Row) : list Report.Row :=
  fold_left (fun sorted r => insert_by_timestamp r sorted) rows [].

(** [SELECT ... WHERE timestamp BETWEEN ? AND ? ORDER BY timestamp ASC] *)
Definition select_between (d : Database) (start_dt end_dt : string)
    : outcome (list Report.Row) :=
  match d with
  | Online rows =>
      Returns (order_by_timestamp
        (map report_row
           (filter (fun r => PyStr.leb start_dt (Db.timestamp r)
                             && PyStr.leb (Db.timestamp r) end_dt) rows)))
  | Faulty e => Raises (Sqlite3Error e)
  end.

(** The two [strptime(...).strftime(...)] lines of [query_db_for_reports]. *)
Definition range_bounds (start_date_str end_date_str : string)
    : outcome (string * string) :=
  match PyDate.strptime start_date_str with
  | None => Raises (ValueError "time data does not match format '%Y-%m-%d'")
  | Some sd =>
      match PyDate.strptime end_date_str with
      | None => Raises (ValueError "time data does not match format '%Y-%m-%d'")
      | Some ed =>
          Returns (PyDate.strftime sd " 00:00:00", PyDate.strftime ed " 23:59:59")
      end
  end.

(** [query_db_for_reports]: both handlers show a message box and return the
    empty list. *)
Definition query_db_for_reports (start_date_str end_date_str : string) (w : World)
    : outcome (list Report.Row) * World :=
  let attempt :=
    match range_bounds start_date_str end_date_str with
    | Raises e => Raises e
    | Returns (start_dt, end_dt) => select_between (db w) start_dt end_dt
    end in
  match attempt with
  | Returns results => (Returns results, w)
  | Raises (Sqlite3Error e) =>
      (Returns [],
       messagebox showerror "Database Error"
         ("Failed to query history for report:" ++ newline ++ e) w)
  | Raises (ValueError _) =>
      (Returns [],
       messagebox showerror "Date Error"
         "Invalid date format. Please use YYYY-MM-DD." w)
  | Raises e => (Raises e, w)
  end.

(** ** Interpretation of one sample, as the batch import calls it *)

(** The [input_data] dictionary of [_process_row_data]. *)
Record InputData := {
  in_operator_id : string;
  in_run_id : string;
  in_sample_id : string;
  in_nil : float;
  in_tb1 : float;
  in_tb2 : float;
  in_mitogen : float
}.

(** A DELTA CHECK warning: previous result, its timestamp, current result
    (the text of the warning re-formats the timestamp). *)
Record DeltaWarning := {
  prev_res_val : string;
  prev_ts : string;
  curr_res_val : string
}.

(** The delta-check block of [run_interpretation]: the warnings it appends. *)
Definition delta_check (previous_db_result : option (string * string))
    (results_dict : ResultDict) : list DeltaWarning :=
  match previous_db_result with
  | Some (prev, ts) =>
      if check_significant_change prev (result results_dict)
      then [ {| prev_res_val := prev; prev_ts := ts;
                curr_res_val := result results_dict |} ]
      else []
  | None => []
  end.

Definition with_ids (r : ResultDict) (sample op run : string) : ResultDict :=
  {| result := result r; tb1_nil := tb1_nil r; tb2_nil := tb2_nil r;
     mit_nil := mit_nil r; nil_25 := nil_25 r; reason := reason r;
     input_nil := input_nil r; input_tb1 := input_tb1 r;
     input_tb2 := input_tb2 r; input_mit := input_mit r;
     sample_id := Some sample; operator_id := Some op; run_id := Some run |}.

(** The body of [run_interpretation] for [input_data is not None], between
    setting and resetting [is_processing]: the result and the warnings
    (which only the single-sample mode shows). *)
Definition interpretation_body (input_data : InputData) (w : World)
    : outcome (ResultDict * list DeltaWarning) * World :=
  match get_previous_result (in_sample_id input_data) w with
  | (Raises e, w1) => (Raises e, w1)
  | (Returns previous_db_result, w1) =>
      let results_dict :=
        with_ids
          (interpret_qft (in_nil input_data) (in_tb1 input_data)
             (in_tb2 input_data) (in_mitogen input_data))
          (in_sample_id input_data) (in_operator_id input_data)
          (in_run_id input_data) in
      let warnings := delta_check previous_db_result results_dict in
      let w2 :=
        log_event "INTERPRET" (or_NA (operator_id results_dict))
          (or_NA (run_id results_dict)) (or_NA (sample_id results_dict))
          (result results_dict) (reason results_dict)
          (Some {| details_nil := PyFloat.format_3f (input_nil results_dict);
                   details_tb1 := PyFloat.format_3f (input_tb1 results_dict);
                   details_tb2 := PyFloat.format_3f (input_tb2 results_dict);
                   details_mit := PyFloat.format_3f (input_mit results_dict) |})
          w1 in
      let '(save_successful, w3) := save_interpretation_to_db results_dict w2 in
      (Returns (results_dict, warnings), w3)
  end.

(** [run_interpretation(input_data=...)]: [None] when an interpretation is
    already in progress; [is_processing] is reset on every way out. *)
Definition run_interpretation (input_data : InputData) (w : World)
    : outcome (option ResultDict) * World :=
  if is_processing w then (Returns None, w)
  else
    match interpretation_body input_data (set_is_processing true w) with
    | (Returns (results_dict, _), w') =>
        (Returns (Some results_dict), set_is_processing false w')
    | (Raises e, w') => (Raises e, set_is_processing false w')
    end.

(** ** Batch import *)

(** A [dict] with text keys, as an association list. *)
Definition dict (V : Type) := list (string * V).

Fixpoint dict_get {V} (key : string) (d : dict V) : option V :=
  match d with
  | [] => None
  | (k, v) :: rest => if String.eqb k key then Some v else dict_get key rest
  end.

Fixpoint dict_set {V} (key : string) (v : V) (d : dict V) : dict V :=
  match d with
  | [] => [(key, v)]
  | (k, v') :: rest =>
      if String.eqb k key then (k, v) :: rest else (k, v') :: dict_set key v rest
  end.

(** [REQUIRED_BATCH_HEADERS], in sorted order. *)
Definition REQUIRED_BATCH_HEADERS : list string :=
  [ "mitogen"; "nil"; "sample id"; "tb1"; "tb2" ].

Fixpoint join (sep : string) (l : list string) : string :=
  match l with
  | [] => ""
  | [x] => x
  | x :: rest => x ++ sep ++ join sep rest
  end.

(** The loop of [_parse_header] over [enumerate(lowered_headers)]. *)
Fixpoint parse_header_loop (i : nat) (lowered_headers : list string)
    (header_map : dict nat) (found_headers : list string)
    : dict nat * list string :=
  match lowered_headers with
  | [] => (header_map, found_headers)
  | header :: rest =>
      let '(header_map, found_headers) :=
        if String.eqb header "sample id"
        then (dict_set "sample_id" i header_map, "sample id" :: found_headers)
        else if String.eqb header "nil"
        then (dict_set "nil" i header_map, "nil" :: found_headers)
        else if String.eqb header "tb1"
        then (dict_set "tb1" i header_map, "tb1" :: found_headers)
        else if String.eqb header "tb2"
        then (dict_set "tb2" i header_map, "tb2" :: found_headers)
        else if String.eqb header "mitogen"
        then (dict_set "mitogen" i header_map, "mitogen" :: found_headers)
        else (header_map, found_headers) in
      parse_header_loop (S i) rest header_map found_headers
  end.

(** [_parse_header]: the cells of the header row are given as texts (an
    empty Excel cell as the empty text). *)
Definition _parse_header (header_row : list string) (w : World)
    : option (dict nat) * World :=
  let lowered_headers := map (fun h => PyStr.lower (PyStr.strip h)) header_row in
  let '(header_map, found_headers) := parse_header_loop 0 lowered_headers [] [] in
  let missing_headers :=
    filter (fun h => negb (in_strings h found_headers)) REQUIRED_BATCH_HEADERS in
  match missing_headers with
  | [] => (Some header_map, w)
  | _ =>
      (None,
       messagebox showerror "Header Error"
         ("Missing headers:" ++ newline ++ join ", " missing_headers) w)
  end.

(** [row_values[header_map[key]]]: [KeyError] or [IndexError] when the key
    or the column is missing. *)
Definition cell (row_values : list string) (header_map : dict nat) (key : string)
    : outcome string :=
  match dict_get key header_map with
  | None => Raises (KeyError key)
  | Some i =>
      match nth_error row_values i with
      | Some v => Returns v
      | None => Raises IndexError
      end
  end.

(** The [try] block of [_process_row_data]. *)
Definition row_attempt (row_values : list string) (header_map : dict nat)
    (op_id run_id : string) (row_num : nat) (w : World)
    : outcome (option ResultDict) * World :=
  match cell row_values header_map "sample_id" with
  | Raises e => (Raises e, w)
  | Returns sample_cell =>
  match cell row_values header_map "nil" with
  | Raises e => (Raises e, w)
  | Returns nil_cell =>
  match cell row_values header_map "tb1" with
  | Raises e => (Raises e, w)
  | Returns tb1_cell =>
  match cell row_values header_map "tb2" with
  | Raises e => (Raises e, w)
  | Returns tb2_cell =>
  match cell row_values header_map "mitogen" with
  | Raises e => (Raises e, w)
  | Returns mit_cell =>
      let sample_id := PyStr.strip sample_cell in
      let nil_str := PyStr.strip nil_cell in
      let tb1_str := PyStr.strip tb1_cell in
      let tb2_str := PyStr.strip tb2_cell in
      let mit_str := PyStr.strip mit_cell in
      let row_text := PyStr.of_nonneg (Z.of_nat row_num) in
      if negb (PyStr.truthy sample_id) then
        (Returns None,
         print_stderr ("Skipping row " ++ row_text ++ ": Missing Sample ID.") w)
      else
        match PyFloat.float_of_string nil_str, PyFloat.float_of_string tb1_str,
              PyFloat.float_of_string tb2_str, PyFloat.float_of_string mit_str with
        | Some nil_val, Some tb1_val, Some tb2_val, Some mit_val =>
            run_interpretation
              {| in_operator_id := op_id; in_run_id := run_id;
                 in_sample_id := sample_id; in_nil := nil_val; in_tb1 := tb1_val;
                 in_tb2 := tb2_val; in_mitogen := mit_val |} w
        | _, _, _, _ =>
            (Returns None,
             print_stderr ("Skipping row " ++ row_text ++ " (Sample: " ++ sample_id
                             ++ "): Invalid numeric data.") w)
        end
  end end end end end.

(** [_process_row_data]: the result dictionary, or [None] for a row that
    is skipped. *)
Definition _process_row_data (row_values : list string) (header_map : dict nat)
    (op_id run_id : string) (row_num : nat) (w : World)
    : option ResultDict * World :=
  match row_attempt row_values header_map op_id run_id row_num w with
  | (Returns r, w') => (r, w')
  | (Raises IndexError, w') =>
      (None,
       print_stderr ("Skipping row " ++ PyStr.of_nonneg (Z.of_nat row_num)
                       ++ ": Too few columns.") w')
  | (Raises e, w') =>
      (None,
       log_event "ERROR" "System" "N/A" "N/A" "N/A" "N/A" None
         (print_stderr ("Error processing row " ++ PyStr.of_nonneg (Z.of_nat row_num)
                          ++ ": " ++ exn_text e) w'))
  end.

(** Truth value of a [dict]: non-empty. *)
Definition dict_truthy {V} (d : dict V) : bool :=
  match d with
  | [] => false
  | _ :: _ => true
  end.

(** The row loop of [_process_csv] and [_process_excel] over its variables
    [processed_results], [skipped], [row_num] and [header_map]; [any_value]
    is the test that keeps a row ([any(row)] for CSV).  The result is what
    the function returns: [processed_results, skipped, total]. *)
Fixpoint batch_loop (any_value : list string -> bool) (rows : list (list string))
    (op_id run_id : string) (processed_results : list ResultDict)
    (skipped row_num : nat) (header_map : option (dict nat)) (w : World)
    : (list ResultDict * nat * nat) * World :=
  match rows with
  | [] => ((processed_results, skipped, Nat.max 0 (row_num - 1)), w)
  | row :: rest =>
      let row_num := S row_num in
      let '(header_map, w1) :=
        if Nat.eqb row_num 1 then _parse_header row w else (header_map, w) in
      match header_map with
      | None =>
          if Nat.eqb row_num 1 then (([], 0, 0), w1)
          else batch_loop any_value rest op_id run_id processed_results skipped
                 row_num header_map w1
      | Some hm =>
          if dict_truthy hm && Nat.ltb 1 row_num then
            if negb (any_value row) then
              batch_loop any_value rest op_id run_id processed_results skipped
                row_num header_map w1
            else
              match _process_row_data row hm op_id run_id row_num w1 with
              | (Some result, w2) =>
                  batch_loop any_value rest op_id run_id
                    (processed_results ++ [result]) skipped row_num header_map w2
              | (None, w2) =>
                  batch_loop any_value rest op_id run_id processed_results
                    (S skipped) row_num header_map w2
              end
          else
            batch_loop any_value rest op_id run_id processed_results skipped
              row_num header_map w1
      end
  end.

(** [_process_csv]: [table] is what [csv.reader] yields. *)
Definition _process_csv (table : list (list string)) (op_id run_id : string)
    (w : World) : (list ResultDict * nat * nat) * World :=
  batch_loop (existsb PyStr.truthy) table op_id run_id [] 0 0 None w.

(** [_process_excel]: [table] holds [str(v)] of every cell value [v] of the
    sheet, the empty text for an empty cell. *)
Definition _process_excel (table : list (list string)) (op_id run_id : string)
    (w : World) : (list ResultDict * nat * nat) * World :=
  batch_loop (existsb (fun v => PyStr.truthy (PyStr.strip v))) table op_id run_id
    [] 0 0 None w.

(** ** Dashboard and summary report *)

(** A [Counter] with text keys: a missing key counts zero. *)
Definition Counter := dict nat.

Definition counter_get (key : string) (c : Counter) : nat :=
  match dict_get key c with Some n => n | None => 0 end.

Definition counter_incr (key : string) (c : Counter) : Counter :=
  dict_set key (S (counter_get key c)) c.

(** The counters both aggregations keep while they read the rows. *)
Record Counts := {
  pos_count : nat;
  neg_count : nat;
  ind_count : nat;
  ind_reasons : Counter
}.

Definition count_reason (reason : string) (ind_reasons : Counter) : Counter :=
  if PyStr.contains "High Nil" reason then counter_incr "High Nil" ind_reasons
  else if PyStr.contains "Low Mitogen" reason then counter_incr "Low Mitogen" ind_reasons
  else counter_incr "Other" ind_reasons.

(** The body of the [for row in data] loop of [update_dashboard]. *)
Definition dashboard_step (c : Counts) (row : Report.Row) : Counts :=
  let result := Report.result row in
  let reason := Report.reason row in
  if String.eqb result POS then
    {| pos_count := S (pos_count c); neg_count := neg_count c;
       ind_count := ind_count c; ind_reasons := ind_reasons c |}
  else if String.eqb result NEG then
    {| pos_count := pos_count c; neg_count := S (neg_count c);
       ind_count := ind_count c; ind_reasons := ind_reasons c |}
  else if String.eqb result IND then
    {| pos_count := pos_count c; neg_count := neg_count c;
       ind_count := S (ind_count c);
       ind_reasons := count_reason reason (ind_reasons c) |}
  else c.

(** The body of the [for row in data] loop of [_generate_report]: the
    reason is classified after the [if]/[elif] chain, for every row. *)
Definition report_step (c : Counts) (row : Report.Row) : Counts :=
  let result := Report.result row in
  let reason := Report.reason row in
  let c1 :=
    if String.eqb result POS then
      {| pos_count := S (pos_count c); neg_count := neg_count c;
         ind_count := ind_count c; ind_reasons := ind_reasons c |}
    else if String.eqb result NEG then
      {| pos_count := pos_count c; neg_count := S (neg_count c);
         ind_count := ind_count c; ind_reasons := ind_reasons c |}
    else if String.eqb result IND then
      {| pos_count := pos_count c; neg_count := neg_count c;
         ind_count := S (ind_count c); ind_reasons := ind_reasons c |}
    else c in
  {| pos_count := pos_count c1; neg_count := neg_count c1; ind_count := ind_count c1;
     ind_reasons := count_reason reason (ind_reasons c1) |}.

Definition no_counts : Counts :=
  {| pos_count := 0; neg_count := 0; ind_count := 0; ind_reasons := [] |}.

(** [(count / total * 100) if total > 0 else 0] *)
Definition rate (count total : nat) : float :=
  if Nat.ltb 0 total
  then (PyFloat.int_truediv (Z.of_nat count) (Z.of_nat total) * 100)%float
  else 0%float.

(** The numbers an aggregation hands on. *)
Record Summary := {
  total : nat;
  counts : Counts;
  pos_rate : float;
  ind_rate : float
}.

Definition summarize (step : Counts -> Report.Row -> Counts) (data : list Report.Row)
    : Summary :=
  let c := fold_left step data no_counts in
  {| total := List.length data; counts := c;
     pos_rate := rate (pos_count c) (List.length data);
     ind_rate := rate (ind_count c) (List.length data) |}.

(** The counting of [update_dashboard] over the rows of the query. *)
Definition dashboard_numbers (data : list Report.Row) : Summary :=
  summarize dashboard_step data.

(** The counting of [_generate_report] over the rows of the query. *)
Definition report_numbers (data : list Report.Row) : Summary :=
  summarize report_step data.

(** The part of [update_dashboard] from the query on.  The method takes no
    argument: [start_date_str] and [end_date_str] stand for the two texts
    it has computed with [strftime] from the clock and [dashboard_days]
    when it calls the query.  The result is the numbers it writes into the
    dashboard labels ([None] when the handler sets the labels to Error,
    which the query, catching its own errors, does not cause). *)
Definition update_dashboard (start_date_str end_date_str : string) (w : World)
    : option Summary * World :=
  match query_db_for_reports start_date_str end_date_str w with
  | (Returns data, w1) => (Some (dashboard_numbers data), w1)
  | (Raises _, w1) => (None, w1)
  end.

(** [_generate_report]: the numbers it computes for the PDF or Excel writer
    (the file dialog and the writers themselves are left out); [Returns None]
    when it returns before that: no rows (No Data is shown) or a format that
    is neither. *)
Definition _generate_report (format_type start_date_str end_date_str : string)
    (w : World) : outcome (option Summary) * World :=
  match query_db_for_reports start_date_str end_date_str w with
  | (Raises e, w1) => (Raises e, w1)
  | (Returns [], w1) =>
      (Returns None,
       messagebox showinfo "No Data"
         ("No records found between " ++ start_date_str ++ " and "
            ++ end_date_str ++ ".") w1)
  | (Returns data, w1) =>
      if String.eqb format_type "pdf" || String.eqb format_type "excel"
      then (Returns (Some (report_numbers data)), w1)
      else (Returns None, w1)
  end.

(** ** Timestamps: [datetime.strptime(text, '%Y-%m-%d %H:%M:%S')] *)

Module PyDateTime.

Record datetime := {
  date : PyDate.date;
  hour : Z;
  minute : Z;
  second : Z
}.

(** [%H]: [2[0-3]|[0-1]\d|\d] *)
Definition directive_H : PyDate.Pattern :=
  PyDate.alt (PyDate.two_digits (PyDate.ascii_digit 2 2) (PyDate.ascii_digit 0 3))
    (PyDate.alt (PyDate.two_digits (PyDate.ascii_digit 0 1) PyDate.any_digit)
       PyDate.any_digit).

(** [%M]: [[0-5]\d|\d] *)
Definition directive_M : PyDate.Pattern :=
  PyDate.alt (PyDate.two_digits (PyDate.ascii_digit 0 5) PyDate.any_digit)
    PyDate.any_digit.

(** [%S]: [6[0-1]|[0-5]\d|\d] *)
Definition directive_S : PyDate.Pattern :=
  PyDate.alt (PyDate.two_digits (PyDate.ascii_digit 6 6) (PyDate.ascii_digit 0 1))
    (PyDate.alt (PyDate.two_digits (PyDate.ascii_digit 0 5) PyDate.any_digit)
       PyDate.any_digit).

(** The blank of the format: [\s+], one or more whitespace characters. *)
Definition whitespace (s : list ascii) : option (list ascii) :=
  match PyStr.leading_space s with
  | O => None
  | _ => Some (PyStr.lstrip s)
  end.

(** [datetime.strptime(text, '%Y-%m-%d %H:%M:%S')]; [None] stands for
    [ValueError]. *)
Definition strptime (text : string) : option datetime :=
  match PyDate.directive_Y (list_ascii_of_string text) with
  | None => None
  | Some (y, s1) =>
  match PyDate.literal "-" s1 with
  | None => None
  | Some s2 =>
  match PyDate.directive_m s2 with
  | None => None
  | Some (m, s3) =>
  match PyDate.literal "-" s3 with
  | None => None
  | Some s4 =>
  match PyDate.directive_d s4 with
  | None => None
  | Some (d, s5) =>
  match whitespace s5 with
  | None => None
  | Some s6 =>
  match directive_H s6 with
  | None => None
  | Some (h, s7) =>
  match PyDate.literal ":" s7 with
  | None => None
  | Some s8 =>
  match directive_M s8 with
  | None => None
  | Some (mi, s9) =>
  match PyDate.literal ":" s9 with
  | None => None
  | Some s10 =>
  match directive_S s10 with
  | Some (sec, []) =>
      if ((1 <=? y) && (d <=? PyDate.days_in_month y m) && (sec <=? 59))%Z
      then Some {| date := {| PyDate.year := y; PyDate.month := m; PyDate.day := d |};
                   hour := h; minute := mi; second := sec |}
      else None
  | _ => None
  end end end end end end end end end end end.

(** [t.strftime('%Y-%m-%d %H:%M')] *)
Definition strftime_minutes (t : datetime) : string :=
  PyDate.strftime (date t)
    (" " ++ PyDate.zero_pad 2 (PyStr.of_nonneg (hour t)) ++ ":"
         ++ PyDate.zero_pad 2 (PyStr.of_nonneg (minute t))).

End PyDateTime.

(** ** Interpretation of one sample from the entry fields *)

(** [validate_input]: [(True, value)] or [(False, message)]. *)
Inductive Validation :=
  | Valid (value : float)
  | Invalid (msg : string).

Definition validate_input (value_str : string) : Validation :=
  if negb (PyStr.truthy value_str) then Invalid "Input cannot be empty."
  else match PyFloat.float_of_string value_str with
       | Some v => Valid v
       | None => Invalid "Invalid input. Please enter numeric values."
       end.

(** The texts of the entry fields of the main window. *)
Record Entries := {
  op_id_entry : string;
  run_id_entry : string;
  sample_id_entry : string;
  nil_entry : string;
  tb1_entry : string;
  tb2_entry : string;
  mit_entry : string
}.

(** The application around the engine's state: the last result shown and
    the text of the status bar. *)
Record App := {
  world : World;
  last_results : option ResultDict;
  status : string
}.

Definition set_status (msg : string) (a : App) : App :=
  {| world := world a; last_results := last_results a; status := msg |}.

Definition set_world (w : World) (a : App) : App :=
  {| world := w; last_results := last_results a; status := status a |}.

Definition set_last_results (r : option ResultDict) (a : App) : App :=
  {| world := world a; last_results := r; status := status a |}.

(** [text.strip() or "N/A"] *)
Definition strip_or_NA (text : string) : string :=
  if PyStr.truthy (PyStr.strip text) then PyStr.strip text else "N/A".

(** The error messages of the validation loop over Nil, TB1, TB2, Mitogen. *)
Definition error_messages (e : Entries) : list string :=
  flat_map
    (fun '(name, value_str) =>
       match validate_input value_str with
       | Valid _ => []
       | Invalid msg => [name ++ ": " ++ msg]
       end)
    [ ("Nil", nil_entry e); ("TB1", tb1_entry e); ("TB2", tb2_entry e);
      ("Mitogen", mit_entry e) ].

(** The timestamp of the previous result as the warning shows it. *)
Definition prev_ts_nice (prev_ts : string) : string :=
  match PyDateTime.strptime prev_ts with
  | Some t => PyDateTime.strftime_minutes t
  | None => prev_ts
  end.

(** The warnings of the single-sample mode, in the order they are
    appended: the two range notes, then the delta check. *)
Definition range_warnings (nil_val mit_val : float) : list string :=
  let nil_note : list string :=
    if (1.0 <? nil_val)%float && (nil_val <=? 8.0)%float
    then ["Nil (" ++ PyFloat.format_3f nil_val ++ ") high but acceptable."]
    else [] in
  let mit_note : list string :=
    if (15.0 <? mit_val)%float
    then ["Mitogen (" ++ PyFloat.format_3f mit_val ++ ") very high."]
    else [] in
  List.app nil_note mit_note.

Definition delta_warnings (previous_db_result : option (string * string))
    (results_dict : ResultDict) : list string :=
  map (fun d =>
         "DELTA CHECK: Result changed significantly from '" ++ prev_res_val d
           ++ "' (" ++ prev_ts_nice (prev_ts d) ++ ") to '" ++ curr_res_val d ++ "'.")
      (delta_check previous_db_result results_dict).

(** The [try] block of [run_interpretation] for [input_data is None], up to
    the stored result and the status line; the drawing of the result in the
    text widget and the label is left out. *)
Definition single_body (e : Entries) (a : App)
    : outcome (option ResultDict) * App :=
  let a := set_status "Processing Single Sample..." a in
  let op := strip_or_NA (op_id_entry e) in
  let run := strip_or_NA (run_id_entry e) in
  let sample := PyStr.strip (sample_id_entry e) in
  if negb (PyStr.truthy sample) then
    (Returns None,
     set_status "Error: Sample ID required."
       (set_world (messagebox showerror "Input Error" "Sample ID required." (world a)) a))
  else
    match validate_input (nil_entry e), validate_input (tb1_entry e),
          validate_input (tb2_entry e), validate_input (mit_entry e) with
    | Valid nil_val, Valid tb1_val, Valid tb2_val, Valid mit_val =>
        match get_previous_result sample (world a) with
        | (Raises x, w1) => (Raises x, set_world w1 a)
        | (Returns previous_db_result, w1) =>
            let results_dict :=
              with_ids (interpret_qft nil_val tb1_val tb2_val mit_val)
                sample op run in
            let warnings :=
              List.app (range_warnings nil_val mit_val)
                (delta_warnings previous_db_result results_dict) in
            let w2 :=
              match warnings with
              | [] => w1
              | _ => messagebox showwarning "Interpretation Warnings"
                       ("Please note:" ++ newline ++ newline ++ join newline warnings) w1
              end in
            let w3 :=
              log_event "INTERPRET" (or_NA (operator_id results_dict))
                (or_NA (run_id results_dict)) (or_NA (sample_id results_dict))
                (result results_dict) (reason results_dict)
                (Some {| details_nil := PyFloat.format_3f (input_nil results_dict);
                         details_tb1 := PyFloat.format_3f (input_tb1 results_dict);
                         details_tb2 := PyFloat.format_3f (input_tb2 results_dict);
                         details_mit := PyFloat.format_3f (input_mit results_dict) |})
                w2 in
            let '(save_successful, w4) := save_interpretation_to_db results_dict w3 in
            let a1 :=
              if save_successful then set_world w4 a
              else set_status "Warning: Failed to save to history DB." (set_world w4 a) in
            (Returns (Some results_dict),
             set_status
               ("Interpretation Complete. Result saved and logged."
                  ++ match warnings with [] => "" | _ => " (Warnings noted)" end)
               (set_last_results (Some results_dict) a1))
        end
    | _, _, _, _ =>
        (Returns None,
         set_status "Error: Invalid input."
           (set_last_results None
              (set_world
                 (messagebox showerror "Input Error"
                    (join newline (error_messages e)) (world a)) a)))
    end.

(** [run_interpretation()] from the Interpret button: [None] when an
    interpretation is already in progress; [is_processing] is reset on
    every way out. *)
Definition run_interpretation_single (e : Entries) (a : App)
    : outcome (option ResultDict) * App :=
  if is_processing (world a) then (Returns None, a)
  else
    match single_body e (set_world (set_is_processing true (world a)) a) with
    | (r, a') => (r, set_world (set_is_processing false (world a')) a')
    end.

(** ** Worklist *)

(** The worklist of the session, the listbox of the worklist window that
    shows it, and the text of the window's Sample ID entry. *)
Record Worklist := {
  worklist_items : list string;
  listbox : list string;
  add_entry : string
}.

(** [list.remove(x)]: the first item equal to [x] is taken out. *)
Fixpoint list_remove (x : string) (l : list string) : list string :=
  match l with
  | [] => []
  | y :: rest => if String.eqb y x then rest else y :: list_remove x rest
  end.

(** [listbox.delete(index)] *)
Definition listbox_delete (index : nat) (l : list string) : list string :=
  (firstn index l ++ skipn (S index) l)%list.

(** [_worklist_add] *)
Definition _worklist_add (wl : Worklist) (a : App) : Worklist * App :=
  let sample := PyStr.strip (add_entry wl) in
  if PyStr.truthy sample then
    if negb (in_strings sample (worklist_items wl)) then
      ({| worklist_items := (worklist_items wl ++ [sample])%list;
          listbox := (listbox wl ++ [sample])%list;
          add_entry := "" |},
       set_status ("'" ++ sample ++ "' added to worklist.") a)
    else
      (wl,
       set_world
         (messagebox showwarning "Duplicate"
            ("'" ++ sample ++ "' already in worklist.") (world a)) a)
  else (wl, a).

(** [_worklist_remove], [selection] being the selected index of the
    listbox, if any.  Without a selection the name [sample_id] is read
    before it is bound: the call raises [UnboundLocalError], for which
    [None] stands. *)
Definition _worklist_remove (selection : option nat) (wl : Worklist) (a : App)
    : option (Worklist * App) :=
  match selection with
  | None => None
  | Some index =>
      let sample := nth index (listbox wl) "" in
      let shown := listbox_delete index (listbox wl) in
      if in_strings sample (worklist_items wl) then
        Some ({| worklist_items := list_remove sample (worklist_items wl);
                 listbox := shown; add_entry := add_entry wl |},
              set_status ("'" ++ sample ++ "' removed from worklist.") a)
      else
        Some ({| worklist_items := worklist_items wl; listbox := shown;
                 add_entry := add_entry wl |},
              set_world
                (messagebox showwarning "Selection Error"
                   "Please select a Sample ID to remove." (world a)) a)
  end.

(** ** Configuration *)

#[local] Set Warnings "-register-all".

(** A decoded JSON value. *)
Inductive json :=
  | JNull
  | JBool (b : bool)
  | JInt (n : Z)
  | JFloat (x : float)
  | JString (s : string)
  | JArray (items : list json)
  | JObject (members : list (string * json)).

(** The configuration file: absent, unreadable ([IOError] or
    [json.JSONDecodeError]), or holding a JSON value. *)
Inductive ConfigFile :=
  | NoFile
  | Unreadable
  | Content (value : json).

Definition DEFAULT_CONFIG : dict json :=
  [ ("geometry", JString "700x750"); ("theme", JString "clam");
    ("dashboard_days", JInt 7) ].

Definition CONFIG_KEYS : list string := [ "geometry"; "theme"; "dashboard_days" ].

(** [config.update(other)] *)
Definition dict_update {V} (config other : dict V) : dict V :=
  fold_left (fun c '(k, v) => dict_set k v c) other config.

(** [load_config]: the configuration, or [None] for the [AttributeError]
    that a JSON value other than an object raises at [.items()], which no
    handler catches. *)
Definition load_config (file : ConfigFile) : option (dict json) :=
  match file with
  | NoFile => Some DEFAULT_CONFIG
  | Unreadable => Some DEFAULT_CONFIG
  | Content (JObject loaded_config) =>
      let valid_config :=
        filter (fun '(k, _) => in_strings k CONFIG_KEYS) loaded_config in
      Some (dict_update DEFAULT_CONFIG valid_config)
  | Content _ => None
  end.

(** [save_config]: the file after a [json.dump(config_data, f)] that
    succeeds. *)
Definition save_config (config_data : dict json) : ConfigFile :=
  Content (JObject config_data).

(** * Vocabulary of the properties

    The categories, the validation rules of the batch import in the words of
    the specification, the counts of a batch outcome, and the sample data the
    properties are checked on. *)

(** The three-value category domain and its tokens. *)
Inductive Category := Positive | Negative | Indeterminate.

Definition token (c : Category) : string :=
  match c with
  | Positive => POS
  | Negative => NEG
  | Indeterminate => IND
  end.

Definition canonical_tokens : list string := [ "NEG"; "POS†"; "IND*" ].

Definition category_total (c : Counts) : nat :=
  pos_count c + neg_count c + ind_count c.

(** The sum of the three indeterminate sub-reason counters. *)
Definition reasons_total (c : Counter) : nat :=
  counter_get "High Nil" c + counter_get "Low Mitogen" c + counter_get "Other" c.

Definition same_categories (a b : Counts) : Prop :=
  pos_count a = pos_count b /\ neg_count a = neg_count b
  /\ ind_count a = ind_count b.

(** A history of one Negative record, written on 1 May 2024. *)
Definition one_negative : World :=
  {| db := Online
       [ {| Db.timestamp := "2024-05-01 10:00:00"; Db.operator_id := "op";
            Db.sample_id := "S-001"; Db.nil_value := Some 0.10%float;
            Db.tb1_value := Some 0.20%float; Db.tb2_value := Some 0.30%float;
            Db.mit_value := Some 2.0%float; Db.result := "NEG";
            Db.reason := "TB Antigens negative, Mitogen control valid";
            Db.run_id := "run" |} ];
     log_file := []; dialogs := []; stderr := []; is_processing := false;
     clock := fun _ => "2024-05-02 09:00:00"; ticks := 0 |}.

Definition other_indeterminate (s : option Summary) : option nat :=
  option_map (fun s => counter_get "Other" (ind_reasons (counts s))) s.

Definition date_error (w : World) : World :=
  messagebox showerror "Date Error" "Invalid date format. Please use YYYY-MM-DD." w.

(** The world of [one_negative] with a database that fails. *)
Definition failing_database : World := set_db (Faulty "disk I/O error") one_negative.

Definition sample_input : InputData :=
  {| in_operator_id := "op"; in_run_id := "run"; in_sample_id := "S-001";
     in_nil := 0.10; in_tb1 := 1.50; in_tb2 := 0.20; in_mitogen := 5.0 |}.

(** The keys of a header map a row is read through. *)
Definition batch_keys : list string :=
  [ "sample_id"; "nil"; "tb1"; "tb2"; "mitogen" ].

(** The header name that sets each key. *)
Definition header_name (key : string) : string :=
  if String.eqb key "sample_id" then "sample id" else key.

Definition complete (header_map : dict nat) : Prop :=
  forall key, In key batch_keys -> dict_get key header_map <> None.

(** Loop invariant of [_parse_header]: a found header has its key set. *)
Definition found_are_set (header_map : dict nat) (found_headers : list string) : Prop :=
  forall key, In key batch_keys ->
    in_strings (header_name key) found_headers = true ->
    dict_get key header_map <> None.

(** The cell of a row under a mapped header, if the row is long enough. *)
Definition column (header_map : dict nat) (row : list string) (key : string)
    : option string :=
  match dict_get key header_map with
  | Some i => nth_error row i
  | None => None
  end.

(** A row that is entirely blank: every cell is the empty text. *)
Definition blank_row (row : list string) : bool :=
  forallb (fun c => String.eqb c "") row.

(** A row whose cells hold nothing but whitespace. *)
Definition whitespace_row (row : list string) : bool :=
  forallb (fun c => String.eqb (PyStr.strip c) "") row.

(** Too few columns: a mapped header points past the end of the row. *)
Definition too_few_columns (header_map : dict nat) (row : list string) : bool :=
  existsb (fun key => match column header_map row key with
                      | Some _ => false
                      | None => true
                      end) batch_keys.

(** A blank Sample ID. *)
Definition blank_sample_id (header_map : dict nat) (row : list string) : bool :=
  match column header_map row "sample_id" with
  | Some v => String.eqb (PyStr.strip v) ""
  | None => false
  end.

(** A nil, tb1, tb2 or mitogen cell that does not parse as a number. *)
Definition non_numeric (header_map : dict nat) (row : list string) : bool :=
  existsb (fun key => match column header_map row key with
                      | Some v =>
                          match PyFloat.float_of_string (PyStr.strip v) with
                          | Some _ => false
                          | None => true
                          end
                      | None => false
                      end) [ "nil"; "tb1"; "tb2"; "mitogen" ].

(** Rejected by a validation rule. *)
Definition rejected (header_map : dict nat) (row : list string) : bool :=
  too_few_columns header_map row || blank_sample_id header_map row
  || non_numeric header_map row.

Definition count {A : Type} (f : A -> bool) (l : list A) : nat :=
  List.length (filter f l).

Definition BatchOutcome : Type := (list ResultDict * nat * nat) * World.

Definition batch_processed (o : BatchOutcome) : list ResultDict := fst (fst (fst o)).
Definition batch_skipped (o : BatchOutcome) : nat := snd (fst (fst o)).
Definition batch_total (o : BatchOutcome) : nat := snd (fst o).

(** An empty history, nothing in progress. *)
Definition idle_world : World :=
  {| db := Online []; log_file := []; dialogs := []; stderr := [];
     is_processing := false; clock := fun _ => "2024-05-02 09:00:00"; ticks := 0 |}.

Definition batch_header : list string := [ "Sample ID"; "Nil"; "TB1"; "TB2"; "Mitogen" ].

(** Five data rows: the third has a blank Sample ID, the fourth a TB2 value
    that is not a number. *)
Definition five_rows : list (list string) :=
  [ [ "Sample-001"; "0.120"; "5.600"; "4.800"; "8.900" ];
    [ "Sample-002"; "0.080"; "0.150"; "0.200"; "6.500" ];
    [ ""; "0.210"; "0.450"; "0.330"; "7.100" ];
    [ "Sample-004"; "0.210"; "0.450"; "n/a"; "7.100" ];
    [ "Control-A"; "9.200"; "10.00"; "11.00"; "15.00" ] ].

Definition batch_header_map : dict nat :=
  [ ("sample_id", 0); ("nil", 1); ("tb1", 2); ("tb2", 3); ("mitogen", 4) ].

(** What a row adds to the processed and skipped counts of a batch. *)
Definition adds_nothing (o_with o_without : BatchOutcome) : Prop :=
  List.length (batch_processed o_with) = List.length (batch_processed o_without)
  /\ batch_skipped o_with = batch_skipped o_without.

Definition adds_one_skipped (o_with o_without : BatchOutcome) : Prop :=
  List.length (batch_processed o_with) = List.length (batch_processed o_without)
  /\ batch_skipped o_with = S (batch_skipped o_without).

(** A row of two blanks and three empty cells. *)
Definition spaces_row : list string := [ "  "; " "; ""; ""; "" ].

(** A line of three blanks, which [csv.reader] yields as a row of one
    cell. *)
Definition blanks_line : list string := [ "   " ].

(** ** Vocabulary of the further properties *)

(** An antigen well is positive: its response reaches 0.35 and the quarter
    of nil. *)
Definition antigen_positive (nil tb : float) : bool :=
  (0.35 <=? tb - nil)%float
  && ((if (0 <=? nil)%float then (0.25 * nil)%float else 0%float) <=? tb - nil)%float.

Definition has_result (tok : string) (row : Report.Row) : bool :=
  String.eqb (Report.result row) tok.

(** The report row of a classification. *)
Definition classified (row : Report.Row) : Prop :=
  exists nil tb1 tb2 mit : float,
    Report.result row = result (interpret_qft nil tb1 tb2 mit)
    /\ Report.reason row = reason (interpret_qft nil tb1 tb2 mit).

Definition of_sample (sample : string) (r : Db.Row) : bool :=
  String.eqb (Db.sample_id r) sample.

Definition earlier (a b : Report.Row) : Prop :=
  PyStr.leb (Report.timestamp a) (Report.timestamp b) = true.

Definition in_range (start_dt end_dt : string) (r : Db.Row) : bool :=
  PyStr.leb start_dt (Db.timestamp r) && PyStr.leb (Db.timestamp r) end_dt.

(** The input a data row stands for, when no validation rule rejects it. *)
Definition row_input (header_map : dict nat) (op_id run_id : string)
    (row : list string) : option InputData :=
  match column header_map row "sample_id", column header_map row "nil",
        column header_map row "tb1", column header_map row "tb2",
        column header_map row "mitogen" with
  | Some s, Some n, Some t1, Some t2, Some m =>
      if String.eqb (PyStr.strip s) "" then None
      else
        match PyFloat.float_of_string (PyStr.strip n),
              PyFloat.float_of_string (PyStr.strip t1),
              PyFloat.float_of_string (PyStr.strip t2),
              PyFloat.float_of_string (PyStr.strip m) with
        | Some nil_val, Some tb1_val, Some tb2_val, Some mit_val =>
            Some {| in_operator_id := op_id; in_run_id := run_id;
                    in_sample_id := PyStr.strip s; in_nil := nil_val;
                    in_tb1 := tb1_val; in_tb2 := tb2_val; in_mitogen := mit_val |}
        | _, _, _, _ => None
        end
  | _, _, _, _, _ => None
  end.

(** The result dictionary of an input. *)
Definition classify (i : InputData) : ResultDict :=
  with_ids (interpret_qft (in_nil i) (in_tb1 i) (in_tb2 i) (in_mitogen i))
    (in_sample_id i) (in_operator_id i) (in_run_id i).

(** The history row written for a result dictionary at a given time. *)
Definition to_history (ts : string) (data : ResultDict) : Db.Row :=
  {| Db.timestamp := ts;
     Db.operator_id := or_NA (operator_id data);
     Db.sample_id := or_NA (sample_id data);
     Db.run_id := or_NA (run_id data);
     Db.nil_value := Db.real (input_nil data);
     Db.tb1_value := Db.real (input_tb1 data);
     Db.tb2_value := Db.real (input_tb2 data);
     Db.mit_value := Db.real (input_mit data);
     Db.result := result data;
     Db.reason := reason data |}.

(** What one interpretation leaves behind. *)
Definition interpretation_effect (r : ResultDict) (w w' : World) : Prop :=
  is_processing w' = false
  /\ (exists log_row, log_file w' = (log_file w ++ [log_row])%list
                      /\ List.length log_row = 10)
  /\ match db w with
     | Online rows =>
         (exists ts, db w' = Online (rows ++ [to_history ts r]))
         /\ dialogs w' = dialogs w
     | Faulty e =>
         db w' = Faulty e
         /\ exists box, dialogs w' = (dialogs w ++ [box])%list
                        /\ kind box = showerror /\ title box = "Database Error"
     end.

(** The results of the rows that are kept and accepted, in row order. *)
Definition kept_results (excluded : list string -> bool) (header_map : dict nat)
    (op_id run_id : string) (rows : list (list string)) : list ResultDict :=
  flat_map
    (fun row =>
       if excluded row then []
       else match row_input header_map op_id run_id row with
            | Some i => [classify i]
            | None => []
            end) rows.

Definition database_error_box (box : Dialog) : Prop :=
  kind box = showerror /\ title box = "Database Error".

(** What a batch that produced [results] leaves behind: one log row for
    each result; on a database that answers, one history row for each
    result, appended in order, and no message box; on a database that
    fails, no change of the database and one error box for each result. *)
Definition batch_effect (results : list ResultDict) (w w' : World) : Prop :=
  is_processing w' = false
  /\ (exists log_rows, log_file w' = (log_file w ++ log_rows)%list
                       /\ List.length log_rows = List.length results
                       /\ Forall (fun r => List.length r = 10) log_rows)
  /\ match db w with
     | Online rows =>
         (exists added,
            db w' = Online (rows ++ added)
            /\ Forall2 (fun row r => exists ts, row = to_history ts r) added results)
         /\ dialogs w' = dialogs w
     | Faulty e =>
         db w' = Faulty e
         /\ exists boxes, dialogs w' = (dialogs w ++ boxes)%list
                          /\ List.length boxes = List.length results
                          /\ Forall database_error_box boxes
     end.

(** The header cells as [_parse_header] compares them. *)
Definition normalized (header_row : list string) : list string :=
  map (fun h => PyStr.lower (PyStr.strip h)) header_row.

(** The position of the last cell equal to [name]. *)
Fixpoint last_index (name : string) (cells : list string) : option nat :=
  match cells with
  | [] => None
  | c :: rest =>
      match last_index name rest with
      | Some k => Some (S k)
      | None => if String.eqb c name then Some 0 else None
      end
  end.

Definition missing_names (header_row : list string) : list string :=
  filter (fun h => negb (in_strings h (normalized header_row))) REQUIRED_BATCH_HEADERS.

(** The input the entry fields stand for, when all of them are valid. *)
Definition entries_input (e : Entries) : option InputData :=
  if negb (PyStr.truthy (PyStr.strip (sample_id_entry e))) then None
  else
    match validate_input (nil_entry e), validate_input (tb1_entry e),
          validate_input (tb2_entry e), validate_input (mit_entry e) with
    | Valid nil_val, Valid tb1_val, Valid tb2_val, Valid mit_val =>
        Some {| in_operator_id := strip_or_NA (op_id_entry e);
                in_run_id := strip_or_NA (run_id_entry e);
                in_sample_id := PyStr.strip (sample_id_entry e);
                in_nil := nil_val; in_tb1 := tb1_val; in_tb2 := tb2_val;
                in_mitogen := mit_val |}
    | _, _, _, _ => None
    end.

Definition input_error_box (box : Dialog) : Prop :=
  kind box = showerror /\ title box = "Input Error".

(** The text of the delta-check warning. *)
Definition delta_text (prev ts curr : string) : string :=
  "DELTA CHECK: Result changed significantly from '" ++ prev
    ++ "' (" ++ prev_ts_nice ts ++ ") to '" ++ curr ++ "'.".

(** The worklist window is in order: the listbox shows the worklist, which
    holds no item twice. *)
Definition worklist_ok (wl : Worklist) : Prop :=
  listbox wl = worklist_items wl /\ NoDup (worklist_items wl).

(** The rows of the history table, when the database answers. *)
Definition history_of (w : World) : list Db.Row :=
  match db w with
  | Online rows => rows
  | Faulty _ => []
  end.

Definition high_nil_history : list Report.Row :=
  [ {| Report.timestamp := "2024-05-01 10:00:00"; Report.operator := "op";
       Report.run_id := "run"; Report.sample_id := "Control-A";
       Report.result := result (interpret_qft 9.5 10.0 11.0 15.0);
       Report.reason := reason (interpret_qft 9.5 10.0 11.0 15.0) |} ].

(** A header row that names TB1 twice. *)
Definition repeated_header : list string :=
  [ "TB1"; "Sample ID"; "Nil"; " tb1 "; "TB2"; "Mitogen" ].

Definition short_header : list string := [ "Sample ID"; "Nil" ].

Definition ready_app : App :=
  {| world := one_negative; last_results := None; status := "Ready" |}.

Definition positive_entries : Entries :=
  {| op_id_entry := " me "; run_id_entry := ""; sample_id_entry := " S-001 ";
     nil_entry := "1.5"; tb1_entry := "3.0"; tb2_entry := " 0.2"; mit_entry := "16" |}.

Definition positive_input : InputData :=
  {| in_operator_id := "me"; in_run_id := "N/A"; in_sample_id := "S-001";
     in_nil := 1.5; in_tb1 := 3.0; in_tb2 := 0.2; in_mitogen := 16 |}.

Definition invalid_entries : Entries :=
  {| op_id_entry := " me "; run_id_entry := ""; sample_id_entry := " S-001 ";
     nil_entry := ""; tb1_entry := "3.0"; tb2_entry := " "; mit_entry := "x" |}.

Definition two_samples : Worklist :=
  {| worklist_items := [ "S-001"; "S-002" ]; listbox := [ "S-001"; "S-002" ];
     add_entry := " S-003 " |}.

Definition theme_only : list (string * json) :=
  [ ("theme", JString "alt"); ("font", JString "Segoe UI") ].

Definition wide_window : dict json :=
  [ ("geometry", JString "900x800"); ("theme", JString "alt");
    ("dashboard_days", JInt 30) ].

(** * Properties *)

(** ** Dictionaries *)

Section Dict.
Context {V : Type}.

Lemma dict_get_set_same (key : string) (v : V) (d : dict V) :
  dict_get key (dict_set key v d) = Some v.
Proof.
  induction d as [| [k v'] d IH]; simpl.
  - rewrite String.eqb_refl. reflexivity.
  - destruct (String.eqb_spec k key) as [E | N]; simpl.
    + subst. rewrite String.eqb_refl. reflexivity.
    + destruct (String.eqb_spec k key); [contradiction | exact IH].
Qed.

Lemma dict_get_set_other (key key' : string) (v : V) (d : dict V) :
  key <> key' -> dict_get key' (dict_set key v d) = dict_get key' d.
Proof.
  intros N. induction d as [| [k v'] d IH]; simpl.
  - destruct (String.eqb_spec key key'); [contradiction | reflexivity].
  - destruct (String.eqb_spec k key) as [E | N']; simpl.
    + subst. destruct (String.eqb_spec key key'); [contradiction | reflexivity].
    + rewrite IH. reflexivity.
Qed.

(** Setting a key never removes another one. *)
Lemma dict_set_keeps (key key' : string) (v : V) (d : dict V) :
  dict_get key' d <> None -> dict_get key' (dict_set key v d) <> None.
Proof.
  intros H. destruct (String.eqb_spec key key') as [E | N].
  - subst. rewrite dict_get_set_same. discriminate.
  - rewrite dict_get_set_other by exact N. exact H.
Qed.

End Dict.

(** ** Binary64 comparisons *)

Lemma SFcompare_antisym (x y : spec_float) :
  SFcompare y x = option_map CompOpp (SFcompare x y).
Proof.
  destruct x as [sx|sx| |sx mx ex], y as [sy|sy| |sy my ey]; simpl;
    try reflexivity;
    try (destruct sx; reflexivity); try (destruct sy; reflexivity);
    try (destruct sx, sy; reflexivity).
  change (PosDef.Pos.compare_cont Eq my mx) with (Pos.compare my mx).
  change (PosDef.Pos.compare_cont Eq mx my) with (Pos.compare mx my).
  rewrite (Z.compare_antisym ex ey), (Pos.compare_antisym mx my).
  destruct sx, sy, (ex ?= ey)%Z, (mx ?= my)%positive; reflexivity.
Qed.

(** [x <= y] excludes [y < x]. *)
Lemma leb_true_ltb_false (x y : float) :
  (x <=? y)%float = true -> (y <? x)%float = false.
Proof.
  rewrite leb_spec, ltb_spec. unfold SFleb, SFltb.
  rewrite (SFcompare_antisym (Prim2SF x) (Prim2SF y)).
  destruct (SFcompare (Prim2SF x) (Prim2SF y)) as [[ | | ]|]; simpl; congruence.
Qed.

(** Whatever is at least [0.35] is at least zero. *)
Lemma leb_035_nonneg (x : float) :
  (0.35 <=? x)%float = true -> (0 <=? x)%float = true.
Proof.
  rewrite !leb_spec.
  destruct (Prim2SF x) as [s|s| |s m e]; try (destruct s); vm_compute;
    congruence.
Qed.

(** ** Decision engine *)

(** Every result token is one of the three. *)
Lemma interpret_qft_tokens (nil tb1 tb2 mit : float) :
  result (interpret_qft nil tb1 tb2 mit) = POS
  \/ result (interpret_qft nil tb1 tb2 mit) = NEG
  \/ result (interpret_qft nil tb1 tb2 mit) = IND.
Proof.
  unfold interpret_qft.
  destruct (8.0 <? nil)%float; simpl; auto.
  destruct (_ && _); simpl; auto.
  destruct (_ && _); simpl; auto.
  destruct (0.5 <=? _)%float; simpl; auto.
Qed.

(** The self-test of the program passes on every case of its table. *)
Example self_test_passes :
  forallb
    (fun '(_, nil_val, tb1_val, tb2_val, mit_val, expected) =>
       String.eqb (result (interpret_qft nil_val tb1_val tb2_val mit_val)) expected)
    SELF_TEST_CASES = true.
Proof. reflexivity. Qed.

(** The boundary of the 0.35 threshold: 0.45 - 0.10 reaches it, 0.44 - 0.10
    does not and the panel is Negative by its mitogen control. *)
Example threshold_boundary :
  result (interpret_qft 0.10 0.45 0.20 3.0) = "POS†"
  /\ reason (interpret_qft 0.10 0.45 0.20 3.0)
     = "TB1 Antigen positive (TB1-Nil=0.350 IU/mL)"
  /\ result (interpret_qft 0.10 0.44 0.20 3.0) = "NEG".
Proof. repeat split. Qed.

(** C3: for every nil above 8.0 and all other inputs, the result is the
    Indeterminate token and the reason is the High Nil Control text with the
    measured value, which contains "High Nil"; the antigen and mitogen values
    play no part. *)
Theorem high_nil_is_indeterminate (nil tb1 tb2 mit : float) :
  (8.0 <? nil)%float = true ->
  result (interpret_qft nil tb1 tb2 mit) = "IND*"
  /\ reason (interpret_qft nil tb1 tb2 mit)
     = "High Nil Control (" ++ PyFloat.format_3f nil ++ " > 8.0 IU/mL)"
  /\ PyStr.contains "High Nil" (reason (interpret_qft nil tb1 tb2 mit)) = true.
Proof.
  intros H. unfold interpret_qft. rewrite H. simpl.
  repeat split. 
Qed.

Lemma high_nil_is_indeterminate_witness :
  result (interpret_qft 9.5 10.0 11.0 15.0) = "IND*"
  /\ reason (interpret_qft 9.5 10.0 11.0 15.0)
     = "High Nil Control (" ++ PyFloat.format_3f 9.5 ++ " > 8.0 IU/mL)"
  /\ PyStr.contains "High Nil" (reason (interpret_qft 9.5 10.0 11.0 15.0)) = true.
Proof.
  apply (high_nil_is_indeterminate 9.5 10.0 11.0 15.0). reflexivity.
Defined.

(** C4: with nil at most 8.0, a TB1 response of at least 0.35 and at least
    a quarter of nil gives the Positive token with the TB1 reason, whatever
    TB2 is. *)
Theorem tb1_positive_first (nil tb1 tb2 mit : float) :
  (nil <=? 8.0)%float = true ->
  (0.35 <=? tb1 - nil)%float = true ->
  (0.25 * nil <=? tb1 - nil)%float = true ->
  result (interpret_qft nil tb1 tb2 mit) = "POS†"
  /\ reason (interpret_qft nil tb1 tb2 mit)
     = "TB1 Antigen positive (TB1-Nil=" ++ PyFloat.format_3f (tb1 - nil) ++ " IU/mL)"
  /\ PyStr.contains "TB1" (reason (interpret_qft nil tb1 tb2 mit)) = true.
Proof.
  intros Hnil H35 H25. unfold interpret_qft.
  rewrite (leb_true_ltb_false _ _ Hnil), H35.
  assert (Hq : ((if (0 <=? nil)%float then (0.25 * nil)%float else 0%float)
                  <=? tb1 - nil)%float = true).
  { destruct (0 <=? nil)%float; [exact H25 | apply leb_035_nonneg, H35]. }
  rewrite Hq. simpl. repeat split.
Qed.

Lemma tb1_positive_first_witness :
  result (interpret_qft 0.10 1.50 2.00 5.0) = "POS†"
  /\ reason (interpret_qft 0.10 1.50 2.00 5.0)
     = "TB1 Antigen positive (TB1-Nil=" ++ PyFloat.format_3f (1.50 - 0.10) ++ " IU/mL)"
  /\ PyStr.contains "TB1" (reason (interpret_qft 0.10 1.50 2.00 5.0)) = true.
Proof.
  apply (tb1_positive_first 0.10 1.50 2.00 5.0); reflexivity.
Defined.

(** ** Delta check *)

Lemma canonical_is_token (s : string) :
  In s canonical_tokens -> exists c, s = token c.
Proof.
  simpl. intros [H | [H | [H | []]]]; subst;
    [exists Negative | exists Positive | exists Indeterminate]; reflexivity.
Qed.

(** C5: on the three categories, the pairwise table of
    [check_significant_change] is inequality. *)
Theorem significant_change_is_inequality (prev curr : Category) :
  check_significant_change (token prev) (token curr) = true <-> prev <> curr.
Proof.
  destruct prev, curr; split; intros H;
    try reflexivity;
    try (exfalso; apply H; reflexivity);
    try (intros E; discriminate E);
    vm_compute in H; discriminate H.
Qed.

Lemma flagged_is_canonical_change (prev curr : string) :
  check_significant_change prev curr = true ->
  In prev canonical_tokens /\ In curr canonical_tokens /\ prev <> curr.
Proof.
  unfold check_significant_change, in_pairs, in_strings, significant_pairs,
    canonical_tokens, POS, NEG, IND.
  destruct (String.eqb_spec prev curr) as [E | N]; [discriminate |].
  simpl.
  destruct (String.eqb_spec prev "NEG"), (String.eqb_spec prev "POS†"),
    (String.eqb_spec prev "IND*"), (String.eqb_spec curr "NEG"),
    (String.eqb_spec curr "POS†"), (String.eqb_spec curr "IND*");
    simpl; intros H; try discriminate H; subst; auto 10.
Qed.

(** C9: a change is flagged only between two different canonical tokens;
    so equal texts are never flagged, and neither is a pair with a text
    outside the three tokens. *)
Theorem significant_change_only_canonical (prev curr : string) :
  (check_significant_change prev curr = true ->
   In prev canonical_tokens /\ In curr canonical_tokens /\ prev <> curr)
  /\ (prev = curr -> check_significant_change prev curr = false)
  /\ (~ In prev canonical_tokens \/ ~ In curr canonical_tokens ->
      check_significant_change prev curr = false).
Proof.
  split; [apply flagged_is_canonical_change |].
  split; intros H;
    destruct (check_significant_change prev curr) eqn:E; try reflexivity;
    destruct (flagged_is_canonical_change prev curr E) as (Hp & Hc & Hn);
    tauto.
Qed.

Lemma significant_change_only_canonical_witness :
  In "NEG" canonical_tokens /\ In "POS†" canonical_tokens /\ "NEG" <> "POS†".
Proof.
  apply (proj1 (significant_change_only_canonical "NEG" "POS†")). reflexivity.
Defined.

(** ** Result tokens *)

Lemma dashboard_step_counts_token (c : Counts) (row : Report.Row) :
  In (Report.result row) canonical_tokens ->
  category_total (dashboard_step c row) = S (category_total c).
Proof.
  unfold dashboard_step, category_total, canonical_tokens.
  simpl. intros [H | [H | [H | []]]]; rewrite <- H; simpl; lia.
Qed.

Lemma report_step_counts_token (c : Counts) (row : Report.Row) :
  In (Report.result row) canonical_tokens ->
  category_total (report_step c row) = S (category_total c).
Proof.
  unfold report_step, category_total, canonical_tokens.
  simpl. intros [H | [H | [H | []]]]; rewrite <- H; simpl; lia.
Qed.

Lemma interpret_qft_canonical (nil tb1 tb2 mit : float) :
  In (result (interpret_qft nil tb1 tb2 mit)) canonical_tokens.
Proof.
  destruct (interpret_qft_tokens nil tb1 tb2 mit) as [H | [H | H]];
    rewrite H; simpl; auto.
Qed.

(** The claim with the plain tokens fails: a high-nil panel is reported with
    the token IND*, which is none of POS, NEG, IND. *)
Lemma plain_tokens_refuted :
  ~ In (result (interpret_qft 9.5 10.0 11.0 15.0)) [ "POS"; "NEG"; "IND" ].
Proof.
  vm_compute. intros [H | [H | [H | []]]]; discriminate H.
Qed.

Lemma log_event_db (event_type op_id run_id sample_id result reason : string)
    (details : option LogDetails) (w : World) :
  db (log_event event_type op_id run_id sample_id result reason details w) = db w.
Proof.
  unfold log_event.
  destruct (negb (String.eqb event_type "INTERPRET")); [reflexivity |].
  destruct details; reflexivity.
Qed.

Lemma get_previous_result_online (sample : string) (w : World) (rows : list Db.Row) :
  db w = Online rows ->
  exists prev, get_previous_result sample w = (Returns prev, w).
Proof.
  intros H. unfold get_previous_result. rewrite H. simpl. eauto.
Qed.

(** Saving to a database in order appends one row, which holds the result
    token of the dictionary. *)
Lemma save_appends_result (data : ResultDict) (w : World) (rows : list Db.Row) :
  db w = Online rows ->
  exists row,
    db (snd (save_interpretation_to_db data w)) = Online (rows ++ [row])
    /\ Db.result row = result data.
Proof.
  intros H. unfold save_interpretation_to_db. rewrite H. simpl.
  eexists. split; reflexivity.
Qed.

(** C2, amended: the token of every classification is one of POS†, NEG,
    IND*; this token is what the interpretation stores in the history; the
    dashboard and the report count a row carrying it under exactly one
    category, and the delta check flags two classifications exactly when
    their tokens differ. *)
Theorem result_is_canonical_token (nil tb1 tb2 mit : float) :
  In (result (interpret_qft nil tb1 tb2 mit)) [ "NEG"; "POS†"; "IND*" ]
  /\ (forall (sample op_id run_id : string) (w : World) (rows : list Db.Row),
        db w = Online rows ->
        is_processing w = false ->
        exists (r : ResultDict) (w' : World) (row : Db.Row),
          run_interpretation
            {| in_operator_id := op_id; in_run_id := run_id; in_sample_id := sample;
               in_nil := nil; in_tb1 := tb1; in_tb2 := tb2; in_mitogen := mit |} w
          = (Returns (Some r), w')
          /\ result r = result (interpret_qft nil tb1 tb2 mit)
          /\ db w' = Online (rows ++ [row])
          /\ Db.result row = result (interpret_qft nil tb1 tb2 mit))
  /\ (forall (c : Counts) (row : Report.Row),
        Report.result row = result (interpret_qft nil tb1 tb2 mit) ->
        category_total (dashboard_step c row) = S (category_total c)
        /\ category_total (report_step c row) = S (category_total c))
  /\ (forall nil' tb1' tb2' mit' : float,
        check_significant_change
          (result (interpret_qft nil' tb1' tb2' mit'))
          (result (interpret_qft nil tb1 tb2 mit)) = true
        <-> result (interpret_qft nil' tb1' tb2' mit')
            <> result (interpret_qft nil tb1 tb2 mit)).
Proof.
  split; [apply interpret_qft_canonical |]. split; [| split].
  - intros sample op_id run_id w rows Hdb Hidle.
    unfold run_interpretation. rewrite Hidle. unfold interpretation_body.
    cbn [in_sample_id in_nil in_tb1 in_tb2 in_mitogen in_operator_id in_run_id].
    destruct (get_previous_result_online sample (set_is_processing true w) rows Hdb)
      as [prev E].
    rewrite E.
    match goal with
    | |- context [save_interpretation_to_db ?d ?w2] =>
        assert (Hdb2 : db w2 = Online rows) by (rewrite log_event_db; exact Hdb);
        destruct (save_appends_result d w2 rows Hdb2) as (row & Hrow & Hres);
        destruct (save_interpretation_to_db d w2) as [ok w3]
    end.
    eexists _, _, row. split; [reflexivity |].
    split; [reflexivity |]. split; [exact Hrow | exact Hres].
  - intros c row E.
    pose proof (interpret_qft_canonical nil tb1 tb2 mit) as H.
    rewrite <- E in H.
    split; [apply dashboard_step_counts_token | apply report_step_counts_token];
      exact H.
  - intros nil' tb1' tb2' mit'.
    destruct (canonical_is_token _ (interpret_qft_canonical nil tb1 tb2 mit))
      as [c Hc].
    destruct (canonical_is_token _ (interpret_qft_canonical nil' tb1' tb2' mit'))
      as [c' Hc'].
    rewrite Hc, Hc'.
    destruct c, c'; split; intros H;
      try reflexivity;
      try (exfalso; apply H; reflexivity);
      try (intros E; discriminate E);
      vm_compute in H; discriminate H.
Qed.

(** ** Dashboard and report *)

Lemma steps_same_categories (data : list Report.Row) :
  forall a b : Counts,
    same_categories a b ->
    same_categories (fold_left dashboard_step data a) (fold_left report_step data b).
Proof.
  induction data as [| row data IH]; intros a b H; simpl; [exact H |].
  apply IH. destruct H as (Hp & Hn & Hi).
  unfold same_categories, dashboard_step, report_step.
  destruct (String.eqb (Report.result row) POS); simpl; [auto |].
  destruct (String.eqb (Report.result row) NEG); simpl; [auto |].
  destruct (String.eqb (Report.result row) IND); simpl; auto.
Qed.

(** The dashboard and the report agree on the total and on the three
    category counts. *)
Lemma report_matches_dashboard_categories (data : list Report.Row) :
  total (dashboard_numbers data) = total (report_numbers data)
  /\ same_categories (counts (dashboard_numbers data))
       (counts (report_numbers data)).
Proof.
  split; [reflexivity |].
  apply steps_same_categories. repeat split.
Qed.

Lemma report_agrees_with_dashboard_on_categories
    (format_type start_date_str end_date_str : string) (w : World) (r : Summary) :
  fst (_generate_report format_type start_date_str end_date_str w) = Returns (Some r) ->
  exists d : Summary,
    fst (update_dashboard start_date_str end_date_str w) = Some d
    /\ total d = total r
    /\ same_categories (counts d) (counts r).
Proof.
  unfold _generate_report, update_dashboard.
  destruct (query_db_for_reports start_date_str end_date_str w) as [[data | e] w1];
    simpl; [| discriminate].
  destruct data as [| row data]; simpl; [discriminate |].
  destruct (String.eqb format_type "pdf" || String.eqb format_type "excel");
    simpl; [| discriminate].
  intros H. injection H as <-.
  exists (dashboard_numbers (row :: data)). split; [reflexivity |].
  apply report_matches_dashboard_categories.
Qed.

Lemma counter_incr_same (key : string) (c : Counter) :
  counter_get key (counter_incr key c) = S (counter_get key c).
Proof. unfold counter_incr, counter_get at 1. rewrite dict_get_set_same. reflexivity. Qed.

Lemma counter_incr_other (key key' : string) (c : Counter) :
  key <> key' -> counter_get key' (counter_incr key c) = counter_get key' c.
Proof.
  intros N. unfold counter_incr, counter_get at 1.
  rewrite dict_get_set_other by exact N. reflexivity.
Qed.

(** Classifying one reason adds one to exactly one sub-reason counter. *)
Lemma count_reason_adds_one (reason : string) (c : Counter) :
  reasons_total (count_reason reason c) = S (reasons_total c).
Proof.
  unfold count_reason, reasons_total.
  destruct (PyStr.contains "High Nil" reason);
    [| destruct (PyStr.contains "Low Mitogen" reason)];
    repeat first [ rewrite counter_incr_same
                 | rewrite counter_incr_other by discriminate ];
    lia.
Qed.

(** The sub-reason counters of the dashboard add up to its indeterminate
    count. *)
Lemma dashboard_reasons_cover_indeterminate (data : list Report.Row) :
  reasons_total (ind_reasons (counts (dashboard_numbers data)))
  = ind_count (counts (dashboard_numbers data)).
Proof.
  unfold dashboard_numbers, summarize. simpl.
  assert (G : forall c : Counts,
             reasons_total (ind_reasons c) = ind_count c ->
             reasons_total (ind_reasons (fold_left dashboard_step data c))
             = ind_count (fold_left dashboard_step data c)).
  { induction data as [| row data IH]; intros c H; simpl; [exact H |].
    apply IH. unfold dashboard_step.
    destruct (String.eqb (Report.result row) POS); simpl; [exact H |].
    destruct (String.eqb (Report.result row) NEG); simpl; [exact H |].
    destruct (String.eqb (Report.result row) IND); simpl; [| exact H].
    rewrite count_reason_adds_one, H. reflexivity. }
  apply G. reflexivity.
Qed.

(** Those of the report add up to the number of all rows. *)
Lemma report_reasons_cover_all_rows (data : list Report.Row) :
  reasons_total (ind_reasons (counts (report_numbers data)))
  = total (report_numbers data).
Proof.
  unfold report_numbers, summarize. simpl.
  assert (G : forall c : Counts,
             reasons_total (ind_reasons (fold_left report_step data c))
             = reasons_total (ind_reasons c) + List.length data).
  { induction data as [| row data IH]; intros c; simpl; [lia |].
    rewrite IH. unfold report_step.
    destruct (String.eqb (Report.result row) POS); simpl;
      [rewrite count_reason_adds_one; lia |].
    destruct (String.eqb (Report.result row) NEG); simpl;
      [rewrite count_reason_adds_one; lia |].
    destruct (String.eqb (Report.result row) IND); simpl;
      rewrite count_reason_adds_one; lia. }
  rewrite G. reflexivity.
Qed.

(** C1 fails on the code: for the same range over a history of one Negative
    record, the dashboard counts no indeterminate sub-reason, while the
    report counts the record under Other, because it classifies the reason
    of every row and not of the indeterminate rows only. *)
Theorem report_counts_reasons_of_all_rows :
  other_indeterminate
    (fst (update_dashboard "2024-05-01" "2024-05-01" one_negative)) = Some 0
  /\ fst (_generate_report "pdf" "2024-05-01" "2024-05-01" one_negative)
     = Returns
         (Some {| total := 1;
                  counts := {| pos_count := 0; neg_count := 1; ind_count := 0;
                               ind_reasons := [ ("Other", 1) ] |};
                  pos_rate := 0; ind_rate := 0 |}).
Proof. split; vm_compute; reflexivity. Qed.

(** ** Date errors of the report query *)

Lemma range_bounds_invalid (start_date_str end_date_str : string) :
  PyDate.strptime start_date_str = None \/ PyDate.strptime end_date_str = None ->
  exists msg, range_bounds start_date_str end_date_str = Raises (ValueError msg).
Proof.
  unfold range_bounds. intros [H | H].
  - rewrite H. eauto.
  - rewrite H. destruct (PyDate.strptime start_date_str); eauto.
Qed.

Lemma query_with_invalid_date (start_date_str end_date_str : string) (w : World) :
  PyDate.strptime start_date_str = None \/ PyDate.strptime end_date_str = None ->
  query_db_for_reports start_date_str end_date_str w = (Returns [], date_error w).
Proof.
  intros H. destruct (range_bounds_invalid _ _ H) as [msg E].
  unfold query_db_for_reports. rewrite E. reflexivity.
Qed.

(** The claim that the call fails is refuted: with the month 13 in the
    start date, the report call raises nothing and returns. *)
Lemma invalid_date_raises_nothing :
  ~ exists e : exn,
      fst (_generate_report "pdf" "2024-13-01" "2024-05-01" one_negative) = Raises e.
Proof.
  intros [e H]. vm_compute in H. discriminate H.
Qed.

(** C7, amended: when a range endpoint of a report call is not a calendar
    date, the query catches the error, shows the Date Error box and returns
    the empty list, leaving the database, the log and stderr as they were;
    nothing is raised to the caller, and the report call returns without a
    report. *)
Theorem invalid_date_is_shown_not_raised
    (format_type start_date_str end_date_str : string) (w : World) :
  PyDate.strptime start_date_str = None \/ PyDate.strptime end_date_str = None ->
  query_db_for_reports start_date_str end_date_str w = (Returns [], date_error w)
  /\ db (date_error w) = db w
  /\ log_file (date_error w) = log_file w
  /\ stderr (date_error w) = stderr w
  /\ fst (_generate_report format_type start_date_str end_date_str w) = Returns None.
Proof.
  intros H. pose proof (query_with_invalid_date _ _ w H) as Q.
  unfold _generate_report. rewrite Q. repeat split.
Qed.

Lemma invalid_date_is_shown_not_raised_witness :
  query_db_for_reports "2024-13-01" "2024-05-01" one_negative
  = (Returns [], date_error one_negative)
  /\ db (date_error one_negative) = db one_negative
  /\ log_file (date_error one_negative) = log_file one_negative
  /\ stderr (date_error one_negative) = stderr one_negative
  /\ fst (_generate_report "pdf" "2024-13-01" "2024-05-01" one_negative) = Returns None.
Proof.
  apply (invalid_date_is_shown_not_raised "pdf" "2024-13-01" "2024-05-01" one_negative).
  left. reflexivity.
Defined.

(** ** Failing reads of the previous result *)

(** The claim that the error reaches the caller is refuted: the read of the
    previous result of S-001 fails and nothing is raised. *)
Lemma failed_read_raises_nothing :
  select_latest (db failing_database) "S-001" = Raises (Sqlite3Error "disk I/O error")
  /\ ~ exists e : exn, fst (get_previous_result "S-001" failing_database) = Raises e.
Proof.
  split; [reflexivity |]. intros [e H]. vm_compute in H. discriminate H.
Qed.

(** C8, amended: when the read of the latest record fails, the error is
    caught in [get_previous_result], which returns [None] as it does for a
    sample without history and writes nothing to the log, the message boxes
    or stderr; the interpretation then goes on to its result with no
    delta-check warning. *)
Theorem failed_read_is_no_previous_result
    (msg sample : string) (input_data : InputData) (w : World) :
  db w = Faulty msg ->
  select_latest (db w) sample = Raises (Sqlite3Error msg)
  /\ get_previous_result sample w = (Returns None, w)
  /\ fst (get_previous_result sample (set_db (Online []) w)) = Returns None
  /\ fst (interpretation_body input_data w)
     = Returns
         (with_ids
            (interpret_qft (in_nil input_data) (in_tb1 input_data)
               (in_tb2 input_data) (in_mitogen input_data))
            (in_sample_id input_data) (in_operator_id input_data)
            (in_run_id input_data),
          [])
  /\ (is_processing w = false ->
      fst (run_interpretation input_data w)
      = Returns (Some (with_ids
          (interpret_qft (in_nil input_data) (in_tb1 input_data)
             (in_tb2 input_data) (in_mitogen input_data))
          (in_sample_id input_data) (in_operator_id input_data)
          (in_run_id input_data)))).
Proof.
  intros H.
  assert (G : forall s w', db w' = Faulty msg ->
            get_previous_result s w' = (Returns None, w')).
  { intros s w' E. unfold get_previous_result. rewrite E. reflexivity. }
  split; [rewrite H; reflexivity |].
  split; [apply G, H |].
  split; [reflexivity |].
  split.
  { unfold interpretation_body. rewrite (G _ w H).
    destruct (save_interpretation_to_db _ _) as [ok w3]. reflexivity. }
  intros Hidle. unfold run_interpretation. rewrite Hidle.
  unfold interpretation_body.
  rewrite (G _ (set_is_processing true w) H).
  destruct (save_interpretation_to_db _ _) as [ok w3]. reflexivity.
Qed.

Lemma failed_read_is_no_previous_result_witness :
  select_latest (db failing_database) "S-001" = Raises (Sqlite3Error "disk I/O error")
  /\ get_previous_result "S-001" failing_database = (Returns None, failing_database)
  /\ fst (get_previous_result "S-001" (set_db (Online []) failing_database)) = Returns None
  /\ fst (interpretation_body sample_input failing_database)
     = Returns
         (with_ids
            (interpret_qft (in_nil sample_input) (in_tb1 sample_input)
               (in_tb2 sample_input) (in_mitogen sample_input))
            (in_sample_id sample_input) (in_operator_id sample_input)
            (in_run_id sample_input),
          [])
  /\ (is_processing failing_database = false ->
      fst (run_interpretation sample_input failing_database)
      = Returns (Some (with_ids
          (interpret_qft (in_nil sample_input) (in_tb1 sample_input)
             (in_tb2 sample_input) (in_mitogen sample_input))
          (in_sample_id sample_input) (in_operator_id sample_input)
          (in_run_id sample_input)))).
Proof.
  apply (failed_read_is_no_previous_result "disk I/O error" "S-001" sample_input
           failing_database).
  reflexivity.
Defined.

(** With a database that answers, the same interpretation carries the
    delta-check warning: S-001 changes from NEG to POS†. *)
Lemma working_read_warns :
  fst (interpretation_body sample_input one_negative)
  = Returns
      (with_ids
         (interpret_qft (in_nil sample_input) (in_tb1 sample_input)
            (in_tb2 sample_input) (in_mitogen sample_input))
         (in_sample_id sample_input) (in_operator_id sample_input)
         (in_run_id sample_input),
       [ {| prev_res_val := "NEG"; prev_ts := "2024-05-01 10:00:00";
            curr_res_val := "POS†" |} ]).
Proof. vm_compute. reflexivity. Qed.

(** ** Batch import *)

Lemma found_are_set_step (key : string) (i : nat) (header_map : dict nat)
    (found_headers : list string) :
  In key batch_keys ->
  found_are_set header_map found_headers ->
  found_are_set (dict_set key i header_map) (header_name key :: found_headers).
Proof.
  intros Hk Inv key' Hk' Hin.
  destruct (String.eqb_spec key key') as [E | N].
  - subst. rewrite dict_get_set_same. discriminate.
  - apply dict_set_keeps, Inv; [exact Hk' |].
    simpl in Hin. apply orb_true_iff in Hin. destruct Hin as [Hin | Hin]; [| exact Hin].
    exfalso. apply String.eqb_eq in Hin.
    simpl in Hk, Hk'.
    repeat (destruct Hk as [Hk | Hk]; [subst key |]); try contradiction;
      repeat (destruct Hk' as [Hk' | Hk']; [subst key' |]); try contradiction;
      vm_compute in Hin; try discriminate Hin; apply N; reflexivity.
Qed.

Lemma parse_header_loop_invariant (lowered_headers : list string) :
  forall (i : nat) (header_map : dict nat) (found_headers : list string),
    found_are_set header_map found_headers ->
    found_are_set (fst (parse_header_loop i lowered_headers header_map found_headers))
      (snd (parse_header_loop i lowered_headers header_map found_headers)).
Proof.
  induction lowered_headers as [| header rest IH]; intros i hm found Inv; simpl;
    [exact Inv |].
  destruct (String.eqb header "sample id");
    [apply IH, (found_are_set_step "sample_id"); simpl; auto |].
  destruct (String.eqb header "nil");
    [apply IH, (found_are_set_step "nil"); simpl; auto |].
  destruct (String.eqb header "tb1");
    [apply IH, (found_are_set_step "tb1"); simpl; auto |].
  destruct (String.eqb header "tb2");
    [apply IH, (found_are_set_step "tb2"); simpl; auto 6 |].
  destruct (String.eqb header "mitogen");
    [apply IH, (found_are_set_step "mitogen"); simpl; auto 6 |].
  apply IH, Inv.
Qed.

(** A header that is accepted leaves the world as it was and maps all five
    keys. *)
Lemma _parse_header_accepts (header_row : list string) (w : World)
    (header_map : dict nat) :
  fst (_parse_header header_row w) = Some header_map ->
  _parse_header header_row w = (Some header_map, w) /\ complete header_map.
Proof.
  unfold _parse_header.
  pose proof (parse_header_loop_invariant
                (map (fun h => PyStr.lower (PyStr.strip h)) header_row) 0 [] []) as Inv.
  destruct (parse_header_loop 0 _ [] []) as [hm found]. simpl in Inv.
  destruct (filter _ REQUIRED_BATCH_HEADERS) as [| m ms] eqn:F; simpl;
    [| discriminate].
  intros H. injection H as <-. split; [reflexivity |].
  intros key Hk. apply Inv; [intros k _ Hin; discriminate Hin | exact Hk |].
  assert (M : forall h, In h REQUIRED_BATCH_HEADERS -> in_strings h found = true).
  { intros h Hh. destruct (in_strings h found) eqn:E; [reflexivity |].
    assert (Hf : In h (filter (fun h => negb (in_strings h found))
                         REQUIRED_BATCH_HEADERS)).
    { apply filter_In. split; [exact Hh | rewrite E; reflexivity]. }
    rewrite F in Hf. destruct Hf. }
  simpl in Hk.
  repeat (destruct Hk as [Hk | Hk]; [subst key; apply M; simpl; auto 6 |]).
  destruct Hk.
Qed.

(** *** Counting rows *)

Lemma count_app {A : Type} (f : A -> bool) (l l' : list A) :
  count f (l ++ l') = count f l + count f l'.
Proof. unfold count. rewrite filter_app, length_app. reflexivity. Qed.

Lemma count_cons {A : Type} (f : A -> bool) (x : A) (l : list A) :
  count f (x :: l) = (if f x then 1 else 0) + count f l.
Proof. unfold count. simpl. destruct (f x); reflexivity. Qed.

Lemma truthy_empty (s : string) : PyStr.truthy s = negb (String.eqb s "").
Proof. destruct s; reflexivity. Qed.

Lemma any_not_blank (row : list string) :
  existsb PyStr.truthy row = negb (blank_row row).
Proof.
  induction row as [| c row IH]; simpl; [reflexivity |].
  rewrite IH, truthy_empty, negb_andb. reflexivity.
Qed.

Lemma any_stripped_not_whitespace (row : list string) :
  existsb (fun v => PyStr.truthy (PyStr.strip v)) row = negb (whitespace_row row).
Proof.
  induction row as [| c row IH]; simpl; [reflexivity |].
  rewrite IH, truthy_empty, negb_andb. reflexivity.
Qed.

(** *** One row *)

Lemma cell_column (row : list string) (header_map : dict nat) (key : string) :
  dict_get key header_map <> None ->
  cell row header_map key
  = match column header_map row key with
    | Some v => Returns v
    | None => Raises IndexError
    end.
Proof.
  unfold cell, column. destruct (dict_get key header_map); [reflexivity | contradiction].
Qed.

Lemma get_previous_result_returns (sample : string) (w : World) :
  exists r w', get_previous_result sample w = (Returns r, w').
Proof.
  unfold get_previous_result, select_latest. destruct (db w); eauto.
Qed.

(** When no interpretation is in progress, [run_interpretation] returns a
    result dictionary and leaves the flag reset. *)
Lemma run_interpretation_idle (input_data : InputData) (w : World) :
  is_processing w = false ->
  exists (r : ResultDict) (w' : World),
    run_interpretation input_data w = (Returns (Some r), w')
    /\ is_processing w' = false.
Proof.
  intros H. unfold run_interpretation. rewrite H.
  unfold interpretation_body.
  destruct (get_previous_result_returns (in_sample_id input_data)
              (set_is_processing true w)) as (prev & w1 & E).
  rewrite E.
  destruct (save_interpretation_to_db _ _) as [ok w3]. eauto.
Qed.

(** A row that is read through a complete header map, with no
    interpretation in progress: it is skipped exactly when a validation
    rule rejects it. *)
Lemma _process_row_data_rejected (row : list string) (header_map : dict nat)
    (op_id run_id : string) (row_num : nat) (w : World) :
  complete header_map ->
  is_processing w = false ->
  exists (r : option ResultDict) (w' : World),
    _process_row_data row header_map op_id run_id row_num w = (r, w')
    /\ is_processing w' = false
    /\ (r = None <-> rejected header_map row = true).
Proof.
  intros C Hidle.
  unfold _process_row_data, row_attempt, rejected, too_few_columns,
    blank_sample_id, non_numeric, batch_keys.
  rewrite !cell_column by (apply C; simpl; auto 6).
  simpl.
  destruct (column header_map row "sample_id") as [sv |];
    [| simpl; eexists _, _; repeat split; auto].
  destruct (column header_map row "nil") as [nv |];
    [| simpl; eexists _, _; repeat split; auto].
  destruct (column header_map row "tb1") as [t1 |];
    [| simpl; eexists _, _; repeat split; auto].
  destruct (column header_map row "tb2") as [t2 |];
    [| simpl; eexists _, _; repeat split; auto].
  destruct (column header_map row "mitogen") as [mv |];
    [| simpl; eexists _, _; repeat split; auto].
  simpl. rewrite truthy_empty, negb_involutive.
  destruct (String.eqb (PyStr.strip sv) "");
    [simpl; eexists _, _; repeat split; auto |].
  simpl.
  destruct (PyFloat.float_of_string (PyStr.strip nv));
    [| simpl; eexists _, _; repeat split; auto].
  destruct (PyFloat.float_of_string (PyStr.strip t1));
    [| simpl; eexists _, _; repeat split; auto].
  destruct (PyFloat.float_of_string (PyStr.strip t2));
    [| simpl; eexists _, _; repeat split; auto].
  destruct (PyFloat.float_of_string (PyStr.strip mv));
    [| simpl; eexists _, _; repeat split; auto].
  simpl.
  match goal with
  | |- context [run_interpretation ?i w] =>
      destruct (run_interpretation_idle i w Hidle) as (r & w' & E & Hw');
      rewrite E
  end.
  eexists _, _. repeat split; [exact Hw' | discriminate | discriminate].
Qed.

(** *** The row loop *)

Lemma complete_truthy (header_map : dict nat) :
  complete header_map -> dict_truthy header_map = true.
Proof.
  intros C. destruct header_map; [| reflexivity].
  exfalso. apply (C "nil"); simpl; auto.
Qed.

Lemma batch_result_eq {A W : Type} (p : A) (s s' t t' : nat) (w : W) :
  s = s' -> t = t' -> ((p, s, t), w) = ((p, s', t'), w).
Proof. intros -> ->. reflexivity. Qed.

(** The loop over data rows (row numbers from 2 on) under an accepted
    header: it counts as skipped the kept rows that a rule rejects, adds one
    result for every other kept row, and numbers every row. *)
Lemma batch_loop_data_rows (any_value : list string -> bool)
    (header_map : dict nat) (op_id run_id : string) :
  complete header_map ->
  forall (rows : list (list string)) (processed : list ResultDict)
         (skipped row_num : nat) (w : World),
    1 <= row_num ->
    is_processing w = false ->
    exists (processed' : list ResultDict) (w' : World),
      batch_loop any_value rows op_id run_id processed skipped row_num
        (Some header_map) w
      = ((processed',
          skipped + count (fun r => any_value r && rejected header_map r) rows,
          row_num + List.length rows - 1), w')
      /\ List.length processed'
         = List.length processed
           + count (fun r => any_value r && negb (rejected header_map r)) rows
      /\ is_processing w' = false.
Proof.
  intros C. induction rows as [| row rows IH]; intros processed skipped n w Hn Hidle.
  - simpl. exists processed, w. unfold count. simpl.
    split; [apply batch_result_eq; lia |]. split; [lia | exact Hidle].
  - destruct n as [| m]; [lia |].
    cbn [batch_loop]. change (Nat.eqb (S (S m)) 1) with false.
    change (Nat.ltb 1 (S (S m))) with true.
    cbv iota. rewrite (complete_truthy _ C). cbn [andb].
    rewrite !count_cons.
    destruct (any_value row) eqn:Hany; cbn [negb andb].
    + destruct (_process_row_data_rejected row header_map op_id run_id (S (S m)) w
                  C Hidle) as (r & w2 & E & Hw2 & Hr).
      rewrite E.
      destruct r as [result |].
      * destruct (rejected header_map row) eqn:R;
          [destruct Hr as [_ Hr]; discriminate (Hr eq_refl) |].
        destruct (IH (processed ++ [result])%list skipped (S (S m)) w2 (le_n_S 0 (S m) (Nat.le_0_l (S m))) Hw2)
          as (p' & w' & E' & Hlen & Hw').
        exists p', w'. rewrite E'. cbn [negb].
        split; [apply batch_result_eq; cbn [List.length]; lia |].
        split; [| exact Hw']. rewrite Hlen, length_app. simpl. lia.
      * destruct (rejected header_map row) eqn:R;
          [| destruct Hr as [Hr _]; discriminate (Hr eq_refl)].
        destruct (IH processed (S skipped) (S (S m)) w2 (le_n_S 0 (S m) (Nat.le_0_l (S m))) Hw2)
          as (p' & w' & E' & Hlen & Hw').
        exists p', w'. rewrite E'. cbn [negb].
        split; [apply batch_result_eq; cbn [List.length]; lia |].
        split; [| exact Hw']. rewrite Hlen. simpl. lia.
    + destruct (IH processed skipped (S (S m)) w (le_n_S 0 (S m) (Nat.le_0_l (S m))) Hidle)
        as (p' & w' & E' & Hlen & Hw').
      exists p', w'. rewrite E'.
      split; [apply batch_result_eq; cbn [List.length]; lia |].
      split; [| exact Hw']. rewrite Hlen. simpl. lia.
Qed.

(** A whole table with an accepted header. *)
Lemma batch_loop_table (any_value : list string -> bool)
    (header : list string) (rows : list (list string)) (op_id run_id : string)
    (w : World) (header_map : dict nat) :
  fst (_parse_header header w) = Some header_map ->
  is_processing w = false ->
  exists (processed : list ResultDict) (w' : World),
    batch_loop any_value (header :: rows) op_id run_id [] 0 0 None w
    = ((processed,
        count (fun r => any_value r && rejected header_map r) rows,
        List.length rows), w')
    /\ List.length processed
       = count (fun r => any_value r && negb (rejected header_map r)) rows
    /\ is_processing w' = false.
Proof.
  intros H Hidle.
  destruct (_parse_header_accepts header w header_map H) as [E C].
  cbn [batch_loop]. change (Nat.eqb 1 1) with true. cbv iota. rewrite E.
  change (Nat.ltb 1 1) with false. rewrite andb_false_r.
  destruct (batch_loop_data_rows any_value header_map op_id run_id C rows [] 0 1 w
              (le_n 1) Hidle) as (p & w' & E' & Hlen & Hw').
  exists p, w'. rewrite E'.
  split; [apply batch_result_eq; lia |]. split; [exact Hlen | exact Hw'].
Qed.

(** *** Outcome counts *)

(** Every row is blank, or kept and rejected, or kept and accepted. *)
Lemma count_rows_partition (excluded rejects : list string -> bool)
    (rows : list (list string)) :
  List.length rows
  = count excluded rows
    + count (fun r => negb (excluded r) && rejects r) rows
    + count (fun r => negb (excluded r) && negb (rejects r)) rows.
Proof.
  induction rows as [| row rows IH]; [reflexivity |].
  rewrite !count_cons. cbn [List.length].
  destruct (excluded row), (rejects row); simpl; lia.
Qed.

Lemma count_ext {A : Type} (f g : A -> bool) (l : list A) :
  (forall x, f x = g x) -> count f l = count g l.
Proof.
  intros H. unfold count. rewrite (filter_ext f g H). reflexivity.
Qed.

(** The counts of a CSV batch in terms of its rows. *)
Lemma _process_csv_counts (header : list string) (rows : list (list string))
    (op_id run_id : string) (w : World) (header_map : dict nat) :
  fst (_parse_header header w) = Some header_map ->
  is_processing w = false ->
  batch_total (_process_csv (header :: rows) op_id run_id w) = List.length rows
  /\ batch_skipped (_process_csv (header :: rows) op_id run_id w)
     = count (fun r => negb (blank_row r) && rejected header_map r) rows
  /\ List.length (batch_processed (_process_csv (header :: rows) op_id run_id w))
     = count (fun r => negb (blank_row r) && negb (rejected header_map r)) rows.
Proof.
  intros H Hidle. unfold _process_csv.
  destruct (batch_loop_table (existsb PyStr.truthy) header rows op_id run_id w
              header_map H Hidle) as (p & w' & E & Hlen & _).
  rewrite E. unfold batch_total, batch_skipped, batch_processed. simpl.
  split; [reflexivity |]. split.
  - apply count_ext. intros r. rewrite any_not_blank. reflexivity.
  - rewrite Hlen. apply count_ext. intros r. rewrite any_not_blank. reflexivity.
Qed.

(** The counts of an Excel batch: the rows kept are those with a cell that
    is not whitespace. *)
Lemma _process_excel_counts (header : list string) (rows : list (list string))
    (op_id run_id : string) (w : World) (header_map : dict nat) :
  fst (_parse_header header w) = Some header_map ->
  is_processing w = false ->
  batch_total (_process_excel (header :: rows) op_id run_id w) = List.length rows
  /\ batch_skipped (_process_excel (header :: rows) op_id run_id w)
     = count (fun r => negb (whitespace_row r) && rejected header_map r) rows
  /\ List.length (batch_processed (_process_excel (header :: rows) op_id run_id w))
     = count (fun r => negb (whitespace_row r) && negb (rejected header_map r)) rows.
Proof.
  intros H Hidle. unfold _process_excel.
  destruct (batch_loop_table (existsb (fun v => PyStr.truthy (PyStr.strip v)))
              header rows op_id run_id w header_map H Hidle)
    as (p & w' & E & Hlen & _).
  rewrite E. unfold batch_total, batch_skipped, batch_processed. simpl.
  split; [reflexivity |]. split.
  - apply count_ext. intros r. rewrite any_stripped_not_whitespace. reflexivity.
  - rewrite Hlen. apply count_ext. intros r.
    rewrite any_stripped_not_whitespace. reflexivity.
Qed.

(** C6: for a CSV table with a valid header, read while no interpretation
    is in progress: the total is the number of data rows, blank ones
    included; skipped is the number of rows that are not blank and that a
    validation rule rejects (too few columns, blank Sample ID, non-numeric
    value); and the number of processed entries is the total minus the
    blank rows minus the skipped ones. *)
Theorem batch_outcome_counts (header : list string) (rows : list (list string))
    (op_id run_id : string) (w : World) (header_map : dict nat) :
  fst (_parse_header header w) = Some header_map ->
  is_processing w = false ->
  batch_total (_process_csv (header :: rows) op_id run_id w) = List.length rows
  /\ batch_skipped (_process_csv (header :: rows) op_id run_id w)
     = count (fun r => negb (blank_row r) && rejected header_map r) rows
  /\ List.length (batch_processed (_process_csv (header :: rows) op_id run_id w))
     = batch_total (_process_csv (header :: rows) op_id run_id w)
       - count blank_row rows
       - batch_skipped (_process_csv (header :: rows) op_id run_id w).
Proof.
  intros H Hidle.
  destruct (_process_csv_counts header rows op_id run_id w header_map H Hidle)
    as (Ht & Hs & Hp).
  split; [exact Ht |]. split; [exact Hs |].
  rewrite Hp, Ht, Hs.
  pose proof (count_rows_partition blank_row (rejected header_map) rows). lia.
Qed.

Lemma batch_outcome_counts_witness :
  batch_total (_process_csv (batch_header :: five_rows) "op" "run" idle_world) = 5
  /\ batch_skipped (_process_csv (batch_header :: five_rows) "op" "run" idle_world) = 2
  /\ List.length
       (batch_processed (_process_csv (batch_header :: five_rows) "op" "run" idle_world))
     = 3.
Proof.
  pose proof (batch_outcome_counts batch_header five_rows "op" "run" idle_world
                batch_header_map eq_refl eq_refl) as (Ht & Hs & Hp).
  split; [exact Ht |].
  assert (Hs' : batch_skipped
                  (_process_csv (batch_header :: five_rows) "op" "run" idle_world) = 2).
  { rewrite Hs. vm_compute. reflexivity. }
  split; [exact Hs' |].
  rewrite Hp, Ht, Hs'. reflexivity.
Defined.

(** *** Blank rows and whitespace rows *)

Lemma whitespace_cell (row : list string) (i : nat) (v : string) :
  whitespace_row row = true -> nth_error row i = Some v ->
  String.eqb (PyStr.strip v) "" = true.
Proof.
  unfold whitespace_row. rewrite forallb_forall. intros H E.
  apply H, (nth_error_In row i E).
Qed.

(** A row of whitespace cells is rejected: either it is too short, or its
    Sample ID is blank after trimming. *)
Lemma whitespace_row_rejected (header_map : dict nat) (row : list string) :
  whitespace_row row = true ->
  rejected header_map row = true
  /\ (too_few_columns header_map row = false -> blank_sample_id header_map row = true).
Proof.
  intros H. unfold rejected, blank_sample_id.
  destruct (too_few_columns header_map row) eqn:T; [split; [reflexivity | discriminate] |].
  unfold too_few_columns, batch_keys in T. simpl in T.
  unfold column in *.
  destruct (dict_get "sample_id" header_map) as [i |]; [| discriminate T].
  destruct (nth_error row i) as [v |] eqn:E; [| discriminate T].
  rewrite (whitespace_cell row i v H E). split; reflexivity.
Qed.

(** Where such a row has all the mapped columns, [_process_row_data] skips
    it at the Sample ID test. *)
Lemma whitespace_row_missing_sample_id (row : list string) (header_map : dict nat)
    (op_id run_id : string) (row_num : nat) (w : World) :
  complete header_map ->
  whitespace_row row = true ->
  too_few_columns header_map row = false ->
  _process_row_data row header_map op_id run_id row_num w
  = (None,
     print_stderr ("Skipping row " ++ PyStr.of_nonneg (Z.of_nat row_num)
                     ++ ": Missing Sample ID.") w).
Proof.
  intros C Hw T.
  unfold _process_row_data, row_attempt.
  rewrite !cell_column by (apply C; simpl; auto 6).
  unfold too_few_columns, batch_keys in T. simpl in T.
  unfold column in *.
  destruct (dict_get "sample_id" header_map) as [i |]; [| discriminate T].
  destruct (nth_error row i) as [v |] eqn:E; [| discriminate T].
  destruct (match dict_get "nil" header_map with
            | Some i => nth_error row i | None => None end); [| discriminate T].
  destruct (match dict_get "tb1" header_map with
            | Some i => nth_error row i | None => None end); [| discriminate T].
  destruct (match dict_get "tb2" header_map with
            | Some i => nth_error row i | None => None end); [| discriminate T].
  destruct (match dict_get "mitogen" header_map with
            | Some i => nth_error row i | None => None end); [| discriminate T].
  rewrite truthy_empty, (whitespace_cell row i v Hw E). reflexivity.
Qed.

(** A row that lacks a mapped column is skipped for that, whatever its
    cells hold: all five cells are read before the Sample ID is tested. *)
Lemma short_row_too_few_columns (row : list string) (header_map : dict nat)
    (op_id run_id : string) (row_num : nat) (w : World) :
  complete header_map ->
  too_few_columns header_map row = true ->
  _process_row_data row header_map op_id run_id row_num w
  = (None,
     print_stderr ("Skipping row " ++ PyStr.of_nonneg (Z.of_nat row_num)
                     ++ ": Too few columns.") w).
Proof.
  intros C T.
  unfold _process_row_data, row_attempt.
  rewrite !cell_column by (apply C; simpl; auto 6).
  unfold too_few_columns, batch_keys in T. simpl in T.
  destruct (column header_map row "sample_id"); [| reflexivity].
  destruct (column header_map row "nil"); [| reflexivity].
  destruct (column header_map row "tb1"); [| reflexivity].
  destruct (column header_map row "tb2"); [| reflexivity].
  destruct (column header_map row "mitogen"); [discriminate T | reflexivity].
Qed.

Lemma blank_is_whitespace (row : list string) :
  blank_row row = true -> whitespace_row row = true.
Proof.
  unfold blank_row, whitespace_row. rewrite !forallb_forall.
  intros H c Hc. apply H, String.eqb_eq in Hc. subst. reflexivity.
Qed.

(** The claim that every whitespace row is skipped for its blank Sample ID
    is refuted: a line of three blanks is a row of one cell that holds only
    whitespace; under the five-column header it is skipped for its missing
    columns, before the Sample ID is tested. *)
Lemma short_whitespace_row_is_too_few_columns :
  whitespace_row blanks_line = true
  /\ blank_row blanks_line = false
  /\ _process_row_data blanks_line batch_header_map "op" "run" 2 idle_world
     = (None, print_stderr "Skipping row 2: Too few columns." idle_world)
  /\ _process_row_data blanks_line batch_header_map "op" "run" 2 idle_world
     <> (None, print_stderr "Skipping row 2: Missing Sample ID." idle_world).
Proof.
  split; [reflexivity |]. split; [reflexivity |]. split; [reflexivity |].
  intros H. vm_compute in H. discriminate H.
Qed.

(** C10, amended: in a CSV batch (valid header, no interpretation in
    progress) a data row is counted in the total and adds nothing to the
    processed and skipped counts exactly when every cell of it is the empty
    text; a row of whitespace cells that is not blank adds one to the
    skipped count: where it has all the mapped columns the rule that
    rejects it is the blank Sample ID, and where it lacks one it is skipped
    for its too few columns; the Excel path, which strips the cells before
    the test, lets such a row add nothing. *)
Theorem blank_row_exclusion (header : list string)
    (before after : list (list string)) (row : list string)
    (op_id run_id : string) (w : World) (header_map : dict nat) :
  fst (_parse_header header w) = Some header_map ->
  is_processing w = false ->
  batch_total (_process_csv (header :: before ++ row :: after) op_id run_id w)
  = S (batch_total (_process_csv (header :: before ++ after) op_id run_id w))
  /\ (adds_nothing
        (_process_csv (header :: before ++ row :: after) op_id run_id w)
        (_process_csv (header :: before ++ after) op_id run_id w)
      <-> blank_row row = true)
  /\ (whitespace_row row = true -> blank_row row = false ->
      adds_one_skipped
        (_process_csv (header :: before ++ row :: after) op_id run_id w)
        (_process_csv (header :: before ++ after) op_id run_id w)
      /\ (too_few_columns header_map row = false ->
          forall (row_num : nat) (w' : World),
            _process_row_data row header_map op_id run_id row_num w'
            = (None,
               print_stderr ("Skipping row " ++ PyStr.of_nonneg (Z.of_nat row_num)
                               ++ ": Missing Sample ID.") w'))
      /\ (too_few_columns header_map row = true ->
          forall (row_num : nat) (w' : World),
            _process_row_data row header_map op_id run_id row_num w'
            = (None,
               print_stderr ("Skipping row " ++ PyStr.of_nonneg (Z.of_nat row_num)
                               ++ ": Too few columns.") w')))
  /\ (whitespace_row row = true ->
      batch_total (_process_excel (header :: before ++ row :: after) op_id run_id w)
      = S (batch_total (_process_excel (header :: before ++ after) op_id run_id w))
      /\ adds_nothing
           (_process_excel (header :: before ++ row :: after) op_id run_id w)
           (_process_excel (header :: before ++ after) op_id run_id w)).
Proof.
  intros H Hidle.
  destruct (_parse_header_accepts header w header_map H) as [_ C].
  destruct (_process_csv_counts header (before ++ row :: after) op_id run_id w
              header_map H Hidle) as (Ht & Hs & Hp).
  destruct (_process_csv_counts header (before ++ after) op_id run_id w
              header_map H Hidle) as (Ht' & Hs' & Hp').
  destruct (_process_excel_counts header (before ++ row :: after) op_id run_id w
              header_map H Hidle) as (Xt & Xs & Xp).
  destruct (_process_excel_counts header (before ++ after) op_id run_id w
              header_map H Hidle) as (Xt' & Xs' & Xp').
  unfold adds_nothing, adds_one_skipped.
  rewrite Ht, Ht', Hs, Hs', Hp, Hp', Xt, Xt', Xs, Xs', Xp, Xp'.
  rewrite !count_app, !count_cons, !length_app. cbn [List.length].
  split; [lia |]. split; [| split].
  - destruct (blank_row row), (rejected header_map row); simpl; split;
      intros G; try reflexivity; try discriminate G; lia.
  - intros Hw Hb.
    destruct (whitespace_row_rejected header_map row Hw) as [R _].
    rewrite Hb, R. simpl. split; [lia |]. split.
    + intros T n w'. apply whitespace_row_missing_sample_id; assumption.
    + intros T n w'. apply short_row_too_few_columns; assumption.
  - intros Hw. rewrite Hw. simpl. lia.
Qed.

Lemma blank_row_exclusion_witness :
  adds_one_skipped
    (_process_csv (batch_header :: five_rows ++ spaces_row :: []) "op" "run" idle_world)
    (_process_csv (batch_header :: five_rows ++ []) "op" "run" idle_world)
  /\ (too_few_columns batch_header_map spaces_row = false ->
      forall (row_num : nat) (w' : World),
        _process_row_data spaces_row batch_header_map "op" "run" row_num w'
        = (None,
           print_stderr ("Skipping row " ++ PyStr.of_nonneg (Z.of_nat row_num)
                           ++ ": Missing Sample ID.") w'))
  /\ (too_few_columns batch_header_map spaces_row = true ->
      forall (row_num : nat) (w' : World),
        _process_row_data spaces_row batch_header_map "op" "run" row_num w'
        = (None,
           print_stderr ("Skipping row " ++ PyStr.of_nonneg (Z.of_nat row_num)
                           ++ ": Too few columns.") w')).
Proof.
  apply (blank_row_exclusion batch_header five_rows [] spaces_row "op" "run"
           idle_world batch_header_map eq_refl eq_refl);
    reflexivity.
Defined.

(** * Further properties *)

(** ** Decision engine *)

(** X1: the result token tells which branch of [interpret_qft] was taken.
    It is NEG exactly when nil is not above 8.0, neither antigen well is
    positive and the mitogen response reaches 0.5; POS† exactly when nil is
    not above 8.0 and an antigen well is positive; IND* exactly when nil is
    above 8.0, or no antigen well is positive and the mitogen response is
    below 0.5. *)
Theorem result_tells_the_branch (nil tb1 tb2 mit : float) :
  (result (interpret_qft nil tb1 tb2 mit) = "NEG"
   <-> (8.0 <? nil)%float = false
       /\ antigen_positive nil tb1 = false
       /\ antigen_positive nil tb2 = false
       /\ (0.5 <=? mit - nil)%float = true)
  /\ (result (interpret_qft nil tb1 tb2 mit) = "POS†"
      <-> (8.0 <? nil)%float = false
          /\ antigen_positive nil tb1 || antigen_positive nil tb2 = true)
  /\ (result (interpret_qft nil tb1 tb2 mit) = "IND*"
      <-> (8.0 <? nil)%float = true
          \/ antigen_positive nil tb1 || antigen_positive nil tb2 = false
             /\ (0.5 <=? mit - nil)%float = false).
Proof.
  unfold interpret_qft, antigen_positive, POS, NEG, IND.
  destruct (8.0 <? nil)%float; simpl; [intuition congruence |].
  destruct ((0.35 <=? tb1 - nil)%float && _); simpl; [intuition congruence |].
  destruct ((0.35 <=? tb2 - nil)%float && _); simpl; [intuition congruence |].
  destruct (0.5 <=? mit - nil)%float; simpl; intuition congruence.
Qed.

Lemma sub_nan_r (x : float) : (x - nan)%float = nan.
Proof.
  apply Prim2SF_inj. rewrite sub_spec.
  destruct (Prim2SF x) as [s | s | | s m e]; reflexivity.
Qed.

(** X2: a nil value that is not a number (the text "nan" is a valid
    float) fails every comparison of [interpret_qft]: whatever the other
    wells, the result is IND* with the Low Mitogen reason, which prints the
    difference as nan. *)
Theorem nan_nil_is_low_mitogen (tb1 tb2 mit : float) :
  result (interpret_qft nan tb1 tb2 mit) = "IND*"
  /\ reason (interpret_qft nan tb1 tb2 mit)
     = "Low Mitogen Control (Mit-Nil=nan < 0.5 IU/mL difference)".
Proof.
  unfold interpret_qft. rewrite !sub_nan_r. split; reflexivity.
Qed.

(** X3: [check_significant_change] gives the same answer when the previous
    and the current result are exchanged, for all texts. *)
Theorem significant_change_symmetric (prev_res curr_res : string) :
  check_significant_change prev_res curr_res
  = check_significant_change curr_res prev_res.
Proof.
  unfold check_significant_change, in_pairs, in_strings, significant_pairs,
    POS, NEG, IND.
  rewrite (String.eqb_sym curr_res prev_res).
  destruct (String.eqb prev_res curr_res); [reflexivity |].
  simpl.
  destruct (String.eqb_spec prev_res "NEG"), (String.eqb_spec prev_res "POS†"),
    (String.eqb_spec prev_res "IND*"), (String.eqb_spec curr_res "NEG"),
    (String.eqb_spec curr_res "POS†"), (String.eqb_spec curr_res "IND*");
    subst; try discriminate; reflexivity.
Qed.

(** ** Aggregation *)

Lemma dashboard_step_categories (c : Counts) (row : Report.Row) :
  pos_count (dashboard_step c row)
  = pos_count c + (if has_result "POS†" row then 1 else 0)
  /\ neg_count (dashboard_step c row)
     = neg_count c + (if has_result "NEG" row then 1 else 0)
  /\ ind_count (dashboard_step c row)
     = ind_count c + (if has_result "IND*" row then 1 else 0).
Proof.
  unfold dashboard_step, has_result, POS, NEG, IND.
  destruct (String.eqb_spec (Report.result row) "POS†") as [E | N1];
    [rewrite E; simpl; lia |].
  destruct (String.eqb_spec (Report.result row) "NEG") as [E | N2];
    [rewrite E; simpl; lia |].
  destruct (String.eqb_spec (Report.result row) "IND*") as [E | N3];
    simpl; lia.
Qed.

Lemma dashboard_fold_categories (data : list Report.Row) :
  forall c : Counts,
    pos_count (fold_left dashboard_step data c)
    = pos_count c + count (has_result "POS†") data
    /\ neg_count (fold_left dashboard_step data c)
       = neg_count c + count (has_result "NEG") data
    /\ ind_count (fold_left dashboard_step data c)
       = ind_count c + count (has_result "IND*") data.
Proof.
  induction data as [| row data IH]; intros c; simpl.
  - unfold count; simpl; lia.
  - destruct (IH (dashboard_step c row)) as (Hp & Hn & Hi).
    destruct (dashboard_step_categories c row) as (Sp & Sn & Si).
    rewrite Hp, Hn, Hi, Sp, Sn, Si, !count_cons. lia.
Qed.

Lemma count_le_length {A : Type} (f : A -> bool) (l : list A) :
  count f l <= List.length l.
Proof. unfold count. apply filter_length_le. Qed.

Lemma count_disjoint3 {A : Type} (f g h : A -> bool) (l : list A) :
  (forall x, f x = true -> g x = false /\ h x = false) ->
  (forall x, g x = true -> h x = false) ->
  count f l + count g l + count h l <= List.length l.
Proof.
  intros Hf Hg. induction l as [| x l IH]; [reflexivity |].
  rewrite !count_cons. cbn [List.length].
  destruct (f x) eqn:F.
  - destruct (Hf x F) as [G H]. rewrite G, H. lia.
  - destruct (g x) eqn:G; [rewrite (Hg x G); lia |].
    destruct (h x); lia.
Qed.

(** X4: the dashboard counts every row of the range in the total, and a
    row under Positive, Negative or Indeterminate exactly when its result
    is the token POS†, NEG or IND*; the sub-reason counters add up to the
    indeterminate count, and the three categories never exceed the total
    (rows with another result text are in the total only). *)
Theorem dashboard_counts_rows_by_token (data : list Report.Row) :
  total (dashboard_numbers data) = List.length data
  /\ pos_count (counts (dashboard_numbers data)) = count (has_result "POS†") data
  /\ neg_count (counts (dashboard_numbers data)) = count (has_result "NEG") data
  /\ ind_count (counts (dashboard_numbers data)) = count (has_result "IND*") data
  /\ reasons_total (ind_reasons (counts (dashboard_numbers data)))
     = count (has_result "IND*") data
  /\ category_total (counts (dashboard_numbers data)) <= total (dashboard_numbers data).
Proof.
  pose proof (dashboard_reasons_cover_indeterminate data) as R.
  unfold category_total. revert R.
  unfold dashboard_numbers, summarize. simpl.
  destruct (dashboard_fold_categories data no_counts) as (Hp & Hn & Hi).
  simpl in Hp, Hn, Hi. intros R. rewrite R, Hp, Hn, Hi.
  repeat split.
  apply count_disjoint3; unfold has_result; intros row H;
    apply String.eqb_eq in H; rewrite H; split || idtac; reflexivity.
Qed.

Lemma classified_reason (row : Report.Row) :
  classified row ->
  Report.result row = "IND*" ->
  PyStr.contains "High Nil" (Report.reason row) = true
  \/ PyStr.contains "Low Mitogen" (Report.reason row) = true.
Proof.
  intros (nil & tb1 & tb2 & mit & Hres & Hrea) E.
  rewrite Hrea. rewrite Hres in E. revert E.
  unfold interpret_qft, POS, NEG, IND.
  destruct (8.0 <? nil)%float; simpl; [auto |].
  destruct (_ && _); simpl; [discriminate |].
  destruct (_ && _); simpl; [discriminate |].
  destruct (0.5 <=? _)%float; simpl; [discriminate | auto].
Qed.

(** X5: when every row of the range holds a result and a reason that
    [interpret_qft] produces, the dashboard's Other counter of indeterminate
    reasons stays at 0: every indeterminate row is High Nil or Low
    Mitogen. *)
Theorem classified_history_has_no_other (data : list Report.Row) :
  (forall row, In row data -> classified row) ->
  counter_get "Other" (ind_reasons (counts (dashboard_numbers data))) = 0.
Proof.
  intros H. unfold dashboard_numbers, summarize. simpl.
  assert (G : forall c : Counts,
             counter_get "Other" (ind_reasons c) = 0 ->
             counter_get "Other" (ind_reasons (fold_left dashboard_step data c)) = 0).
  { induction data as [| row data IH]; intros c Hc; simpl; [exact Hc |].
    apply IH; [intros r Hr; apply H; right; exact Hr |].
    unfold dashboard_step.
    destruct (String.eqb (Report.result row) POS); simpl; [exact Hc |].
    destruct (String.eqb (Report.result row) NEG); simpl; [exact Hc |].
    destruct (String.eqb_spec (Report.result row) IND) as [E | N]; simpl;
      [| exact Hc].
    unfold count_reason.
    destruct (classified_reason row (H row (or_introl eq_refl)) E) as [R | R].
    - rewrite R, counter_incr_other by discriminate. exact Hc.
    - rewrite R. destruct (PyStr.contains "High Nil" (Report.reason row));
        rewrite counter_incr_other by discriminate; exact Hc. }
  apply G. reflexivity.
Qed.

Lemma classified_history_has_no_other_witness :
  counter_get "Other" (ind_reasons (counts (dashboard_numbers high_nil_history))) = 0.
Proof.
  apply (classified_history_has_no_other high_nil_history).
  intros row [<- | []]. exists 9.5%float, 10.0%float, 11.0%float, 15.0%float.
  split; reflexivity.
Defined.

(** ** Order of timestamps *)

Lemma compare_antisym (a : string) :
  forall b, PyStr.compare b a = CompOpp (PyStr.compare a b).
Proof.
  induction a as [| x a IH]; intros [| y b]; simpl; try reflexivity.
  rewrite (N.compare_antisym (PyStr.byte x) (PyStr.byte y)).
  destruct (PyStr.byte x ?= PyStr.byte y)%N; simpl; [apply IH | |]; reflexivity.
Qed.

Lemma str_leb_refl (a : string) : PyStr.leb a a = true.
Proof.
  unfold PyStr.leb. induction a as [| x a IH]; simpl; [reflexivity |].
  rewrite N.compare_refl. exact IH.
Qed.

Lemma str_leb_total (a b : string) :
  PyStr.leb a b = true \/ PyStr.leb b a = true.
Proof.
  unfold PyStr.leb. rewrite (compare_antisym a b).
  destruct (PyStr.compare a b); simpl; auto.
Qed.

Lemma str_leb_trans (a : string) :
  forall b c, PyStr.leb a b = true -> PyStr.leb b c = true -> PyStr.leb a c = true.
Proof.
  unfold PyStr.leb.
  induction a as [| x a IH]; intros [| y b] [| z c]; simpl;
    try reflexivity; try discriminate.
  destruct (N.compare_spec (PyStr.byte x) (PyStr.byte y)) as [E | L | G];
    destruct (N.compare_spec (PyStr.byte y) (PyStr.byte z)) as [E' | L' | G'];
    try discriminate; intros H1 H2.
  - rewrite E, E', N.compare_refl. exact (IH b c H1 H2).
  - rewrite E. rewrite (proj2 (N.compare_lt_iff _ _) L'). reflexivity.
  - rewrite <- E'. rewrite (proj2 (N.compare_lt_iff _ _) L). reflexivity.
  - rewrite (proj2 (N.compare_lt_iff _ _) (N.lt_trans _ _ _ L L')). reflexivity.
Qed.

(** ** The previous result of a sample *)

Lemma latest_of_fold (sample : string) (rows : list Db.Row) :
  forall best : option Db.Row,
    let step := fun best r =>
      if String.eqb (Db.sample_id r) sample then
        match best with
        | None => Some r
        | Some b => if PyStr.leb (Db.timestamp r) (Db.timestamp b) then best else Some r
        end
      else best in
    (forall b, best = Some b ->
       of_sample sample b = true) ->
    match fold_left step rows best with
    | None => best = None /\ forall r, In r rows -> of_sample sample r = false
    | Some l =>
        of_sample sample l = true
        /\ (best = Some l \/ In l rows)
        /\ (forall b, best = Some b -> PyStr.leb (Db.timestamp b) (Db.timestamp l) = true)
        /\ (forall r, In r rows -> of_sample sample r = true ->
              PyStr.leb (Db.timestamp r) (Db.timestamp l) = true)
    end.
Proof.
  induction rows as [| r rows IH]; intros best step Hbest; simpl.
  - destruct best as [b |].
    + repeat split; [apply Hbest; reflexivity | auto | | intros r []].
      intros b' E. injection E as <-. apply str_leb_refl.
    + split; [reflexivity | intros r []].
  - specialize (IH (step best r)). cbv zeta in IH. fold step in IH.
    assert (Hstep : forall b, step best r = Some b -> of_sample sample b = true).
    { unfold step. intros b. unfold of_sample in *.
      destruct (String.eqb (Db.sample_id r) sample) eqn:E; [| apply Hbest].
      destruct best as [b0 |].
      - destruct (PyStr.leb _ _); intros H; injection H as <-;
          [apply Hbest; reflexivity | exact E].
      - intros H; injection H as <-. exact E. }
    specialize (IH Hstep).
    destruct (fold_left step rows (step best r)) as [l |].
    + destruct IH as (Hl & Hin & Hb & Hr).
      split; [exact Hl |].
      assert (Hcases :
        (best = Some l \/ In l (r :: rows))
        /\ (forall b, best = Some b -> PyStr.leb (Db.timestamp b) (Db.timestamp l) = true)
        /\ (of_sample sample r = true ->
            PyStr.leb (Db.timestamp r) (Db.timestamp l) = true)).
      { unfold step in Hin, Hb. unfold of_sample.
        destruct (String.eqb (Db.sample_id r) sample) eqn:E.
        - destruct best as [b0 |].
          + destruct (PyStr.leb (Db.timestamp r) (Db.timestamp b0)) eqn:L.
            * split; [destruct Hin as [Hin | Hin]; [left; exact Hin | right; right; exact Hin] |].
              split; [exact Hb |].
              intros _. apply (str_leb_trans _ _ _ L), Hb. reflexivity.
            * split; [destruct Hin as [Hin | Hin];
                        [injection Hin as <-; right; left; reflexivity
                        | right; right; exact Hin] |].
              split; [| intros _; apply Hb; reflexivity].
              intros b Eb. injection Eb as <-.
              apply (str_leb_trans _ (Db.timestamp r)).
              -- destruct (str_leb_total (Db.timestamp r) (Db.timestamp b0)) as [T | T];
                   [rewrite T in L; discriminate L | exact T].
              -- apply Hb. reflexivity.
          + split; [destruct Hin as [Hin | Hin];
                      [injection Hin as <-; right; left; reflexivity
                      | right; right; exact Hin] |].
            split; [intros b Eb; discriminate Eb |].
            intros _. apply Hb. reflexivity.
        - split; [destruct Hin as [Hin | Hin]; [left; exact Hin | right; right; exact Hin] |].
          split; [exact Hb | intros F; discriminate F]. }
      destruct Hcases as (C1 & C2 & C3).
      split; [exact C1 |]. split; [exact C2 |].
      intros r' [-> | Hr'] Hs; [apply C3, Hs | apply Hr; assumption].
    + destruct IH as [Hnone Hrows].
      unfold step in Hnone. unfold of_sample in *.
      destruct (String.eqb (Db.sample_id r) sample) eqn:E.
      * destruct best as [b0 |]; [destruct (PyStr.leb _ _) |]; discriminate Hnone.
      * split; [exact Hnone |].
        intros r' [-> | Hr']; [exact E | apply Hrows, Hr'].
Qed.

Lemma latest_of_spec (sample : string) (rows : list Db.Row) :
  match latest_of sample rows with
  | None => forall r, In r rows -> of_sample sample r = false
  | Some l =>
      In l rows /\ of_sample sample l = true
      /\ forall r, In r rows -> of_sample sample r = true ->
           PyStr.leb (Db.timestamp r) (Db.timestamp l) = true
  end.
Proof.
  pose proof (latest_of_fold sample rows None) as L. cbv zeta in L.
  assert (H0 : forall b : Db.Row, None = Some b -> of_sample sample b = true)
    by (intros b E; discriminate E).
  specialize (L H0). unfold latest_of.
  destruct (fold_left _ rows None) as [l |].
  - destruct L as (Hl & [Hin | Hin] & _ & Hr); [discriminate Hin |].
    repeat split; assumption.
  - apply L.
Qed.

(** X6: on a database that answers, [get_previous_result] changes nothing
    and returns None exactly when no stored row has the sample id;
    otherwise it returns the result and timestamp of a stored row of that
    sample whose timestamp no other row of the sample exceeds. *)
Theorem previous_result_is_latest (sample : string) (w : World) (rows : list Db.Row) :
  db w = Online rows ->
  snd (get_previous_result sample w) = w
  /\ ((fst (get_previous_result sample w) = Returns None
       /\ forall r, In r rows -> Db.sample_id r <> sample)
      \/ exists l : Db.Row,
           In l rows /\ Db.sample_id l = sample
           /\ fst (get_previous_result sample w)
              = Returns (Some (Db.result l, Db.timestamp l))
           /\ forall r, In r rows -> Db.sample_id r = sample ->
                PyStr.leb (Db.timestamp r) (Db.timestamp l) = true).
Proof.
  intros H. unfold get_previous_result, select_latest. rewrite H. simpl.
  split; [reflexivity |].
  pose proof (latest_of_spec sample rows) as L.
  destruct (latest_of sample rows) as [l |]; simpl.
  - right. exists l. destruct L as (Hin & Hs & Hmax).
    apply String.eqb_eq in Hs.
    repeat split; try assumption.
    intros r Hr Er. apply Hmax; [exact Hr |].
    unfold of_sample. rewrite Er. apply String.eqb_refl.
  - left. split; [reflexivity |].
    intros r Hr E. specialize (L r Hr). unfold of_sample in L.
    rewrite E, String.eqb_refl in L. discriminate L.
Qed.

Lemma previous_result_is_latest_witness :
  get_previous_result "S-001" one_negative
  = (Returns (Some ("NEG", "2024-05-01 10:00:00")), one_negative).
Proof.
  destruct (previous_result_is_latest "S-001" one_negative (history_of one_negative)
              eq_refl) as [Hw [[Hnone _] | (l & Hin & _ & Hl & _)]].
  - vm_compute in Hnone. discriminate Hnone.
  - destruct Hin as [<- | []]. reflexivity.
Defined.

(** Appending a row to the table. *)
Lemma latest_of_app (sample : string) (rows : list Db.Row) (r : Db.Row) :
  latest_of sample (rows ++ [r])
  = if String.eqb (Db.sample_id r) sample then
      match latest_of sample rows with
      | None => Some r
      | Some b => if PyStr.leb (Db.timestamp r) (Db.timestamp b) then Some b else Some r
      end
    else latest_of sample rows.
Proof.
  unfold latest_of. rewrite fold_left_app. simpl.
  destruct (String.eqb (Db.sample_id r) sample); [| reflexivity].
  destruct (fold_left _ rows None); reflexivity.
Qed.

(** X7: after [save_interpretation_to_db] stored a result for a sample at a
    clock reading later than every stored timestamp of that sample, the
    save reports success and [get_previous_result] returns the saved result
    with that clock reading. *)
Theorem saved_result_is_the_previous_one (data : ResultDict) (sample : string)
    (w : World) (rows : list Db.Row) :
  db w = Online rows ->
  sample_id data = Some sample ->
  (forall r, In r rows -> Db.sample_id r = sample ->
     PyStr.leb (clock w (ticks w)) (Db.timestamp r) = false) ->
  fst (save_interpretation_to_db data w) = true
  /\ fst (get_previous_result sample (snd (save_interpretation_to_db data w)))
     = Returns (Some (result data, clock w (ticks w))).
Proof.
  intros Hdb Hs Hclock.
  unfold save_interpretation_to_db. rewrite Hdb. simpl.
  split; [reflexivity |].
  unfold get_previous_result, select_latest. simpl.
  rewrite latest_of_app. simpl. rewrite Hs. simpl. rewrite String.eqb_refl.
  pose proof (latest_of_spec sample rows) as L.
  destruct (latest_of sample rows) as [b |]; [| reflexivity].
  destruct L as (Hin & Hb & _). apply String.eqb_eq in Hb.
  rewrite (Hclock b Hin Hb). reflexivity.
Qed.

Lemma saved_result_is_the_previous_one_witness :
  fst (save_interpretation_to_db (classify sample_input) one_negative) = true
  /\ fst (get_previous_result "S-001"
            (snd (save_interpretation_to_db (classify sample_input) one_negative)))
     = Returns (Some ("POS†", "2024-05-02 09:00:00")).
Proof.
  apply (saved_result_is_the_previous_one (classify sample_input) "S-001" one_negative
           (history_of one_negative) eq_refl eq_refl).
  intros r [<- | []] _. reflexivity.
Defined.

(** ** The report query *)

Lemma insert_by_timestamp_perm (r : Report.Row) (sorted : list Report.Row) :
  Permutation (insert_by_timestamp r sorted) (r :: sorted).
Proof.
  induction sorted as [| x rest IH]; simpl; [apply Permutation_refl |].
  destruct (PyStr.leb _ _); [| apply Permutation_refl].
  apply (Permutation_trans (perm_skip x IH)), perm_swap.
Qed.

Lemma insert_by_timestamp_sorted (r : Report.Row) (sorted : list Report.Row) :
  Sorted earlier sorted -> Sorted earlier (insert_by_timestamp r sorted).
Proof.
  induction sorted as [| x rest IH]; intros S; simpl.
  - constructor; constructor.
  - inversion S as [| ? ? Srest Hd]; subst.
    destruct (PyStr.leb (Report.timestamp x) (Report.timestamp r)) eqn:L.
    + constructor; [apply IH, Srest |].
      destruct rest as [| y rest']; simpl.
      * constructor. exact L.
      * destruct (PyStr.leb (Report.timestamp y) (Report.timestamp r));
          constructor; [inversion Hd; assumption | exact L].
    + constructor; [exact S |]. constructor. unfold earlier.
      destruct (str_leb_total (Report.timestamp x) (Report.timestamp r)) as [T | T];
        [rewrite T in L; discriminate L | exact T].
Qed.

Lemma order_by_timestamp_spec (rows : list Report.Row) :
  Permutation (order_by_timestamp rows) rows
  /\ Sorted earlier (order_by_timestamp rows).
Proof.
  unfold order_by_timestamp.
  assert (G : forall acc : list Report.Row,
             Sorted earlier acc ->
             Permutation (fold_left (fun sorted r => insert_by_timestamp r sorted) rows acc)
               (acc ++ rows)
             /\ Sorted earlier
                  (fold_left (fun sorted r => insert_by_timestamp r sorted) rows acc)).
  { induction rows as [| r rows IH]; intros acc S; simpl.
    - rewrite app_nil_r. split; [apply Permutation_refl | exact S].
    - destruct (IH (insert_by_timestamp r acc) (insert_by_timestamp_sorted r acc S))
        as [P S'].
      split; [| exact S'].
      apply (Permutation_trans P).
      apply (Permutation_trans
               (Permutation_app_tail _ (insert_by_timestamp_perm r acc))).
      simpl. apply Permutation_middle. }
  destruct (G [] (Sorted_nil _)) as [P S]. split; assumption.
Qed.

(** X8: for two dates that parse, on a database that answers,
    [query_db_for_reports] changes nothing and returns exactly the stored
    rows whose timestamp lies, as a text, between the two bounds the code
    computes (the start date written by [strftime] with 00:00:00 and the
    end date with 23:59:59), each once, in ascending order of timestamp. *)
Theorem report_query_is_the_range_in_order
    (start_date_str end_date_str : string) (w : World) (rows : list Db.Row)
    (start_date end_date : PyDate.date) :
  db w = Online rows ->
  PyDate.strptime start_date_str = Some start_date ->
  PyDate.strptime end_date_str = Some end_date ->
  exists data : list Report.Row,
    query_db_for_reports start_date_str end_date_str w = (Returns data, w)
    /\ Permutation data
         (map report_row
            (filter (in_range (PyDate.strftime start_date " 00:00:00")
                       (PyDate.strftime end_date " 23:59:59")) rows))
    /\ Sorted earlier data.
Proof.
  intros Hdb Hs He.
  unfold query_db_for_reports, range_bounds, select_between.
  rewrite Hs, He, Hdb.
  eexists. split; [reflexivity |].
  apply order_by_timestamp_spec.
Qed.

Lemma report_query_is_the_range_in_order_witness :
  exists data : list Report.Row,
    query_db_for_reports "2024-05-01" "2024-05-01" one_negative
    = (Returns data, one_negative)
    /\ Permutation data
         (map report_row
            (filter (in_range "2024-05-01 00:00:00" "2024-05-01 23:59:59")
               (history_of one_negative)))
    /\ Sorted earlier data.
Proof.
  apply (report_query_is_the_range_in_order "2024-05-01" "2024-05-01" one_negative
           (history_of one_negative)
           {| PyDate.year := 2024; PyDate.month := 5; PyDate.day := 1 |}
           {| PyDate.year := 2024; PyDate.month := 5; PyDate.day := 1 |});
    reflexivity.
Defined.

(** ** Batch import: what a row gives *)

Lemma run_interpretation_effect (i : InputData) (w : World) :
  is_processing w = false ->
  exists w' : World,
    run_interpretation i w = (Returns (Some (classify i)), w')
    /\ interpretation_effect (classify i) w w'.
Proof.
  intros H. unfold run_interpretation. rewrite H.
  unfold interpretation_body, get_previous_result, select_latest,
    save_interpretation_to_db, interpretation_effect.
  destruct w as [d lf dl se ip cl tk]. simpl in *.
  destruct d as [rows | e]; simpl.
  - eexists. split; [reflexivity |]. simpl.
    repeat split; eauto; eexists; reflexivity.
  - eexists. split; [reflexivity |]. simpl.
    repeat split; eauto; eexists; reflexivity.
Qed.

Lemma batch_effect_none (w w' : World) :
  is_processing w' = false -> db w' = db w -> log_file w' = log_file w ->
  dialogs w' = dialogs w ->
  batch_effect [] w w'.
Proof.
  intros Hi Hd Hl Hb. unfold batch_effect. split; [exact Hi |]. split.
  - exists []. rewrite app_nil_r. repeat split; [exact Hl | constructor].
  - destruct (db w) as [rows | e].
    + split; [| exact Hb]. exists []. rewrite app_nil_r. split; [exact Hd | constructor].
    + split; [exact Hd |]. exists []. rewrite app_nil_r.
      repeat split; [exact Hb | constructor].
Qed.

Lemma batch_effect_one (r : ResultDict) (w w' : World) :
  interpretation_effect r w w' -> batch_effect [r] w w'.
Proof.
  intros (Hi & (lr & Hl & Hlen) & Hd). unfold batch_effect.
  split; [exact Hi |]. split.
  - exists [lr]. repeat split; [exact Hl | constructor; [exact Hlen | constructor]].
  - destruct (db w) as [rows | e].
    + destruct Hd as [[ts Hd] Hb]. split; [| exact Hb].
      exists [to_history ts r]. split; [exact Hd |].
      constructor; [exists ts; reflexivity | constructor].
    + destruct Hd as (Hd & box & Hb & Hk & Ht). split; [exact Hd |].
      exists [box]. repeat split; [exact Hb | ].
      constructor; [split; assumption | constructor].
Qed.

Lemma batch_effect_app (rs1 rs2 : list ResultDict) (w w1 w2 : World) :
  batch_effect rs1 w w1 -> batch_effect rs2 w1 w2 ->
  batch_effect (rs1 ++ rs2) w w2.
Proof.
  intros (_ & (l1 & Hl1 & Hn1 & Hf1) & Hd1) (Hi & (l2 & Hl2 & Hn2 & Hf2) & Hd2).
  unfold batch_effect. split; [exact Hi |]. split.
  - exists (l1 ++ l2)%list. rewrite Hl2, Hl1, <- app_assoc, !length_app, Hn1, Hn2.
    repeat split. apply Forall_app. split; assumption.
  - destruct (db w) as [rows | e].
    + destruct Hd1 as [(a1 & Hd1 & F1) Hb1]. rewrite Hd1 in Hd2.
      destruct Hd2 as [(a2 & Hd2 & F2) Hb2].
      split; [| rewrite Hb2; exact Hb1].
      exists (a1 ++ a2)%list. rewrite Hd2, <- app_assoc. split; [reflexivity |].
      apply Forall2_app; assumption.
    + destruct Hd1 as (Hd1 & b1 & Hb1 & Hn1' & F1). rewrite Hd1 in Hd2.
      destruct Hd2 as (Hd2 & b2 & Hb2 & Hn2' & F2).
      split; [exact Hd2 |].
      exists (b1 ++ b2)%list. rewrite Hb2, Hb1, <- app_assoc, !length_app, Hn1', Hn2'.
      repeat split. apply Forall_app. split; assumption.
Qed.

(** A row read through a complete header map while no interpretation is in
    progress: the result is the classification of its input, if it has
    one. *)
Lemma _process_row_data_result (row : list string) (header_map : dict nat)
    (op_id run_id : string) (row_num : nat) (w : World) :
  complete header_map ->
  is_processing w = false ->
  exists w' : World,
    _process_row_data row header_map op_id run_id row_num w
    = (option_map classify (row_input header_map op_id run_id row), w')
    /\ batch_effect
         (match row_input header_map op_id run_id row with
          | Some i => [classify i]
          | None => []
          end) w w'.
Proof.
  intros C Hidle.
  unfold _process_row_data, row_attempt, row_input.
  rewrite !cell_column by (apply C; simpl; auto 6).
  destruct (column header_map row "sample_id") as [sv |];
    [| eexists; split; [reflexivity | apply batch_effect_none; auto]].
  destruct (column header_map row "nil") as [nv |];
    [| eexists; split; [reflexivity | apply batch_effect_none; auto]].
  destruct (column header_map row "tb1") as [t1 |];
    [| eexists; split; [reflexivity | apply batch_effect_none; auto]].
  destruct (column header_map row "tb2") as [t2 |];
    [| eexists; split; [reflexivity | apply batch_effect_none; auto]].
  destruct (column header_map row "mitogen") as [mv |];
    [| eexists; split; [reflexivity | apply batch_effect_none; auto]].
  rewrite truthy_empty, negb_involutive.
  destruct (String.eqb (PyStr.strip sv) "");
    [eexists; split; [reflexivity | apply batch_effect_none; auto] |].
  destruct (PyFloat.float_of_string (PyStr.strip nv));
    [| eexists; split; [reflexivity | apply batch_effect_none; auto]].
  destruct (PyFloat.float_of_string (PyStr.strip t1));
    [| eexists; split; [reflexivity | apply batch_effect_none; auto]].
  destruct (PyFloat.float_of_string (PyStr.strip t2));
    [| eexists; split; [reflexivity | apply batch_effect_none; auto]].
  destruct (PyFloat.float_of_string (PyStr.strip mv));
    [| eexists; split; [reflexivity | apply batch_effect_none; auto]].
  match goal with
  | |- context [run_interpretation ?i w] =>
      destruct (run_interpretation_effect i w Hidle) as (w' & E & Heff);
      rewrite E
  end.
  exists w'. split; [reflexivity | apply batch_effect_one, Heff].
Qed.

Lemma batch_loop_results (any_value : list string -> bool)
    (header_map : dict nat) (op_id run_id : string) :
  complete header_map ->
  forall (rows : list (list string)) (processed : list ResultDict)
         (skipped row_num : nat) (w : World),
    1 <= row_num ->
    is_processing w = false ->
    exists (w' : World),
      fst (fst (fst (batch_loop any_value rows op_id run_id processed skipped row_num
                       (Some header_map) w)))
      = (processed
           ++ kept_results (fun r => negb (any_value r)) header_map op_id run_id rows)%list
      /\ snd (batch_loop any_value rows op_id run_id processed skipped row_num
                (Some header_map) w) = w'
      /\ batch_effect
           (kept_results (fun r => negb (any_value r)) header_map op_id run_id rows)
           w w'.
Proof.
  intros C. induction rows as [| row rows IH]; intros processed skipped n w Hn Hidle.
  - simpl. exists w. rewrite app_nil_r.
    split; [reflexivity |]. split; [reflexivity |].
    apply batch_effect_none; auto.
  - destruct n as [| m]; [lia |].
    cbn [batch_loop]. change (Nat.eqb (S (S m)) 1) with false.
    change (Nat.ltb 1 (S (S m))) with true.
    cbv iota. rewrite (complete_truthy _ C). cbn [andb].
    unfold kept_results. cbn [flat_map]. fold (kept_results (fun r => negb (any_value r))
                                                 header_map op_id run_id rows).
    destruct (any_value row) eqn:Hany; cbn [negb].
    + destruct (_process_row_data_result row header_map op_id run_id (S (S m)) w
                  C Hidle) as (w1 & E & Heff).
      rewrite E.
      assert (Hidle1 : is_processing w1 = false) by apply Heff.
      destruct (row_input header_map op_id run_id row) as [i |]; cbn [option_map].
      * destruct (IH (processed ++ [classify i])%list skipped (S (S m)) w1
                    (le_n_S 0 (S m) (Nat.le_0_l (S m))) Hidle1)
          as (w' & Hp & Hw & Heff').
        exists w'. rewrite Hp, <- app_assoc.
        split; [reflexivity |]. split; [exact Hw |].
        apply (batch_effect_app [classify i] _ w w1 w'); assumption.
      * destruct (IH processed (S skipped) (S (S m)) w1
                    (le_n_S 0 (S m) (Nat.le_0_l (S m))) Hidle1)
          as (w' & Hp & Hw & Heff').
        exists w'. rewrite Hp. split; [reflexivity |]. split; [exact Hw |].
        apply (batch_effect_app [] _ w w1 w'); assumption.
    + destruct (IH processed skipped (S (S m)) w
                  (le_n_S 0 (S m) (Nat.le_0_l (S m))) Hidle)
        as (w' & Hp & Hw & Heff').
      exists w'. rewrite Hp. split; [reflexivity |]. split; assumption.
Qed.

Lemma kept_results_ext (f g : list string -> bool) (header_map : dict nat)
    (op_id run_id : string) (rows : list (list string)) :
  (forall row, f row = g row \/ (row_input header_map op_id run_id row = None)) ->
  kept_results f header_map op_id run_id rows
  = kept_results g header_map op_id run_id rows.
Proof.
  intros H. unfold kept_results. induction rows as [| row rows IH]; [reflexivity |].
  cbn [flat_map]. rewrite IH. f_equal.
  destruct (H row) as [E | E]; [rewrite E; reflexivity |].
  rewrite E. destruct (f row), (g row); reflexivity.
Qed.

Lemma whitespace_row_no_input (header_map : dict nat) (op_id run_id : string)
    (row : list string) :
  whitespace_row row = true -> row_input header_map op_id run_id row = None.
Proof.
  intros H. unfold row_input, column.
  destruct (dict_get "sample_id" header_map) as [i |]; [| reflexivity].
  destruct (nth_error row i) as [v |] eqn:E; [| reflexivity].
  rewrite (whitespace_cell row i v H E).
  destruct (match dict_get "nil" header_map with Some i => _ | None => _ end);
    [| reflexivity].
  destruct (match dict_get "tb1" header_map with Some i => _ | None => _ end);
    [| reflexivity].
  destruct (match dict_get "tb2" header_map with Some i => _ | None => _ end);
    [| reflexivity].
  destruct (match dict_get "mitogen" header_map with Some i => _ | None => _ end);
    reflexivity.
Qed.

(** A batch with an accepted header, in full. *)
Lemma batch_loop_table_results (any_value : list string -> bool)
    (header : list string) (rows : list (list string)) (op_id run_id : string)
    (w : World) (header_map : dict nat) :
  fst (_parse_header header w) = Some header_map ->
  is_processing w = false ->
  batch_processed (batch_loop any_value (header :: rows) op_id run_id [] 0 0 None w)
  = kept_results (fun r => negb (any_value r)) header_map op_id run_id rows
  /\ batch_effect
       (kept_results (fun r => negb (any_value r)) header_map op_id run_id rows)
       w (snd (batch_loop any_value (header :: rows) op_id run_id [] 0 0 None w)).
Proof.
  intros H Hidle.
  destruct (_parse_header_accepts header w header_map H) as [E C].
  cbn [batch_loop]. change (Nat.eqb 1 1) with true. cbv iota. rewrite E.
  change (Nat.ltb 1 1) with false. rewrite andb_false_r.
  destruct (batch_loop_results any_value header_map op_id run_id C rows [] 0 1 w
              (le_n 1) Hidle) as (w' & Hp & Hw & Heff).
  unfold batch_processed. rewrite Hp, Hw. split; [reflexivity | exact Heff].
Qed.

Lemma batch_processed_results (header : list string)
    (rows : list (list string)) (op_id run_id : string) (w : World)
    (header_map : dict nat) :
  fst (_parse_header header w) = Some header_map ->
  is_processing w = false ->
  batch_processed (_process_csv (header :: rows) op_id run_id w)
  = kept_results blank_row header_map op_id run_id rows
  /\ batch_processed (_process_excel (header :: rows) op_id run_id w)
     = kept_results blank_row header_map op_id run_id rows.
Proof.
  intros H Hidle. unfold _process_csv, _process_excel. split.
  - rewrite (proj1 (batch_loop_table_results _ header rows op_id run_id w
                      header_map H Hidle)).
    apply kept_results_ext. intros row. left.
    rewrite any_not_blank. apply negb_involutive.
  - rewrite (proj1 (batch_loop_table_results _ header rows op_id run_id w
                      header_map H Hidle)).
    apply kept_results_ext. intros row.
    rewrite any_stripped_not_whitespace, negb_involutive.
    destruct (whitespace_row row) eqn:W.
    + right. apply whitespace_row_no_input, W.
    + left. destruct (blank_row row) eqn:B; [| reflexivity].
      rewrite (blank_is_whitespace row B) in W. discriminate W.
Qed.

(** X9: the results of a batch import are, in row order, the
    classifications of the data rows that are not blank and that no
    validation rule rejects, with the operator and run of the batch; the
    CSV and the Excel path give the same list. *)
Theorem batch_results_follow_the_rows (header : list string)
    (rows : list (list string)) (op_id run_id : string) (w : World)
    (header_map : dict nat) :
  fst (_parse_header header w) = Some header_map ->
  is_processing w = false ->
  batch_processed (_process_csv (header :: rows) op_id run_id w)
  = kept_results blank_row header_map op_id run_id rows
  /\ batch_processed (_process_excel (header :: rows) op_id run_id w)
     = kept_results blank_row header_map op_id run_id rows.
Proof. exact (batch_processed_results header rows op_id run_id w header_map). Qed.

Lemma batch_results_follow_the_rows_witness :
  batch_processed (_process_csv (batch_header :: five_rows) "op" "run" idle_world)
  = kept_results blank_row batch_header_map "op" "run" five_rows
  /\ batch_processed (_process_excel (batch_header :: five_rows) "op" "run" idle_world)
     = kept_results blank_row batch_header_map "op" "run" five_rows.
Proof.
  apply (batch_results_follow_the_rows batch_header five_rows "op" "run" idle_world
           batch_header_map); reflexivity.
Defined.

(** X10: on a database that answers, a CSV batch appends to the history one
    row for each processed result, in order and with the fields of that
    result as SQLite stores them (NULL for an input that is not a number,
    zero without its sign), writes one log row for each, shows no message
    box and leaves [is_processing] reset. *)
Theorem batch_appends_to_history (header : list string)
    (rows : list (list string)) (op_id run_id : string) (w : World)
    (header_map : dict nat) (history : list Db.Row) :
  fst (_parse_header header w) = Some header_map ->
  is_processing w = false ->
  db w = Online history ->
  exists added : list Db.Row,
    db (snd (_process_csv (header :: rows) op_id run_id w)) = Online (history ++ added)
    /\ Forall2 (fun row r => exists ts, row = to_history ts r) added
         (batch_processed (_process_csv (header :: rows) op_id run_id w))
    /\ dialogs (snd (_process_csv (header :: rows) op_id run_id w)) = dialogs w
    /\ List.length (log_file (snd (_process_csv (header :: rows) op_id run_id w)))
       = List.length (log_file w)
         + List.length (batch_processed (_process_csv (header :: rows) op_id run_id w))
    /\ is_processing (snd (_process_csv (header :: rows) op_id run_id w)) = false.
Proof.
  intros H Hidle Hdb. unfold _process_csv.
  destruct (batch_loop_table_results (existsb PyStr.truthy) header rows op_id run_id w
              header_map H Hidle) as [Hp Heff].
  rewrite Hp. destruct Heff as (Hi & (logs & Hl & Hn & _) & Hd).
  rewrite Hdb in Hd. destruct Hd as [(added & Hd & F) Hb].
  exists added. rewrite Hl, length_app, Hn. repeat split; assumption.
Qed.

Lemma batch_appends_to_history_witness :
  exists added : list Db.Row,
    db (snd (_process_csv (batch_header :: five_rows) "op" "run" idle_world))
    = Online ([] ++ added)
    /\ Forall2 (fun row r => exists ts, row = to_history ts r) added
         (batch_processed (_process_csv (batch_header :: five_rows) "op" "run" idle_world))
    /\ dialogs (snd (_process_csv (batch_header :: five_rows) "op" "run" idle_world))
       = dialogs idle_world
    /\ List.length
         (log_file (snd (_process_csv (batch_header :: five_rows) "op" "run" idle_world)))
       = List.length (log_file idle_world)
         + List.length
             (batch_processed
                (_process_csv (batch_header :: five_rows) "op" "run" idle_world))
    /\ is_processing (snd (_process_csv (batch_header :: five_rows) "op" "run" idle_world))
       = false.
Proof.
  apply (batch_appends_to_history batch_header five_rows "op" "run" idle_world
           batch_header_map []); reflexivity.
Defined.

(** X11: on a database that fails, a CSV batch still returns the same
    processed results; the database is unchanged and one Database Error
    box is shown for each processed result. *)
Theorem batch_on_failing_database (header : list string)
    (rows : list (list string)) (op_id run_id : string) (w : World)
    (header_map : dict nat) (msg : string) :
  fst (_parse_header header w) = Some header_map ->
  is_processing w = false ->
  db w = Faulty msg ->
  batch_processed (_process_csv (header :: rows) op_id run_id w)
  = kept_results blank_row header_map op_id run_id rows
  /\ db (snd (_process_csv (header :: rows) op_id run_id w)) = Faulty msg
  /\ exists boxes : list Dialog,
       dialogs (snd (_process_csv (header :: rows) op_id run_id w))
       = (dialogs w ++ boxes)%list
       /\ List.length boxes
          = List.length (batch_processed (_process_csv (header :: rows) op_id run_id w))
       /\ Forall database_error_box boxes.
Proof.
  intros H Hidle Hdb.
  split; [apply (batch_processed_results header rows op_id run_id w header_map H Hidle) |].
  unfold _process_csv.
  destruct (batch_loop_table_results (existsb PyStr.truthy) header rows op_id run_id w
              header_map H Hidle) as [Hp Heff].
  rewrite Hp. destruct Heff as (_ & _ & Hd).
  rewrite Hdb in Hd. exact Hd.
Qed.

Lemma batch_on_failing_database_witness :
  batch_processed (_process_csv (batch_header :: five_rows) "op" "run" failing_database)
  = kept_results blank_row batch_header_map "op" "run" five_rows
  /\ db (snd (_process_csv (batch_header :: five_rows) "op" "run" failing_database))
     = Faulty "disk I/O error"
  /\ exists boxes : list Dialog,
       dialogs (snd (_process_csv (batch_header :: five_rows) "op" "run" failing_database))
       = (dialogs failing_database ++ boxes)%list
       /\ List.length boxes
          = List.length
              (batch_processed
                 (_process_csv (batch_header :: five_rows) "op" "run" failing_database))
       /\ Forall database_error_box boxes.
Proof.
  apply (batch_on_failing_database batch_header five_rows "op" "run" failing_database
           batch_header_map "disk I/O error"); reflexivity.
Defined.

Lemma whitespace_rows_are_the_difference (header_map : dict nat)
    (rows : list (list string)) :
  count (fun r => negb (blank_row r) && rejected header_map r) rows
  = count (fun r => negb (whitespace_row r) && rejected header_map r) rows
    + count (fun r => whitespace_row r && negb (blank_row r)) rows.
Proof.
  induction rows as [| row rows IH]; [reflexivity |].
  rewrite !count_cons, IH.
  destruct (whitespace_row row) eqn:W.
  - rewrite (proj1 (whitespace_row_rejected header_map row W)).
    destruct (blank_row row); simpl; lia.
  - destruct (blank_row row) eqn:B;
      [rewrite (blank_is_whitespace row B) in W; discriminate W |].
    simpl. lia.
Qed.

(** X12: for the same table the Excel path processes the same results and
    reports the same total as the CSV path; the CSV path skips more rows,
    by the number of rows that hold only whitespace without being
    blank. *)
Theorem excel_skips_fewer_rows (header : list string)
    (rows : list (list string)) (op_id run_id : string) (w : World)
    (header_map : dict nat) :
  fst (_parse_header header w) = Some header_map ->
  is_processing w = false ->
  batch_processed (_process_excel (header :: rows) op_id run_id w)
  = batch_processed (_process_csv (header :: rows) op_id run_id w)
  /\ batch_total (_process_excel (header :: rows) op_id run_id w)
     = batch_total (_process_csv (header :: rows) op_id run_id w)
  /\ batch_skipped (_process_csv (header :: rows) op_id run_id w)
     = batch_skipped (_process_excel (header :: rows) op_id run_id w)
       + count (fun r => whitespace_row r && negb (blank_row r)) rows.
Proof.
  intros H Hidle.
  destruct (batch_processed_results header rows op_id run_id w header_map H Hidle)
    as [Pc Px].
  destruct (_process_csv_counts header rows op_id run_id w header_map H Hidle)
    as (Tc & Sc & _).
  destruct (_process_excel_counts header rows op_id run_id w header_map H Hidle)
    as (Tx & Sx & _).
  rewrite Pc, Px, Tc, Tx, Sc, Sx.
  split; [reflexivity |]. split; [reflexivity |].
  apply whitespace_rows_are_the_difference.
Qed.

Lemma excel_skips_fewer_rows_witness :
  batch_processed
    (_process_excel (batch_header :: five_rows ++ [spaces_row]) "op" "run" idle_world)
  = batch_processed
      (_process_csv (batch_header :: five_rows ++ [spaces_row]) "op" "run" idle_world)
  /\ batch_total
       (_process_excel (batch_header :: five_rows ++ [spaces_row]) "op" "run" idle_world)
     = batch_total
         (_process_csv (batch_header :: five_rows ++ [spaces_row]) "op" "run" idle_world)
  /\ batch_skipped
       (_process_csv (batch_header :: five_rows ++ [spaces_row]) "op" "run" idle_world)
     = batch_skipped
         (_process_excel (batch_header :: five_rows ++ [spaces_row]) "op" "run" idle_world)
       + 1.
Proof.
  apply (excel_skips_fewer_rows batch_header (five_rows ++ [spaces_row]) "op" "run"
           idle_world batch_header_map); reflexivity.
Defined.

(** ** Header rows *)

Lemma last_index_spec (name : string) (cells : list string) :
  match last_index name cells with
  | Some i => nth_error cells i = Some name
              /\ forall j, i < j -> nth_error cells j <> Some name
  | None => ~ In name cells
  end.
Proof.
  induction cells as [| c rest IH]; simpl; [auto |].
  destruct (last_index name rest) as [k |].
  - destruct IH as [Hk Hlast]. split; [exact Hk |].
    intros [| j] Hj; [lia |]. simpl. apply Hlast. lia.
  - destruct (String.eqb_spec c name) as [E | N].
    + subst. split; [reflexivity |].
      intros [| j] Hj; [lia |]. simpl. intros F. apply IH, (nth_error_In _ _ F).
    + intros [F | F]; [contradiction | apply IH, F].
Qed.

Lemma header_name_injective (key key' : string) :
  In key batch_keys -> In key' batch_keys ->
  header_name key = header_name key' -> key = key'.
Proof.
  simpl. intros Hk Hk' E.
  repeat (destruct Hk as [Hk | Hk]; [subst key |]); try contradiction;
    repeat (destruct Hk' as [Hk' | Hk']; [subst key' |]); try contradiction;
    vm_compute in E; try discriminate E; reflexivity.
Qed.

(** One step of the loop of [_parse_header], by the cell it reads. *)
Lemma parse_header_loop_step (i : nat) (header : string) (rest : list string)
    (header_map : dict nat) (found_headers : list string) :
  (exists key, In key batch_keys /\ header = header_name key
     /\ parse_header_loop i (header :: rest) header_map found_headers
        = parse_header_loop (S i) rest (dict_set key i header_map)
            (header_name key :: found_headers))
  \/ ((forall key, In key batch_keys -> header <> header_name key)
      /\ parse_header_loop i (header :: rest) header_map found_headers
         = parse_header_loop (S i) rest header_map found_headers).
Proof.
  cbn [parse_header_loop].
  destruct (String.eqb_spec header "sample id") as [E | N1];
    [left; exists "sample_id"; subst; simpl; auto 7 |].
  destruct (String.eqb_spec header "nil") as [E | N2];
    [left; exists "nil"; subst; simpl; auto 7 |].
  destruct (String.eqb_spec header "tb1") as [E | N3];
    [left; exists "tb1"; subst; simpl; auto 7 |].
  destruct (String.eqb_spec header "tb2") as [E | N4];
    [left; exists "tb2"; subst; simpl; auto 7 |].
  destruct (String.eqb_spec header "mitogen") as [E | N5];
    [left; exists "mitogen"; subst; simpl; auto 8 |].
  right. split; [| reflexivity].
  simpl. intros key Hk.
  repeat (destruct Hk as [Hk | Hk]; [subst key; assumption |]). destruct Hk.
Qed.

(** The loop maps every key to the last cell holding its name and finds
    the names that occur. *)
Lemma parse_header_loop_spec (cells : list string) :
  forall (i : nat) (header_map : dict nat) (found_headers : list string)
         (key : string),
    In key batch_keys ->
    dict_get key (fst (parse_header_loop i cells header_map found_headers))
    = match last_index (header_name key) cells with
      | Some k => Some (i + k)
      | None => dict_get key header_map
      end
    /\ (in_strings (header_name key)
          (snd (parse_header_loop i cells header_map found_headers)) = true
        <-> in_strings (header_name key) found_headers = true
            \/ In (header_name key) cells).
Proof.
  induction cells as [| c rest IH]; intros i hm found key Hk.
  - simpl. split; [reflexivity | tauto].
  - destruct (parse_header_loop_step i c rest hm found)
      as [(key' & Hk' & Ec & E) | [Hnone E]]; rewrite E.
    + destruct (IH (S i) (dict_set key' i hm) (header_name key' :: found) key Hk)
        as [Hget Hfound].
      rewrite Hget. cbn [last_index].
      destruct (last_index (header_name key) rest) as [k |].
      * split; [f_equal; lia |].
        rewrite Hfound. unfold in_strings. cbn [existsb In].
        rewrite orb_true_iff, String.eqb_eq. subst c. intuition congruence.
      * destruct (String.eqb_spec c (header_name key)) as [Ek | Nk].
        -- assert (key' = key)
             by (apply header_name_injective; congruence).
           subst key'. rewrite dict_get_set_same. split; [f_equal; lia |].
           rewrite Hfound. unfold in_strings. cbn [existsb In].
           rewrite orb_true_iff, String.eqb_eq. subst c. intuition congruence.
        -- assert (key' <> key) by (intros ->; apply Nk; exact Ec).
           rewrite dict_get_set_other by assumption. split; [reflexivity |].
           rewrite Hfound. unfold in_strings. cbn [existsb In].
           rewrite orb_true_iff, String.eqb_eq. subst c. intuition congruence.
    + destruct (IH (S i) hm found key Hk) as [Hget Hfound].
      pose proof (Hnone key Hk) as Hne.
      rewrite Hget. cbn [last_index].
      destruct (last_index (header_name key) rest) as [k |].
      * split; [f_equal; lia |]. rewrite Hfound. cbn [In]. intuition congruence.
      * destruct (String.eqb_spec c (header_name key)) as [Ek | Nk];
          [exfalso; apply (Hnone key Hk Ek) |].
        split; [reflexivity |]. rewrite Hfound. cbn [In]. intuition congruence.
Qed.

Lemma in_strings_In (x : string) (l : list string) :
  in_strings x l = true <-> In x l.
Proof.
  unfold in_strings. rewrite existsb_exists. split.
  - intros (y & Hy & E). apply String.eqb_eq in E. subst. exact Hy.
  - intros H. exists x. split; [exact H | apply String.eqb_refl].
Qed.

Lemma required_is_header_name (name : string) :
  In name REQUIRED_BATCH_HEADERS ->
  exists key, In key batch_keys /\ name = header_name key.
Proof.
  simpl. intros H.
  repeat (destruct H as [H | H];
          [subst name;
           first [ exists "mitogen"; split; [simpl; auto 6 | reflexivity]
                 | exists "nil"; split; [simpl; auto 6 | reflexivity]
                 | exists "sample_id"; split; [simpl; auto 6 | reflexivity]
                 | exists "tb1"; split; [simpl; auto 6 | reflexivity]
                 | exists "tb2"; split; [simpl; auto 6 | reflexivity] ] |]).
  destruct H.
Qed.

(** The names [_parse_header] misses are the required names that no
    normalized cell holds. *)
Lemma missing_headers_spec (header_row : list string) :
  filter (fun h => negb (in_strings h
            (snd (parse_header_loop 0 (normalized header_row) [] []))))
    REQUIRED_BATCH_HEADERS
  = filter (fun h => negb (in_strings h (normalized header_row)))
      REQUIRED_BATCH_HEADERS.
Proof.
  apply filter_ext_in. intros name Hn.
  destruct (required_is_header_name name Hn) as (key & Hk & ->).
  f_equal.
  destruct (parse_header_loop_spec (normalized header_row) 0 [] [] key Hk)
    as [_ Hfound].
  destruct (in_strings (header_name key)
              (snd (parse_header_loop 0 (normalized header_row) [] []))) eqn:F.
  - symmetry. apply in_strings_In.
    destruct (proj1 Hfound eq_refl) as [H | H]; [discriminate H | exact H].
  - destruct (in_strings (header_name key) (normalized header_row)) eqn:G;
      [| reflexivity].
    apply in_strings_In in G.
    assert (T : false = true) by (apply Hfound; right; exact G). discriminate T.
Qed.

Lemma _parse_header_cases (header_row : list string) (w : World) :
  _parse_header header_row w
  = match missing_names header_row with
    | [] => (Some (fst (parse_header_loop 0 (normalized header_row) [] [])), w)
    | missing =>
        (None,
         messagebox showerror "Header Error"
           ("Missing headers:" ++ newline ++ join ", " missing) w)
    end.
Proof.
  unfold _parse_header, missing_names.
  change (map (fun h => PyStr.lower (PyStr.strip h)) header_row)
    with (normalized header_row).
  rewrite <- (missing_headers_spec header_row).
  destruct (parse_header_loop 0 (normalized header_row) [] []) as [hm found].
  cbn [fst snd].
  destruct (filter (fun h => negb (in_strings h found)) REQUIRED_BATCH_HEADERS);
    reflexivity.
Qed.

Lemma missing_names_nil (header_row : list string) :
  missing_names header_row = []
  <-> forall name, In name REQUIRED_BATCH_HEADERS -> In name (normalized header_row).
Proof.
  unfold missing_names. split.
  - intros H name Hn. apply in_strings_In.
    destruct (in_strings name (normalized header_row)) eqn:E; [reflexivity |].
    assert (F : In name (filter (fun h => negb (in_strings h (normalized header_row)))
                           REQUIRED_BATCH_HEADERS))
      by (apply filter_In; split; [exact Hn | rewrite E; reflexivity]).
    rewrite H in F. destruct F.
  - intros H.
    destruct (filter _ REQUIRED_BATCH_HEADERS) as [| m ms] eqn:F; [reflexivity |].
    assert (Hm : In m (m :: ms)) by (left; reflexivity).
    rewrite <- F in Hm. apply filter_In in Hm. destruct Hm as [Hm Hneg].
    apply H, in_strings_In in Hm. rewrite Hm in Hneg. discriminate Hneg.
Qed.

(** X13: [_parse_header] accepts a header row, showing nothing, exactly when
    each of the five names sample id, nil, tb1, tb2, mitogen is the
    stripped, lower-cased text of some cell. *)
Theorem header_accepted_iff_names_present (header_row : list string) (w : World) :
  (exists header_map, _parse_header header_row w = (Some header_map, w))
  <-> forall name, In name [ "sample id"; "nil"; "tb1"; "tb2"; "mitogen" ] ->
        In name (normalized header_row).
Proof.
  rewrite _parse_header_cases.
  assert (R : (forall name, In name [ "sample id"; "nil"; "tb1"; "tb2"; "mitogen" ] ->
                 In name (normalized header_row))
              <-> missing_names header_row = []).
  { rewrite missing_names_nil. unfold REQUIRED_BATCH_HEADERS. simpl. split;
      intros H name Hn; apply H; intuition. }
  rewrite R.
  destruct (missing_names header_row) as [| m ms]; split.
  - reflexivity.
  - eauto.
  - intros [hm H]. discriminate H.
  - discriminate.
Qed.

(** X14: the header map of an accepted header row sends each key to the
    last column whose stripped, lower-cased text is the key's header
    name. *)
Theorem header_map_points_to_last_column (header_row : list string) (w : World)
    (header_map : dict nat) (key : string) :
  fst (_parse_header header_row w) = Some header_map ->
  In key [ "sample_id"; "nil"; "tb1"; "tb2"; "mitogen" ] ->
  exists i : nat,
    dict_get key header_map = Some i
    /\ nth_error (normalized header_row) i = Some (header_name key)
    /\ forall j, i < j -> nth_error (normalized header_row) j <> Some (header_name key).
Proof.
  rewrite _parse_header_cases. intros H Hk.
  destruct (missing_names header_row) as [| m ms] eqn:M; [| discriminate H].
  simpl in H. injection H as <-.
  destruct (parse_header_loop_spec (normalized header_row) 0 [] [] key Hk) as [Hget _].
  pose proof (last_index_spec (header_name key) (normalized header_row)) as L.
  destruct (last_index (header_name key) (normalized header_row)) as [k |].
  - exists k. split; [exact Hget | exact L].
  - exfalso. apply L. apply (proj1 (missing_names_nil header_row) M).
    unfold REQUIRED_BATCH_HEADERS. simpl in Hk. simpl.
    repeat (destruct Hk as [Hk | Hk]; [subst key; vm_compute; auto 6 |]).
    destruct Hk.
Qed.

Lemma header_map_points_to_last_column_witness :
  exists i : nat,
    dict_get "tb1" [ ("tb1", 3); ("sample_id", 1); ("nil", 2); ("tb2", 4); ("mitogen", 5) ]
    = Some i
    /\ nth_error (normalized repeated_header) i = Some "tb1"
    /\ forall j, i < j -> nth_error (normalized repeated_header) j <> Some "tb1".
Proof.
  apply (header_map_points_to_last_column repeated_header idle_world
           [ ("tb1", 3); ("sample_id", 1); ("nil", 2); ("tb2", 4); ("mitogen", 5) ]
           "tb1").
  - reflexivity.
  - simpl. auto.
Defined.

(** X15: when a required name is missing from the header row, both batch
    paths return no result, 0 skipped and 0 rows, and show one Header Error
    box that lists the missing names in sorted order; no data row is
    read. *)
Theorem missing_header_aborts_the_batch (header_row : list string)
    (rows : list (list string)) (op_id run_id : string) (w : World) :
  missing_names header_row <> [] ->
  _process_csv (header_row :: rows) op_id run_id w
  = (([], 0, 0),
     messagebox showerror "Header Error"
       ("Missing headers:" ++ newline ++ join ", " (missing_names header_row)) w)
  /\ _process_excel (header_row :: rows) op_id run_id w
     = (([], 0, 0),
        messagebox showerror "Header Error"
          ("Missing headers:" ++ newline ++ join ", " (missing_names header_row)) w).
Proof.
  intros H. unfold _process_csv, _process_excel. cbn [batch_loop].
  change (Nat.eqb 1 1) with true. cbv iota.
  rewrite _parse_header_cases.
  destruct (missing_names header_row) as [| m ms]; [contradiction |].
  split; reflexivity.
Qed.

Lemma missing_header_aborts_the_batch_witness :
  _process_csv (short_header :: five_rows) "op" "run" idle_world
  = (([], 0, 0),
     messagebox showerror "Header Error"
       ("Missing headers:" ++ newline ++ "mitogen, tb1, tb2") idle_world)
  /\ _process_excel (short_header :: five_rows) "op" "run" idle_world
     = (([], 0, 0),
        messagebox showerror "Header Error"
          ("Missing headers:" ++ newline ++ "mitogen, tb1, tb2") idle_world).
Proof.
  apply (missing_header_aborts_the_batch short_header five_rows "op" "run" idle_world).
  vm_compute. discriminate.
Defined.

(** ** The single-sample mode *)

(** X16: when the Sample ID field is blank or one of the four values is
    empty or no number, the single-sample interpretation returns None,
    writes nothing to the database or the log, resets [is_processing] and
    shows one Input Error box: the Sample ID message, or else the messages
    of all invalid fields, one on each line. *)
Theorem invalid_entries_change_nothing (e : Entries) (a : App) :
  is_processing (world a) = false ->
  entries_input e = None ->
  fst (run_interpretation_single e a) = Returns None
  /\ db (world (snd (run_interpretation_single e a))) = db (world a)
  /\ log_file (world (snd (run_interpretation_single e a))) = log_file (world a)
  /\ is_processing (world (snd (run_interpretation_single e a))) = false
  /\ (exists box,
        dialogs (world (snd (run_interpretation_single e a)))
        = (dialogs (world a) ++ [box])%list
        /\ input_error_box box
        /\ message box
           = if PyStr.truthy (PyStr.strip (sample_id_entry e))
             then join newline (error_messages e)
             else "Sample ID required.").
Proof.
  intros Hidle Hnone.
  unfold run_interpretation_single. rewrite Hidle.
  unfold single_body, entries_input in *. cbn [world set_world set_status].
  destruct (PyStr.truthy (PyStr.strip (sample_id_entry e))); cbn [negb] in *.
  - destruct (validate_input (nil_entry e)), (validate_input (tb1_entry e)),
      (validate_input (tb2_entry e)), (validate_input (mit_entry e));
      try discriminate Hnone; simpl;
      (repeat split; eexists; repeat split).
  - simpl. repeat split. eexists. repeat split.
Qed.

Lemma invalid_entries_change_nothing_witness :
  fst (run_interpretation_single invalid_entries ready_app) = Returns None
  /\ db (world (snd (run_interpretation_single invalid_entries ready_app)))
     = db (world ready_app)
  /\ log_file (world (snd (run_interpretation_single invalid_entries ready_app)))
     = log_file (world ready_app)
  /\ is_processing (world (snd (run_interpretation_single invalid_entries ready_app)))
     = false
  /\ (exists box,
        dialogs (world (snd (run_interpretation_single invalid_entries ready_app)))
        = (dialogs (world ready_app) ++ [box])%list
        /\ input_error_box box
        /\ message box
           = "Nil: Input cannot be empty." ++ newline
               ++ "TB2: Invalid input. Please enter numeric values." ++ newline
               ++ "Mitogen: Invalid input. Please enter numeric values.").
Proof.
  apply (invalid_entries_change_nothing invalid_entries ready_app); reflexivity.
Defined.

(** X17: with valid entry fields the single-sample interpretation returns
    and stores as last result the classification that the batch mode
    produces for the same input, and leaves the same database and log. *)
Theorem single_mode_classifies_like_batch (e : Entries) (a : App) (i : InputData) :
  is_processing (world a) = false ->
  entries_input e = Some i ->
  fst (run_interpretation_single e a) = Returns (Some (classify i))
  /\ fst (run_interpretation i (world a)) = Returns (Some (classify i))
  /\ last_results (snd (run_interpretation_single e a)) = Some (classify i)
  /\ db (world (snd (run_interpretation_single e a)))
     = db (snd (run_interpretation i (world a)))
  /\ log_file (world (snd (run_interpretation_single e a)))
     = log_file (snd (run_interpretation i (world a)))
  /\ is_processing (world (snd (run_interpretation_single e a))) = false.
Proof.
  intros Hidle Hin.
  unfold run_interpretation_single, run_interpretation. rewrite Hidle.
  unfold single_body, entries_input, interpretation_body, get_previous_result,
    select_latest, save_interpretation_to_db, classify in *.
  destruct (PyStr.truthy (PyStr.strip (sample_id_entry e))); cbn [negb] in *;
    [| discriminate Hin].
  destruct (validate_input (nil_entry e)) as [nv |]; [| discriminate Hin].
  destruct (validate_input (tb1_entry e)) as [t1 |]; [| discriminate Hin].
  destruct (validate_input (tb2_entry e)) as [t2 |]; [| discriminate Hin].
  destruct (validate_input (mit_entry e)) as [mv |]; [| discriminate Hin].
  injection Hin as <-.
  destruct a as [w lr st]. destruct w as [d lf dl se ip cl tk]. simpl in *.
  destruct d as [rows | msg]; simpl.
  - destruct (List.app _ _); simpl; repeat split.
  - destruct (List.app _ _); simpl; repeat split.
Qed.

Lemma single_mode_classifies_like_batch_witness :
  fst (run_interpretation_single positive_entries ready_app)
  = Returns (Some (classify positive_input))
  /\ fst (run_interpretation positive_input (world ready_app))
     = Returns (Some (classify positive_input))
  /\ last_results (snd (run_interpretation_single positive_entries ready_app))
     = Some (classify positive_input)
  /\ db (world (snd (run_interpretation_single positive_entries ready_app)))
     = db (snd (run_interpretation positive_input (world ready_app)))
  /\ log_file (world (snd (run_interpretation_single positive_entries ready_app)))
     = log_file (snd (run_interpretation positive_input (world ready_app)))
  /\ is_processing (world (snd (run_interpretation_single positive_entries ready_app)))
     = false.
Proof.
  apply (single_mode_classifies_like_batch positive_entries ready_app positive_input);
    reflexivity.
Defined.

Lemma prefix_refl (s : string) : String.prefix s s = true.
Proof.
  induction s as [| c s IH]; simpl; [reflexivity |].
  destruct (ascii_dec c c); [exact IH | contradiction].
Qed.

Lemma prefix_app (n a b : string) :
  String.prefix n a = true -> String.prefix n (a ++ b) = true.
Proof.
  revert a. induction n as [| c n IH]; intros a H;
    [destruct (a ++ b); reflexivity |].
  destruct a as [| x a]; simpl in *; [discriminate H |].
  destruct (ascii_dec c x); [apply IH, H | discriminate H].
Qed.

Lemma contains_cons (n : string) (x : ascii) (s : string) :
  PyStr.contains n (String x s)
  = if String.prefix n (String x s) then true else PyStr.contains n s.
Proof. reflexivity. Qed.

Lemma contains_app_l (n a b : string) :
  PyStr.contains n a = true -> PyStr.contains n (a ++ b) = true.
Proof.
  induction a as [| x a IH].
  - destruct n; [| discriminate]. intros _. destruct b; reflexivity.
  - change (String x a ++ b) with (String x (a ++ b)).
    rewrite !contains_cons.
    destruct (String.prefix n (String x a)) eqn:P.
    + intros _. change (String x (a ++ b)) with (String x a ++ b).
      rewrite (prefix_app _ _ b P). reflexivity.
    + intros H. destruct (String.prefix n (String x (a ++ b))); [reflexivity |].
      apply IH, H.
Qed.

Lemma contains_app_r (n a b : string) :
  PyStr.contains n b = true -> PyStr.contains n (a ++ b) = true.
Proof.
  intros H. induction a as [| x a IH]; [exact H |].
  change (String x a ++ b) with (String x (a ++ b)). rewrite contains_cons.
  destruct (String.prefix n (String x (a ++ b))); [reflexivity | exact IH].
Qed.

Lemma contains_refl (s : string) : PyStr.contains s s = true.
Proof.
  destruct s as [| c s]; [reflexivity |].
  rewrite contains_cons, prefix_refl. reflexivity.
Qed.

Lemma contains_join (n sep : string) (l : list string) (s : string) :
  In s l -> PyStr.contains n s = true -> PyStr.contains n (join sep l) = true.
Proof.
  intros Hin Hs. induction l as [| x l IH]; [destruct Hin |].
  destruct l as [| y l].
  - destruct Hin as [-> | []]. exact Hs.
  - change (join sep (x :: y :: l)) with (x ++ sep ++ join sep (y :: l)).
    destruct Hin as [-> | Hin].
    + apply contains_app_l, Hs.
    + apply contains_app_r, contains_app_r, IH, Hin.
Qed.

(** X18: when the previous result of the sample differs significantly from
    the new one, the single-sample interpretation shows one Interpretation
    Warnings box whose message contains the DELTA CHECK sentence with both
    results and the previous timestamp cut to minutes. *)
Theorem significant_change_is_announced (e : Entries) (a : App) (i : InputData)
    (prev ts : string) :
  is_processing (world a) = false ->
  entries_input e = Some i ->
  fst (get_previous_result (in_sample_id i) (world a)) = Returns (Some (prev, ts)) ->
  check_significant_change prev (result (classify i)) = true ->
  exists box : Dialog,
    dialogs (world (snd (run_interpretation_single e a)))
    = (dialogs (world a) ++ [box])%list
    /\ kind box = showwarning
    /\ title box = "Interpretation Warnings"
    /\ PyStr.contains (delta_text prev ts (result (classify i))) (message box) = true.
Proof.
  intros Hidle Hin Hprev Hsig.
  unfold run_interpretation_single. rewrite Hidle.
  unfold single_body, entries_input, classify in *.
  destruct (PyStr.truthy (PyStr.strip (sample_id_entry e))); cbn [negb] in *;
    [| discriminate Hin].
  destruct (validate_input (nil_entry e)) as [nv |]; [| discriminate Hin].
  destruct (validate_input (tb1_entry e)) as [t1 |]; [| discriminate Hin].
  destruct (validate_input (tb2_entry e)) as [t2 |]; [| discriminate Hin].
  destruct (validate_input (mit_entry e)) as [mv |]; [| discriminate Hin].
  injection Hin as <-. cbn [in_sample_id in_nil in_tb1 in_tb2 in_mitogen
                             in_operator_id in_run_id] in *.
  unfold get_previous_result, select_latest, save_interpretation_to_db in *.
  destruct a as [w lr st]. destruct w as [d lf dl se ip cl tk].
  cbn [world db set_world set_status set_is_processing] in *.
  destruct d as [rows | msg]; [| discriminate Hprev].
  cbn [fst] in Hprev. injection Hprev as Hprev.
  rewrite Hprev. unfold delta_warnings, delta_check.
  cbn [result with_ids] in *. rewrite Hsig. cbn [map prev_res_val prev_ts curr_res_val].
  set (msg := "DELTA CHECK: Result changed significantly from '" ++ prev
                ++ "' (" ++ prev_ts_nice ts ++ ") to '"
                ++ result (interpret_qft nv t1 t2 mv) ++ "'.").
  set (warnings := List.app (range_warnings nv mv) [msg]).
  assert (Hw : In msg warnings) by (apply in_or_app; right; left; reflexivity).
  destruct warnings as [| w0 ws] eqn:W; [destruct Hw |].
  exists {| kind := showwarning; title := "Interpretation Warnings";
            message := "Please note:" ++ (newline ++ (newline ++ join newline (w0 :: ws))) |}.
  split; [reflexivity |].
  split; [reflexivity |]. split; [reflexivity |].
  cbn [message].
  apply contains_app_r, contains_app_r, contains_app_r.
  apply (contains_join _ _ _ msg Hw), contains_refl.
Qed.

Lemma significant_change_is_announced_witness :
  exists box : Dialog,
    dialogs (world (snd (run_interpretation_single positive_entries ready_app)))
    = (dialogs (world ready_app) ++ [box])%list
    /\ kind box = showwarning
    /\ title box = "Interpretation Warnings"
    /\ PyStr.contains
         "DELTA CHECK: Result changed significantly from 'NEG' (2024-05-01 10:00) to 'POS†'."
         (message box) = true.
Proof.
  apply (significant_change_is_announced positive_entries ready_app positive_input
           "NEG" "2024-05-01 10:00:00"); reflexivity.
Defined.

(** ** Worklist *)

Lemma list_remove_nth (l : list string) :
  forall i, NoDup l -> i < List.length l ->
    list_remove (nth i l "") l = listbox_delete i l.
Proof.
  unfold listbox_delete.
  induction l as [| y l IH]; intros i Hnd Hi; [simpl in Hi; lia |].
  inversion Hnd as [| ? ? Hy Hnd']; subst.
  destruct i as [| i]; simpl.
  - rewrite String.eqb_refl. reflexivity.
  - destruct (String.eqb_spec y (nth i l "")) as [E | N].
    + exfalso. apply Hy. rewrite E. apply nth_In. simpl in Hi. lia.
    + f_equal. apply IH; [exact Hnd' | simpl in Hi; lia].
Qed.

Lemma skipn_S_tl (l : list string) :
  forall i, skipn (S i) l = tl (skipn i l).
Proof.
  induction l as [| y l IH]; intros [| i]; try reflexivity.
  change (skipn (S (S i)) (y :: l)) with (skipn (S i) l).
  change (skipn (S i) (y :: l)) with (skipn i l).
  apply IH.
Qed.

Lemma listbox_delete_NoDup (l : list string) (i : nat) :
  NoDup l -> NoDup (listbox_delete i l).
Proof.
  unfold listbox_delete. intros H.
  rewrite <- (firstn_skipn i l) in H. rewrite skipn_S_tl.
  destruct (skipn i l) as [| x rest]; [exact H |].
  apply NoDup_remove_1 in H. exact H.
Qed.

Lemma skipn_nth_cons (l : list string) :
  forall i, i < List.length l -> skipn i l = nth i l "" :: skipn (S i) l.
Proof.
  induction l as [| y l IH]; intros i Hi; [simpl in Hi; lia |].
  destruct i as [| i]; [reflexivity |].
  change (skipn (S i) (y :: l)) with (skipn i l).
  change (nth (S i) (y :: l) "") with (nth i l "").
  change (skipn (S (S i)) (y :: l)) with (skipn (S i) l).
  apply IH. simpl in Hi. lia.
Qed.

(** X19: [_worklist_add] keeps the listbox equal to the worklist and the
    worklist free of duplicates: the stripped text of the entry is
    appended at the end when it is not empty and not yet listed, and
    otherwise the worklist is unchanged; a text that is not empty is in
    the worklist afterwards. *)
Theorem worklist_add_keeps_order (wl : Worklist) (a : App) :
  worklist_ok wl ->
  worklist_ok (fst (_worklist_add wl a))
  /\ (worklist_items (fst (_worklist_add wl a))
      = if PyStr.truthy (PyStr.strip (add_entry wl))
           && negb (in_strings (PyStr.strip (add_entry wl)) (worklist_items wl))
        then (worklist_items wl ++ [PyStr.strip (add_entry wl)])%list
        else worklist_items wl)
  /\ (PyStr.strip (add_entry wl) <> "" ->
      In (PyStr.strip (add_entry wl)) (worklist_items (fst (_worklist_add wl a)))).
Proof.
  intros [Hsync Hnd]. unfold _worklist_add.
  rewrite truthy_empty.
  destruct (String.eqb_spec (PyStr.strip (add_entry wl)) "") as [E | N]; cbn [negb andb].
  - repeat split; try assumption. intros F. contradiction.
  - destruct (in_strings (PyStr.strip (add_entry wl)) (worklist_items wl)) eqn:I;
      cbn [negb fst worklist_items listbox].
    + repeat split; try assumption. intros _. apply in_strings_In, I.
    + split; [| split; [reflexivity | intros _; apply in_or_app; right; left; reflexivity]].
      split; [cbn [listbox worklist_items]; rewrite Hsync; reflexivity |].
      cbn [worklist_items]. apply NoDup_app; [exact Hnd | repeat constructor; intros [] | ].
      intros x Hx [<- | []].
      apply in_strings_In in Hx. rewrite Hx in I. discriminate I.
Qed.

Lemma worklist_add_keeps_order_witness :
  worklist_ok (fst (_worklist_add two_samples ready_app))
  /\ worklist_items (fst (_worklist_add two_samples ready_app))
     = [ "S-001"; "S-002"; "S-003" ]
  /\ ("S-003" <> "" ->
      In "S-003" (worklist_items (fst (_worklist_add two_samples ready_app)))).
Proof.
  apply (worklist_add_keeps_order two_samples ready_app).
  split; [reflexivity |].
  repeat constructor; simpl; intuition discriminate.
Defined.

(** X20: on a listbox that shows a duplicate-free worklist,
    [_worklist_remove] with a selected line removes exactly that line from
    both, after which the sample is no longer listed; no message box is
    shown. *)
Theorem worklist_remove_selected (index : nat) (wl : Worklist) (a : App) :
  worklist_ok wl ->
  index < List.length (listbox wl) ->
  exists wl' a',
    _worklist_remove (Some index) wl a = Some (wl', a')
    /\ worklist_ok wl'
    /\ worklist_items wl' = listbox_delete index (worklist_items wl)
    /\ ~ In (nth index (listbox wl) "") (worklist_items wl')
    /\ world a' = world a.
Proof.
  intros [Hsync Hnd] Hi. unfold _worklist_remove.
  rewrite Hsync in *.
  assert (Hin : in_strings (nth index (worklist_items wl) "") (worklist_items wl) = true)
    by (apply in_strings_In, nth_In, Hi).
  rewrite Hin. eexists _, _. split; [reflexivity |].
  cbn [worklist_items listbox].
  rewrite (list_remove_nth _ index Hnd Hi).
  split; [split; [reflexivity | apply listbox_delete_NoDup, Hnd] |].
  split; [reflexivity |]. split; [| reflexivity].
  unfold listbox_delete. intros F.
  pose proof Hnd as Hnd2.
  rewrite <- (firstn_skipn index (worklist_items wl)) in Hnd2.
  rewrite (skipn_nth_cons _ index Hi) in Hnd2.
  apply NoDup_remove_2 in Hnd2. contradiction.
Qed.

Lemma worklist_remove_selected_witness :
  exists wl' a',
    _worklist_remove (Some 0) two_samples ready_app = Some (wl', a')
    /\ worklist_ok wl'
    /\ worklist_items wl' = [ "S-002" ]
    /\ ~ In "S-001" (worklist_items wl')
    /\ world a' = world ready_app.
Proof.
  apply (worklist_remove_selected 0 two_samples ready_app).
  - split; [reflexivity |].
    repeat constructor; simpl; intuition discriminate.
  - simpl. lia.
Defined.

(** ** Configuration *)

Lemma dict_set_keys {V : Type} (key : string) (v : V) (d : dict V) :
  In key (map fst d) -> map fst (dict_set key v d) = map fst d.
Proof.
  induction d as [| [k v'] d IH]; simpl; [intros [] |].
  destruct (String.eqb_spec k key) as [E | N]; [reflexivity |].
  intros [F | F]; [contradiction |]. simpl. f_equal. apply IH, F.
Qed.

Lemma dict_update_spec {V : Type} (other : dict V) :
  forall config : dict V,
    (forall k, In k (map fst other) -> In k (map fst config)) ->
    NoDup (map fst other) ->
    map fst (dict_update config other) = map fst config
    /\ forall k, dict_get k (dict_update config other)
                 = match dict_get k other with
                   | Some v => Some v
                   | None => dict_get k config
                   end.
Proof.
  unfold dict_update.
  induction other as [| [k v] other IH]; intros config Hin Hnd; simpl.
  - split; [reflexivity | intros k; reflexivity].
  - inversion Hnd as [| ? ? Hk Hnd']; subst.
    assert (Hkc : In k (map fst config)) by (apply Hin; left; reflexivity).
    destruct (IH (dict_set k v config)) as [Hkeys Hget].
    + intros k' Hk'. rewrite dict_set_keys by exact Hkc. apply Hin. right. exact Hk'.
    + exact Hnd'.
    + split; [rewrite Hkeys; apply dict_set_keys, Hkc |].
      intros k'. rewrite Hget.
      destruct (String.eqb_spec k k') as [E | N].
      * subst k'.
        assert (Hnone : dict_get k other = None).
        { clear -Hk. induction other as [| [k2 v2] other IH]; [reflexivity |].
          simpl in *. destruct (String.eqb_spec k2 k) as [E | N];
            [exfalso; apply Hk; left; exact E | apply IH; tauto]. }
        rewrite Hnone, dict_get_set_same. reflexivity.
      * rewrite dict_get_set_other by exact N. reflexivity.
Qed.

Lemma dict_get_filter_keys {V : Type} (keep : string -> bool) (k : string)
    (d : dict V) :
  keep k = true ->
  dict_get k (filter (fun '(k', _) => keep k') d) = dict_get k d.
Proof.
  intros H. induction d as [| [k' v] d IH]; [reflexivity |].
  simpl. destruct (keep k') eqn:K; simpl.
  - rewrite IH. reflexivity.
  - destruct (String.eqb_spec k' k) as [E | N]; [congruence | exact IH].
Qed.

Lemma filter_keys_NoDup {V : Type} (keep : string -> bool) (d : dict V) :
  NoDup (map fst d) -> NoDup (map fst (filter (fun '(k, _) => keep k) d)).
Proof.
  induction d as [| [k v] d IH]; intros H; [constructor |].
  inversion H as [| ? ? Hk Hnd]; subst. simpl.
  destruct (keep k); [| apply IH, Hnd].
  simpl. constructor; [| apply IH, Hnd].
  intros F. apply Hk. apply in_map_iff in F. destruct F as ([k' v'] & E & F).
  apply filter_In in F. apply in_map_iff. exists (k', v'). tauto.
Qed.

Lemma valid_config_keys (members : dict json) (k : string) :
  In k (map fst (filter (fun '(k, _) => in_strings k CONFIG_KEYS) members)) ->
  In k (map fst DEFAULT_CONFIG).
Proof.
  intros Hk. apply in_map_iff in Hk. destruct Hk as ([k' v] & E & F).
  apply filter_In in F. destruct F as [_ F]. simpl in E. subst k'.
  apply (proj1 (in_strings_In k CONFIG_KEYS)). exact F.
Qed.

(** X21: from a configuration file that holds a JSON object,
    [load_config] returns a configuration with exactly the keys geometry,
    theme and dashboard_days, each with the value of the file when the
    file has the key and with the default otherwise; other members of the
    file are dropped. *)
Theorem loaded_config_has_the_three_keys (members : list (string * json)) :
  NoDup (map fst members) ->
  exists config : dict json,
    load_config (Content (JObject members)) = Some config
    /\ map fst config = [ "geometry"; "theme"; "dashboard_days" ]
    /\ forall key, In key [ "geometry"; "theme"; "dashboard_days" ] ->
         dict_get key config
         = match dict_get key members with
           | Some v => Some v
           | None => dict_get key DEFAULT_CONFIG
           end.
Proof.
  intros Hnd. eexists. split; [reflexivity |].
  set (valid := filter (fun '(k, _) => in_strings k CONFIG_KEYS) members).
  destruct (dict_update_spec valid DEFAULT_CONFIG) as [Hkeys Hget].
  - apply valid_config_keys.
  - apply filter_keys_NoDup, Hnd.
  - split; [exact Hkeys |].
    intros key Hk. rewrite Hget. unfold valid.
    rewrite (dict_get_filter_keys (fun k => in_strings k CONFIG_KEYS))
      by (apply in_strings_In; exact Hk).
    reflexivity.
Qed.

Lemma loaded_config_has_the_three_keys_witness :
  exists config : dict json,
    load_config (Content (JObject theme_only)) = Some config
    /\ map fst config = [ "geometry"; "theme"; "dashboard_days" ]
    /\ forall key, In key [ "geometry"; "theme"; "dashboard_days" ] ->
         dict_get key config
         = match dict_get key theme_only with
           | Some v => Some v
           | None => dict_get key DEFAULT_CONFIG
           end.
Proof.
  apply (loaded_config_has_the_three_keys theme_only).
  repeat constructor; simpl; intuition discriminate.
Defined.

(** X22: a configuration with exactly the three keys that [save_config]
    wrote is what [load_config] returns from the written file. *)
Theorem saved_config_loads_back (config : dict json) :
  map fst config = CONFIG_KEYS ->
  load_config (save_config config) = Some config.
Proof.
  intros K.
  destruct config as [| [k1 v1] [| [k2 v2] [| [k3 v3] [| ? ?]]]]; try discriminate K.
  injection K as -> -> ->. reflexivity.
Qed.

Lemma saved_config_loads_back_witness :
  load_config (save_config wide_window) = Some wide_window.
Proof.
  apply (saved_config_loads_back wide_window). reflexivity.
Defined.
